(** * empRole: timesheets, expenses and monthly payroll summaries

    A shallow embedding of the backend of the workforce application
    (Express route handlers over Mongoose models) and the properties of its
    time calculator, its timesheet and expense routes and its monthly
    aggregation.

    Conventions of the embedding.
    - A JavaScript Number that holds a minute count parsed from a time string
      is a [Z]; a Number that holds hours, rates or money is an exact
      rational [Q], and [NaN] is [None].
    - A Mongoose collection is a finite map [gmap nat Doc] from the document
      [_id] to the document; ObjectIds are natural numbers.
    - A route handler is a function from the authenticated caller, the
      request and the collections to a reply (HTTP status and JSON body)
      and the collections after the request. *)

From Stdlib Require Import ZArith QArith Qminmax String Ascii List Lia.
From stdpp Require Import base option list sets gmap infinite pretty.

Local Open Scope Z_scope.

(** ** JavaScript helpers used by the models *)

Module Js.

Local Open Scope string_scope.
Local Open Scope Z_scope.

(** [s.split(':')]: the pieces of [s] between the colons, in order; a
    string without a colon is its own only piece. *)
Fixpoint split_colon (s : string) : list string :=
  match s with
  | EmptyString => [EmptyString]
  | String c rest =>
      if Ascii.eqb c ":"%char then EmptyString :: split_colon rest
      else match split_colon rest with
           | piece :: pieces => String c piece :: pieces
           | [] => [String c EmptyString]
           end
  end.

Definition is_digit (c : ascii) : bool :=
  (48 <=? nat_of_ascii c)%nat && (nat_of_ascii c <=? 57)%nat.

Definition digit_value (c : ascii) : Z := Z.of_nat (nat_of_ascii c) - 48.

(** Decimal value of a string of digits read left to right, [None] as
    soon as a character is not a digit. *)
Fixpoint digits_value (acc : Z) (s : string) : option Z :=
  match s with
  | EmptyString => Some acc
  | String c rest =>
      if is_digit c then digits_value (10 * acc + digit_value c) rest
      else None
  end.

(** [Number(s)] on the strings the time format produces: the empty string
    is [0], a string of decimal digits is its value, and a string with any
    other character is taken as [NaN] ([None]).  Signs, blanks, exponents
    and radix prefixes, which [Number] also reads, never occur in a piece
    of a validated time string. *)
Definition Number (s : string) : option Z := digits_value 0 s.

(** [s.trim()], the [trim: true] setter of a schema string, for the
    white space of ASCII. *)
Definition is_space (c : ascii) : bool :=
  let n := nat_of_ascii c in
  (n =? 32)%nat || ((9 <=? n)%nat && (n <=? 13)%nat).

Fixpoint trim_start (s : string) : string :=
  match s with
  | String c rest => if is_space c then trim_start rest else s
  | EmptyString => EmptyString
  end.

Fixpoint trim_end (s : string) : string :=
  match s with
  | String c rest =>
      match trim_end rest with
      | EmptyString => if is_space c then EmptyString
                       else String c EmptyString
      | rest' => String c rest'
      end
  | EmptyString => EmptyString
  end.

Definition trim (s : string) : string := trim_end (trim_start s).

(** [new Date(year, month, date, hours, minutes, seconds)] as
    milliseconds since the epoch, by [MakeDay] and [MakeTime] of the
    language definition; local time is [tza] milliseconds ahead of
    UTC. *)
Definition msPerDay : Z := 86400000.

Definition DayFromYear (y : Z) : Z :=
  365 * (y - 1970) + (y - 1969) / 4 - (y - 1901) / 100 + (y - 1601) / 400.

Definition InLeapYear (y : Z) : bool :=
  ((y mod 4 =? 0) && negb (y mod 100 =? 0)) || (y mod 400 =? 0).

Definition days_before_month (leap : bool) (m : Z) : Z :=
  let l := if leap then 1 else 0 in
  match m with
  | 0 => 0 | 1 => 31 | 2 => 59 + l | 3 => 90 + l | 4 => 120 + l
  | 5 => 151 + l | 6 => 181 + l | 7 => 212 + l | 8 => 243 + l
  | 9 => 273 + l | 10 => 304 + l | _ => 334 + l
  end.

Definition MakeDay (year month date : Z) : Z :=
  let ym := year + month / 12 in
  let mn := month mod 12 in
  DayFromYear ym + days_before_month (InLeapYear ym) mn + date - 1.

Definition MakeTime (hour min sec ms : Z) : Z :=
  hour * 3600000 + min * 60000 + sec * 1000 + ms.

Definition new_Date (tza : Z) (year month date hours minutes seconds : Z)
  : Z :=
  MakeDay year month date * msPerDay + MakeTime hours minutes seconds 0
  - tza.

(** [Math.max(a, b)] on numbers that are not [NaN]. *)
Definition Math_max (a b : Q) : Q := Qmax a b.

End Js.

(** ** What every route shares: callers, replies, queries *)

Module Http.

Local Open Scope string_scope.

(** The roles of [req.user.role]; [roleCheck] admits no other. *)
Inductive Role := admin | manager | employee.

Definition role_name (r : Role) : string :=
  match r with admin => "admin" | manager => "manager" | employee => "employee" end.

#[global] Instance Role_eq_dec : EqDecision Role.
Proof. solve_decision. Defined.

(** The principal the authentication middleware puts in [req.user]. *)
Record User := {
  id : nat;
  role : Role;
  linkedEmployeeId : option nat
}.

(** The JSON body of a reply: [{message}], [{errors}], a document, or
    [{message, <document>}]. *)
Inductive Json (A : Type) :=
| Message (m : string)
| Errors (es : list string)
| Document (d : A)
| MessageWith (m : string) (d : A).
Arguments Message {A} m.
Arguments Errors {A} es.
Arguments Document {A} d.
Arguments MessageWith {A} m d.

Record Reply (A : Type) := { code : nat; json : Json A }.
Arguments code {A} r.
Arguments json {A} r.

Definition reply {A} (c : nat) (j : Json A) : Reply A :=
  {| code := c; json := j |}.

(** The [catch] branch of every handler. *)
Definition server_error {A} : Reply A := reply 500 (Message "Server error").

(** middleware/roleCheck.js: [roleCheck(...allowedRoles)].  [None] is
    [next()], [Some r] the reply sent instead of the handler's. *)
Fixpoint join_or (names : list string) : string :=
  match names with
  | [] => ""
  | [n] => n
  | n :: rest => n ++ " or " ++ join_or rest
  end.

Definition includes (allowedRoles : list Role) (r : Role) : bool :=
  existsb (fun a => bool_decide (a = r)) allowedRoles.

Definition roleCheck {A} (allowedRoles : list Role) (user : User)
  : option (Reply A) :=
  if includes allowedRoles (role user) then None
  else Some (reply 403 (Message
         ("Access denied. Insufficient permissions. Required role: "
          ++ join_or (map role_name allowedRoles)
          ++ ", Your role: " ++ role_name (role user)))).

Definition adminOrManager {A} : User -> option (Reply A) :=
  roleCheck [admin; manager].
Definition allRoles {A} : User -> option (Reply A) :=
  roleCheck [admin; manager; employee].

(** [Model.findOne(filter)]: the first document of the collection, in the
    order of [map_to_list], that passes the filter. *)
Definition findOne {A} (filter : A -> bool) (coll : gmap nat A)
  : option (nat * A) :=
  head (List.filter (fun kv => filter kv.2) (map_to_list coll)).

(** [Model.find(filter)]: all documents that pass the filter, each with
    its [_id]. *)
Definition find {A} (filter : A -> bool) (coll : gmap nat A)
  : list (nat * A) :=
  List.filter (fun kv => filter kv.2) (map_to_list coll).

(** The [_id] of a document about to be inserted: one the collection
    does not use. *)
Definition new_id {A} (coll : gmap nat A) : nat := fresh (dom coll).

(** A handler runs until its first [return res.status(..).json(..)]:
    [inl r] is a reply already sent, [inr a] a value to go on with. *)
#[global] Instance early_ret {R} : MRet (sum R) := fun _ a => inr a.
#[global] Instance early_bind {R} : MBind (sum R) :=
  fun _ _ k m => match m with inl r => inl r | inr a => k a end.

(** [if (cond) return r;] *)
Definition return_if {R} (cond : bool) (r : R) : R + unit :=
  if cond then inl r else inr tt.

(** A middleware in front of a handler. *)
Definition pass {R} (m : option R) : R + unit :=
  match m with Some r => inl r | None => inr tt end.

(** A value whose absence makes the handler throw into its [catch]. *)
Definition or_throw {R A} (o : option A) : Reply R + A :=
  match o with Some a => inr a | None => inl server_error end.

(** The reply and the collection a handler leaves: those it was stopped
    with and the collection as it found it, or those it finished
    with. *)
Definition run {R C} (coll : C) (h : Reply R + (Reply R * C))
  : Reply R * C :=
  match h with inl r => (r, coll) | inr rc => rc end.

(** [errors.isEmpty()]. *)
Definition is_nil {A} (l : list A) : bool :=
  match l with [] => true | _ => false end.

(** The messages of the validators of a chain that failed. *)
Definition check (ok : bool) (msg : string) : list string :=
  if ok then [] else [msg].

(** What a handler reads besides the request: the clock behind
    [new Date()] and the offset of local time from UTC, in
    milliseconds. *)
Record Env := { now : Z; localTZA : Z }.

End Http.

(** ** models/Employee.js *)

Module EmployeeModel.

Inductive EmployeeStatus := active | inactive | terminated.

#[global] Instance EmployeeStatus_eq_dec : EqDecision EmployeeStatus.
Proof. solve_decision. Defined.

Record Employee := {
  employeeId : string;
  name : string;
  position : string;
  payRate : Q;
  otRate : Q;
  vacationPayRate : Q;
  status : EmployeeStatus
}.

(** The [min: 0] validators of the three rates. *)
Definition rates_valid (e : Employee) : bool :=
  Qle_bool 0 (payRate e) && Qle_bool 0 (otRate e)
  && Qle_bool 0 (vacationPayRate e).

End EmployeeModel.

(** ** models/DailyTimesheet.js *)

Module DailyTimesheet.

Import Js.
Local Open Scope string_scope.
Local Open Scope Z_scope.

Inductive Status := draft | submitted | approved | rejected.

#[global] Instance Status_eq_dec : EqDecision Status.
Proof. solve_decision. Defined.

(** The [enum] validator of [status]. *)
Definition status_of_string (s : string) : option Status :=
  if String.eqb s "draft" then Some draft
  else if String.eqb s "submitted" then Some submitted
  else if String.eqb s "approved" then Some approved
  else if String.eqb s "rejected" then Some rejected
  else None.

Record Doc := {
  date : Z;
  employeeId : nat;
  startTime : string;
  endTime : string;
  breakTime : Q;
  totalHoursWorked : Q;
  otHours : Q;
  isVacationWork : bool;
  isHolidayWork : bool;
  notes : option string;
  createdBy : nat;
  lastModifiedBy : option nat;
  status : Status
}.

(** The validator of [startTime] and [endTime], also used by the routes:
    [/^([0-1]?[0-9]|2[0-3]):[0-5][0-9]$/]. *)
Definition is_0_1 (c : ascii) : bool :=
  Ascii.eqb c "0" || Ascii.eqb c "1".
Definition is_0_3 (c : ascii) : bool :=
  is_digit c && (nat_of_ascii c <=? 51)%nat.
Definition is_0_5 (c : ascii) : bool :=
  is_digit c && (nat_of_ascii c <=? 53)%nat.

Definition time_format (v : string) : bool :=
  match v with
  | String h (String sep (String m1 (String m2 EmptyString))) =>
      is_digit h && Ascii.eqb sep ":" && is_0_5 m1 && is_digit m2
  | String h1 (String h2 (String sep (String m1 (String m2 EmptyString)))) =>
      ((is_0_1 h1 && is_digit h2) || (Ascii.eqb h1 "2" && is_0_3 h2))
      && Ascii.eqb sep ":" && is_0_5 m1 && is_digit m2
  | _ => false
  end.

(** [parseTime]: [const [hours, minutes] = timeString.split(':').map(Number);
    return hours * 60 + minutes].  A missing second piece is [undefined],
    which makes the sum [NaN]; pieces after the second are ignored. *)
Definition parseTime (timeString : string) : option Z :=
  match map Number (split_colon timeString) with
  | hours :: minutes :: _ =>
      h ← hours; m ← minutes; Some (h * 60 + m)
  | _ => None
  end.

(** The regular hours of a day, a constant of [calculateHours]. *)
Definition regularHours : Q := 8.

(** [calculateHours] on times that parse: the document with its two
    derived fields assigned.  [None] is the case of a time that does not
    parse, where the hours that are computed are [NaN]; what the method
    then leaves in the document is [calculateHours_document] below. *)
Definition calculateHours (this : Doc) : option Doc :=
  start ← parseTime (startTime this);
  end_ ← parseTime (endTime this);
  let totalMinutes := end_ - start in
  let totalMinutes :=
    if totalMinutes <? 0 then totalMinutes + 24 * 60 else totalMinutes in
  let totalMinutes := (inject_Z totalMinutes - breakTime this)%Q in
  let hoursWorked := Math_max 0 (totalMinutes / 60)%Q in
  Some {| date := date this; employeeId := employeeId this;
          startTime := startTime this; endTime := endTime this;
          breakTime := breakTime this;
          totalHoursWorked := hoursWorked;
          otHours := Math_max 0 (hoursWorked - regularHours)%Q;
          isVacationWork := isVacationWork this;
          isHolidayWork := isHolidayWork this;
          notes := notes this; createdBy := createdBy this;
          lastModifiedBy := lastModifiedBy this; status := status this |}.


(** The schema validators: the format of the two times, the ranges of
    [breakTime], [totalHoursWorked] and [otHours] and the length of
    [notes]. *)
Definition notes_valid (n : option string) : bool :=
  match n with
  | Some s => (String.length s <=? 500)%nat
  | None => true
  end.

Definition validate (d : Doc) : bool :=
  time_format (startTime d) && time_format (endTime d)
  && Qle_bool 0 (breakTime d) && Qle_bool (breakTime d) 480
  && Qle_bool 0 (totalHoursWorked d) && Qle_bool (totalHoursWorked d) 24
  && Qle_bool 0 (otHours d)
  && notes_valid (notes d).

(** [doc.save()] of a document: Mongoose validates it, then runs the
    [pre('save')] hook, which recalculates the hours when the document is
    new or one of [startTime], [endTime], [breakTime] is modified, then
    writes it under [_id].  [None] is a rejected promise.  The times of a
    document that was validated parse, so the hook meets no [NaN]. *)
Definition pre_save (isNew modified : bool) (this : Doc) : option Doc :=
  if isNew || modified then calculateHours this else Some this.

Definition save (isNew modified : bool) (_id : nat) (this : Doc)
    (coll : gmap nat Doc) : option (Doc * gmap nat Doc) :=
  if validate this then
    d ← pre_save isNew modified this;
    Some (d, <[_id := d]> coll)
  else None.

(** The time string ["HH:MM"] of an hour and a minute, two digits each. *)
Definition digit_char (d : Z) : ascii := ascii_of_nat (Z.to_nat (48 + d)).
Definition two_digits (n : Z) (rest : string) : string :=
  String (digit_char (n / 10)) (String (digit_char (n mod 10)) rest).
Definition hhmm (h m : Z) : string :=
  two_digits h (String ":" (two_digits m EmptyString)).

End DailyTimesheet.

(** ** routes/timesheets.js *)

Module TimesheetRoutes.

Import Http DailyTimesheet.
Local Open Scope string_scope.

(** [req.body] of a request whose body holds fields of the schema and
    nothing else, each with a value of its type.  Every field may be
    absent; a field of the schema that the handler does not name still
    reaches [findByIdAndUpdate] through [...req.body].  The [date] is the
    [Date] its ISO string denotes.  A body that holds the update operator
    [$inc] is [Inc] below; other operators are not modelled. *)
Record Body := {
  b_date : option Z;
  b_employeeId : option nat;
  b_startTime : option string;
  b_endTime : option string;
  b_breakTime : option Q;
  b_totalHoursWorked : option Q;
  b_otHours : option Q;
  b_isVacationWork : option bool;
  b_isHolidayWork : option bool;
  b_notes : option string;
  b_createdBy : option nat;
  b_status : option string
}.

(** The validation chains of [POST /] and of [PUT /:id]; the checks of
    [breakTime] and of the two flags hold by the types of the body. *)
Definition post_validators (body : Body) : list string :=
  check (bool_decide (is_Some (b_date body))) "Valid date is required"
  ++ check (bool_decide (is_Some (b_employeeId body)))
       "Valid employee ID is required"
  ++ check (from_option time_format false (b_startTime body))
       "Start time must be in HH:MM format"
  ++ check (from_option time_format false (b_endTime body))
       "End time must be in HH:MM format"
  ++ check (notes_valid (b_notes body))
       "Notes cannot exceed 500 characters".

Definition put_validators (body : Body) : list string :=
  check (from_option time_format true (b_startTime body))
    "Start time must be in HH:MM format"
  ++ check (from_option time_format true (b_endTime body))
       "End time must be in HH:MM format"
  ++ check (notes_valid (b_notes body))
       "Notes cannot exceed 500 characters".

(** [GET /:id].  The document is populated before the ownership test, so
    for an employee the test dereferences the owner's record and throws
    when that record is gone. *)
Definition get (user : User) (_id : nat)
    (employees : gmap nat EmployeeModel.Employee) (coll : gmap nat Doc)
  : Reply Doc :=
  (run coll (
    pass (allRoles user);;
    match coll !! _id with
    | None => inl (reply 404 (Message "Timesheet not found"))
    | Some timesheet =>
        (if bool_decide (role user = employee) then
           _ ← or_throw (employees !! employeeId timesheet);
           linked ← or_throw (linkedEmployeeId user);
           return_if (negb (bool_decide (employeeId timesheet = linked)))
             (reply 403 (Message "Access denied"))
         else inr tt);;
        inr (reply 200 (Document timesheet), coll)
    end)).1.

(** [POST /]. *)
Definition post (user : User) (body : Body)
    (employees : gmap nat EmployeeModel.Employee) (coll : gmap nat Doc)
  : Reply Doc * gmap nat Doc :=
  run coll (
    pass (allRoles user);;
    let errors := post_validators body in
    return_if (negb (is_nil errors)) (reply 400 (Errors errors));;
    date ← or_throw (b_date body);
    employeeId ← or_throw (b_employeeId body);
    startTime ← or_throw (b_startTime body);
    endTime ← or_throw (b_endTime body);
    let breakTime := default 0%Q (b_breakTime body) in
    let isVacationWork := default false (b_isVacationWork body) in
    let isHolidayWork := default false (b_isHolidayWork body) in
    return_if (bool_decide (employees !! employeeId = None))
      (reply 404 (Message "Employee not found"));;
    (if bool_decide (role user = employee) then
       linked ← or_throw (linkedEmployeeId user);
       return_if (negb (bool_decide (employeeId = linked)))
         (reply 403 (Message "You can only create timesheets for yourself"))
     else inr tt);;
    let existingTimesheet :=
      findOne (fun d => bool_decide (DailyTimesheet.employeeId d = employeeId)
                        && (DailyTimesheet.date d =? date)%Z) coll in
    return_if (bool_decide (is_Some existingTimesheet))
      (reply 400
         (Message "Timesheet already exists for this date and employee"));;
    let timesheet :=
      {| date := date; employeeId := employeeId;
         startTime := startTime; endTime := endTime;
         breakTime := breakTime;
         totalHoursWorked := 0; otHours := 0;
         isVacationWork := isVacationWork;
         isHolidayWork := isHolidayWork;
         notes := Js.trim <$> b_notes body; createdBy := id user;
         lastModifiedBy := None; status := draft |} in
    '(saved, coll') ← or_throw (save true false (new_id coll) timesheet coll);
    inr (reply 201 (MessageWith "Timesheet created successfully" saved),
         coll')).

(** [Model.findByIdAndUpdate(id, {...req.body, lastModifiedBy},
    {new: true, runValidators: true})]: the validators of the fields
    being set run, then each field present in the update replaces the
    stored one.  No [save] happens, so no [pre('save')] hook runs.
    [None] is a rejected promise. *)
Definition update_valid (body : Body) : bool :=
  from_option time_format true (b_startTime body)
  && from_option time_format true (b_endTime body)
  && from_option (fun q => Qle_bool 0 q && Qle_bool q 480) true
       (b_breakTime body)
  && from_option (fun q => Qle_bool 0 q && Qle_bool q 24) true
       (b_totalHoursWorked body)
  && from_option (Qle_bool 0) true (b_otHours body)
  && notes_valid (Js.trim <$> b_notes body)
  && from_option (fun s => bool_decide (is_Some (status_of_string s))) true
       (b_status body).

Definition apply_update (body : Body) (modifier : nat) (d : Doc) : Doc :=
  {| date := default (date d) (b_date body);
     employeeId := default (employeeId d) (b_employeeId body);
     startTime := default (startTime d) (b_startTime body);
     endTime := default (endTime d) (b_endTime body);
     breakTime := default (breakTime d) (b_breakTime body);
     totalHoursWorked :=
       default (totalHoursWorked d) (b_totalHoursWorked body);
     otHours := default (otHours d) (b_otHours body);
     isVacationWork := default (isVacationWork d) (b_isVacationWork body);
     isHolidayWork := default (isHolidayWork d) (b_isHolidayWork body);
     notes := match b_notes body with
              | Some n => Some (Js.trim n)
              | None => notes d
              end;
     createdBy := default (createdBy d) (b_createdBy body);
     lastModifiedBy := Some modifier;
     status := default (status d) (b_status body ≫= status_of_string) |}.

Definition findByIdAndUpdate (_id : nat) (body : Body) (modifier : nat)
    (coll : gmap nat Doc) : option (option Doc * gmap nat Doc) :=
  if update_valid body then
    match coll !! _id with
    | Some d =>
        let d' := apply_update body modifier d in
        Some (Some d', <[_id := d']> coll)
    | None => Some (None, coll)
    end
  else None.

(** [PUT /:id]. *)
Definition put (user : User) (_id : nat) (body : Body)
    (coll : gmap nat Doc) : Reply Doc * gmap nat Doc :=
  run coll (
    pass (allRoles user);;
    let errors := put_validators body in
    return_if (negb (is_nil errors)) (reply 400 (Errors errors));;
    match coll !! _id with
    | None => inl (reply 404 (Message "Timesheet not found"))
    | Some timesheet =>
        (if bool_decide (role user = employee) then
           linked ← or_throw (linkedEmployeeId user);
           return_if (negb (bool_decide (employeeId timesheet = linked)))
             (reply 403 (Message "You can only update your own timesheets"))
         else inr tt);;
        '(updatedTimesheet, coll') ←
          or_throw (findByIdAndUpdate _id body (id user) coll);
        match updatedTimesheet with
        | Some d =>
            inr (reply 200 (MessageWith "Timesheet updated successfully" d),
                 coll')
        | None =>
            inr (reply 200 (Message "Timesheet updated successfully"), coll')
        end
    end).

(** [req.body] of a [PUT /:id] whose body is [{"$inc": {...}}], with
    numbers for the three [Number] paths it may name.  The validation
    chain names fields only, all of them optional, and passes.
    [{...req.body, lastModifiedBy}] is then an update with [$inc] and, for
    [lastModifiedBy], [$set]; the update validators run for [$set] and not
    for [$inc], and no [pre('save')] hook runs. *)
Record Inc := {
  inc_breakTime : option Q;
  inc_totalHoursWorked : option Q;
  inc_otHours : option Q
}.

Definition increment (stored : Q) (by_ : option Q) : Q :=
  match by_ with Some n => (stored + n)%Q | None => stored end.

Definition apply_inc (inc : Inc) (modifier : nat) (d : Doc) : Doc :=
  {| date := date d; employeeId := employeeId d;
     startTime := startTime d; endTime := endTime d;
     breakTime := increment (breakTime d) (inc_breakTime inc);
     totalHoursWorked :=
       increment (totalHoursWorked d) (inc_totalHoursWorked inc);
     otHours := increment (otHours d) (inc_otHours inc);
     isVacationWork := isVacationWork d; isHolidayWork := isHolidayWork d;
     notes := notes d; createdBy := createdBy d;
     lastModifiedBy := Some modifier; status := status d |}.

(** [PUT /:id] with such a body. *)
Definition put_inc (user : User) (_id : nat) (inc : Inc)
    (coll : gmap nat Doc) : Reply Doc * gmap nat Doc :=
  run coll (
    pass (allRoles user);;
    match coll !! _id with
    | None => inl (reply 404 (Message "Timesheet not found"))
    | Some timesheet =>
        (if bool_decide (role user = employee) then
           linked ← or_throw (linkedEmployeeId user);
           return_if (negb (bool_decide (employeeId timesheet = linked)))
             (reply 403 (Message "You can only update your own timesheets"))
         else inr tt);;
        let d := apply_inc inc (id user) timesheet in
        inr (reply 200 (MessageWith "Timesheet updated successfully" d),
             <[_id := d]> coll)
    end).

(** [DELETE /:id]. *)
Definition delete (user : User) (_id : nat) (coll : gmap nat Doc)
  : Reply Doc * gmap nat Doc :=
  run coll (
    pass (adminOrManager user);;
    return_if (bool_decide (coll !! _id = None))
      (reply 404 (Message "Timesheet not found"));;
    inr (reply 200 (Message "Timesheet deleted successfully"),
         base.delete _id coll)).

(** The requests that write the collection of timesheets, with bodies
    that hold fields only. *)
Inductive Request :=
| Post (user : User) (body : Body)
    (employees : gmap nat EmployeeModel.Employee)
| Put (user : User) (_id : nat) (body : Body)
| Delete (user : User) (_id : nat).

Definition handle (r : Request) (coll : gmap nat Doc) : gmap nat Doc :=
  match r with
  | Post user body employees => (post user body employees coll).2
  | Put user _id body => (put user _id body coll).2
  | Delete user _id => (delete user _id coll).2
  end.

End TimesheetRoutes.

(** ** models/DailyExpense.js *)

Module DailyExpense.

Local Open Scope string_scope.

Inductive Status := draft | submitted | approved | rejected | reimbursed.

#[global] Instance Status_eq_dec : EqDecision Status.
Proof. solve_decision. Defined.

(** The [enum] validator of [status]. *)
Definition status_of_string (s : string) : option Status :=
  if String.eqb s "draft" then Some draft
  else if String.eqb s "submitted" then Some submitted
  else if String.eqb s "approved" then Some approved
  else if String.eqb s "rejected" then Some rejected
  else if String.eqb s "reimbursed" then Some reimbursed
  else None.

Definition categories : list string :=
  ["transport"; "meals"; "accommodation"; "supplies"; "other"].
Definition currencies : list string := ["LKR"; "USD"; "EUR"].

(** [list.includes(s)] and the [isIn(list)] validator. *)
Definition isIn (l : list string) (s : string) : bool :=
  existsb (String.eqb s) l.

Record Doc := {
  date : Z;
  employeeId : nat;
  category : string;
  description : string;
  amount : Q;
  currency : string;
  receipt : option string;
  notes : option string;
  createdBy : nat;
  lastModifiedBy : option nat;
  status : Status;
  approvedBy : option nat;
  approvedAt : option Z;
  rejectionReason : option string
}.

Definition max_length (n : nat) (o : option string) : bool :=
  match o with
  | Some s => (String.length s <=? n)%nat
  | None => true
  end.

(** The schema validators of the fields a request can set, on the values
    after the [trim] setters. *)
Definition description_valid (s : string) : bool :=
  negb (String.length s =? 0)%nat && (String.length s <=? 500)%nat.

Definition validate (d : Doc) : bool :=
  isIn categories (category d)
  && description_valid (description d)
  && Qle_bool 0 (amount d)
  && isIn currencies (currency d)
  && max_length 1000 (notes d)
  && max_length 500 (rejectionReason d).

(** [doc.save()], of a new document and of a document that was loaded
    and changed alike: the document is validated, every path of it, and
    written under [_id]; [None] is a rejected promise.  The schema has no
    [pre('save')] hook. *)
Definition save (_id : nat) (this : Doc) (coll : gmap nat Doc)
  : option (Doc * gmap nat Doc) :=
  if validate this then Some (this, <[_id := this]> coll) else None.

End DailyExpense.

(** ** routes/expenses.js *)

Module ExpenseRoutes.

Import Http DailyExpense.
Local Open Scope string_scope.

(** [req.body] of the expense routes, for a body that holds fields of
    the schema and nothing else, each with a value of its type.  A body
    that holds the update operator [$inc] is [Inc] below; other operators
    are not modelled. *)
Record Body := {
  b_date : option Z;
  b_employeeId : option nat;
  b_category : option string;
  b_description : option string;
  b_amount : option Q;
  b_currency : option string;
  b_receipt : option string;
  b_notes : option string;
  b_createdBy : option nat;
  b_status : option string;
  b_approvedBy : option nat;
  b_approvedAt : option Z;
  b_rejectionReason : option string
}.

Definition not_empty (s : string) : bool := negb (String.length s =? 0)%nat.

(** The validation chains of [POST /], [PUT /:id] and
    [PUT /:id/reject]. *)
Definition post_validators (body : Body) : list string :=
  check (bool_decide (is_Some (b_date body))) "Valid date is required"
  ++ check (bool_decide (is_Some (b_employeeId body)))
       "Valid employee ID is required"
  ++ check (from_option (isIn categories) false (b_category body))
       "Valid category is required"
  ++ check (from_option not_empty false (b_description body))
       "Description is required"
  ++ check (bool_decide (is_Some (b_amount body))) "Amount must be a number"
  ++ check (from_option (Qle_bool 0) false (b_amount body))
       "Amount must be positive"
  ++ check (from_option (isIn currencies) true (b_currency body))
       "Valid currency is required"
  ++ check (max_length 1000 (b_notes body))
       "Notes cannot exceed 1000 characters".

Definition put_validators (body : Body) : list string :=
  check (from_option (isIn categories) true (b_category body))
    "Valid category is required"
  ++ check (from_option not_empty true (b_description body))
       "Description cannot be empty"
  ++ check (from_option (Qle_bool 0) true (b_amount body))
       "Amount must be positive"
  ++ check (from_option (isIn currencies) true (b_currency body))
       "Valid currency is required"
  ++ check (max_length 1000 (b_notes body))
       "Notes cannot exceed 1000 characters".

Definition reject_validators (body : Body) : list string :=
  check (max_length 500 (b_rejectionReason body))
    "Rejection reason cannot exceed 500 characters".

(** The ownership test of the handlers that load the document without
    populating it: an employee may go on only with a document of the
    employee record linked to the account. *)
Definition own_only (user : User) (expense : Doc) (denied : string)
  : Reply Doc + unit :=
  linked ← or_throw (linkedEmployeeId user);
  return_if (negb (bool_decide (employeeId expense = linked)))
    (reply 403 (Message denied)).

(** [GET /:id].  As for timesheets, the document is populated before the
    ownership test. *)
Definition get (user : User) (_id : nat)
    (employees : gmap nat EmployeeModel.Employee) (coll : gmap nat Doc)
  : Reply Doc :=
  (run coll (
    pass (allRoles user);;
    match coll !! _id with
    | None => inl (reply 404 (Message "Expense not found"))
    | Some expense =>
        (if bool_decide (role user = employee) then
           _ ← or_throw (employees !! employeeId expense);
           linked ← or_throw (linkedEmployeeId user);
           return_if (negb (bool_decide (employeeId expense = linked)))
             (reply 403 (Message "Access denied"))
         else inr tt);;
        inr (reply 200 (Document expense), coll)
    end)).1.

(** [POST /]. *)
Definition post (user : User) (body : Body)
    (employees : gmap nat EmployeeModel.Employee) (coll : gmap nat Doc)
  : Reply Doc * gmap nat Doc :=
  run coll (
    pass (allRoles user);;
    let errors := post_validators body in
    return_if (negb (is_nil errors)) (reply 400 (Errors errors));;
    date ← or_throw (b_date body);
    employeeId ← or_throw (b_employeeId body);
    category ← or_throw (b_category body);
    description ← or_throw (b_description body);
    amount ← or_throw (b_amount body);
    let currency := default "LKR" (b_currency body) in
    return_if (bool_decide (employees !! employeeId = None))
      (reply 404 (Message "Employee not found"));;
    (if bool_decide (role user = employee) then
       linked ← or_throw (linkedEmployeeId user);
       return_if (negb (bool_decide (employeeId = linked)))
         (reply 403 (Message "You can only create expenses for yourself"))
     else inr tt);;
    let expense :=
      {| date := date; employeeId := employeeId;
         category := Js.trim category;
         description := Js.trim description;
         amount := amount; currency := currency;
         receipt := Js.trim <$> b_receipt body;
         notes := Js.trim <$> b_notes body;
         createdBy := id user; lastModifiedBy := None;
         status := draft;
         approvedBy := None; approvedAt := None;
         rejectionReason := None |} in
    '(saved, coll') ← or_throw (save (new_id coll) expense coll);
    inr (reply 201 (MessageWith "Expense created successfully" saved),
         coll')).

(** [Model.findByIdAndUpdate(id, {...req.body, lastModifiedBy},
    {new: true, runValidators: true})]: the validators of the fields
    being set run on their values after the setters, then each field
    present in the update replaces the stored one. *)
Definition update_valid (body : Body) : bool :=
  from_option (fun s => isIn categories (Js.trim s)) true (b_category body)
  && from_option (fun s => description_valid (Js.trim s)) true
       (b_description body)
  && from_option (Qle_bool 0) true (b_amount body)
  && from_option (isIn currencies) true (b_currency body)
  && max_length 1000 (Js.trim <$> b_notes body)
  && max_length 500 (Js.trim <$> b_rejectionReason body)
  && from_option (fun s => bool_decide (is_Some (status_of_string s))) true
       (b_status body).

Definition set_string (old : option string) (new : option string)
  : option string :=
  match new with Some s => Some (Js.trim s) | None => old end.

Definition set_field {A} (old : option A) (new : option A) : option A :=
  match new with Some a => Some a | None => old end.

Definition apply_update (body : Body) (modifier : nat) (d : Doc) : Doc :=
  {| date := default (date d) (b_date body);
     employeeId := default (employeeId d) (b_employeeId body);
     category := default (category d) (Js.trim <$> b_category body);
     description := default (description d) (Js.trim <$> b_description body);
     amount := default (amount d) (b_amount body);
     currency := default (currency d) (b_currency body);
     receipt := set_string (receipt d) (b_receipt body);
     notes := set_string (notes d) (b_notes body);
     createdBy := default (createdBy d) (b_createdBy body);
     lastModifiedBy := Some modifier;
     status := default (status d) (b_status body ≫= status_of_string);
     approvedBy := set_field (approvedBy d) (b_approvedBy body);
     approvedAt := set_field (approvedAt d) (b_approvedAt body);
     rejectionReason :=
       set_string (rejectionReason d) (b_rejectionReason body) |}.

Definition findByIdAndUpdate (_id : nat) (body : Body) (modifier : nat)
    (coll : gmap nat Doc) : option (option Doc * gmap nat Doc) :=
  if update_valid body then
    match coll !! _id with
    | Some d =>
        let d' := apply_update body modifier d in
        Some (Some d', <[_id := d']> coll)
    | None => Some (None, coll)
    end
  else None.

(** [PUT /:id]. *)
Definition put (user : User) (_id : nat) (body : Body)
    (coll : gmap nat Doc) : Reply Doc * gmap nat Doc :=
  run coll (
    pass (allRoles user);;
    let errors := put_validators body in
    return_if (negb (is_nil errors)) (reply 400 (Errors errors));;
    match coll !! _id with
    | None => inl (reply 404 (Message "Expense not found"))
    | Some expense =>
        (if bool_decide (role user = employee) then
           own_only user expense "You can only update your own expenses";;
           return_if (negb (bool_decide (status expense = draft)
                            || bool_decide (status expense = rejected)))
             (reply 403 (Message
                "You can only update expenses that are in draft or rejected status"))
         else inr tt);;
        '(updatedExpense, coll') ←
          or_throw (findByIdAndUpdate _id body (id user) coll);
        match updatedExpense with
        | Some d =>
            inr (reply 200 (MessageWith "Expense updated successfully" d),
                 coll')
        | None =>
            inr (reply 200 (Message "Expense updated successfully"), coll')
        end
    end).

(** [PUT /:id] with the body [{"$inc": {"amount": n}}].  The validation
    chain names fields only, all of them optional, and passes; the update
    validators run for the [$set] of [lastModifiedBy] and not for
    [$inc]. *)
Record Inc := { inc_amount : Q }.

Definition apply_inc (inc : Inc) (modifier : nat) (d : Doc) : Doc :=
  {| date := date d; employeeId := employeeId d; category := category d;
     description := description d;
     amount := (amount d + inc_amount inc)%Q;
     currency := currency d; receipt := receipt d; notes := notes d;
     createdBy := createdBy d; lastModifiedBy := Some modifier;
     status := status d;
     approvedBy := approvedBy d; approvedAt := approvedAt d;
     rejectionReason := rejectionReason d |}.

Definition put_inc (user : User) (_id : nat) (inc : Inc)
    (coll : gmap nat Doc) : Reply Doc * gmap nat Doc :=
  run coll (
    pass (allRoles user);;
    match coll !! _id with
    | None => inl (reply 404 (Message "Expense not found"))
    | Some expense =>
        (if bool_decide (role user = employee) then
           own_only user expense "You can only update your own expenses";;
           return_if (negb (bool_decide (status expense = draft)
                            || bool_decide (status expense = rejected)))
             (reply 403 (Message
                "You can only update expenses that are in draft or rejected status"))
         else inr tt);;
        let d := apply_inc inc (id user) expense in
        inr (reply 200 (MessageWith "Expense updated successfully" d),
             <[_id := d]> coll)
    end).

Definition with_status (s : Status) (modifier : nat) (d : Doc) : Doc :=
  {| date := date d; employeeId := employeeId d; category := category d;
     description := description d; amount := amount d;
     currency := currency d; receipt := receipt d; notes := notes d;
     createdBy := createdBy d; lastModifiedBy := Some modifier;
     status := s;
     approvedBy := approvedBy d; approvedAt := approvedAt d;
     rejectionReason := rejectionReason d |}.

(** [PUT /:id/submit].  The [save()] of the document the handler loaded
    and changed validates every path of it, as that of a new document
    does, and is rejected when a stored path fails its validator. *)
Definition submit (user : User) (_id : nat) (coll : gmap nat Doc)
  : Reply Doc * gmap nat Doc :=
  run coll (
    pass (allRoles user);;
    match coll !! _id with
    | None => inl (reply 404 (Message "Expense not found"))
    | Some expense =>
        (if bool_decide (role user = employee) then
           own_only user expense "You can only submit your own expenses"
         else inr tt);;
        return_if (negb (bool_decide (status expense = draft)))
          (reply 400 (Message "Only draft expenses can be submitted"));;
        let expense := with_status submitted (id user) expense in
        '(saved, coll') ← or_throw (save _id expense coll);
        inr (reply 200 (MessageWith "Expense submitted successfully" saved),
             coll')
    end).

(** [PUT /:id/approve]. *)
Definition approve (env : Env) (user : User) (_id : nat)
    (coll : gmap nat Doc) : Reply Doc * gmap nat Doc :=
  run coll (
    pass (adminOrManager user);;
    match coll !! _id with
    | None => inl (reply 404 (Message "Expense not found"))
    | Some expense =>
        return_if (negb (bool_decide (status expense = submitted)
                         || bool_decide (status expense = rejected)))
          (reply 400
             (Message "Only submitted or rejected expenses can be approved"));;
        let expense :=
          {| date := date expense; employeeId := employeeId expense;
             category := category expense;
             description := description expense;
             amount := amount expense; currency := currency expense;
             receipt := receipt expense; notes := notes expense;
             createdBy := createdBy expense;
             lastModifiedBy := Some (id user);
             status := approved;
             approvedBy := Some (id user);
             approvedAt := Some (now env);
             rejectionReason := rejectionReason expense |} in
        '(saved, coll') ← or_throw (save _id expense coll);
        inr (reply 200 (MessageWith "Expense approved successfully" saved),
             coll')
    end).

(** [PUT /:id/reject]; [req.body.rejectionReason || ''] is the empty
    string for an absent or empty reason. *)
Definition reject (user : User) (_id : nat) (body : Body)
    (coll : gmap nat Doc) : Reply Doc * gmap nat Doc :=
  run coll (
    pass (adminOrManager user);;
    let errors := reject_validators body in
    return_if (negb (is_nil errors)) (reply 400 (Errors errors));;
    match coll !! _id with
    | None => inl (reply 404 (Message "Expense not found"))
    | Some expense =>
        return_if (negb (bool_decide (status expense = submitted)
                         || bool_decide (status expense = approved)))
          (reply 400
             (Message "Only submitted or approved expenses can be rejected"));;
        let expense :=
          {| date := date expense; employeeId := employeeId expense;
             category := category expense;
             description := description expense;
             amount := amount expense; currency := currency expense;
             receipt := receipt expense; notes := notes expense;
             createdBy := createdBy expense;
             lastModifiedBy := Some (id user);
             status := rejected;
             approvedBy := approvedBy expense;
             approvedAt := approvedAt expense;
             rejectionReason :=
               Some (Js.trim (default "" (b_rejectionReason body))) |} in
        '(saved, coll') ← or_throw (save _id expense coll);
        inr (reply 200 (MessageWith "Expense rejected successfully" saved),
             coll')
    end).

(** [DELETE /:id]. *)
Definition delete (user : User) (_id : nat) (coll : gmap nat Doc)
  : Reply Doc * gmap nat Doc :=
  run coll (
    pass (allRoles user);;
    match coll !! _id with
    | None => inl (reply 404 (Message "Expense not found"))
    | Some expense =>
        (if bool_decide (role user = employee) then
           own_only user expense "You can only delete your own expenses";;
           return_if (negb (bool_decide (status expense = draft)))
             (reply 403 (Message "You can only delete draft expenses"))
         else inr tt);;
        inr (reply 200 (Message "Expense deleted successfully"),
             base.delete _id coll)
    end).

End ExpenseRoutes.

(** ** models/MonthlySummary.js *)

Module MonthlySummary.

Import EmployeeModel.

Inductive Status := draft | finalized | paid.

#[global] Instance Status_eq_dec : EqDecision Status.
Proof. solve_decision. Defined.

Record Breakdown := {
  regularPay : Q;
  otPay : Q;
  vacationPay : Q;
  holidayPay : Q
}.

Record Doc := {
  employeeId : nat;
  month : Z;
  year : Z;
  totalRegularHours : Q;
  totalOTHours : Q;
  totalVacationHours : Q;
  totalHolidayHours : Q;
  totalPayableAmount : Q;
  breakdown : Breakdown;
  status : Status;
  generatedBy : nat;
  finalizedAt : option Z;
  paidAt : option Z
}.

(** [new MonthlySummary({employeeId, year, month, generatedBy})]: the
    other fields take their schema defaults. *)
Definition new (employeeId : nat) (year month : Z) (generatedBy : nat)
  : Doc :=
  {| employeeId := employeeId; month := month; year := year;
     totalRegularHours := 0; totalOTHours := 0;
     totalVacationHours := 0; totalHolidayHours := 0;
     totalPayableAmount := 0;
     breakdown := {| regularPay := 0; otPay := 0;
                     vacationPay := 0; holidayPay := 0 |};
     status := draft; generatedBy := generatedBy;
     finalizedAt := None; paidAt := None |}.

(** [calculatePayableAmount(employee)]. *)
Definition calculatePayableAmount (this : Doc) (employee : Employee) : Doc :=
  let regularPay := (totalRegularHours this * payRate employee)%Q in
  let otPay := (totalOTHours this * otRate employee)%Q in
  let vacationPay :=
    (totalVacationHours this * vacationPayRate employee)%Q in
  let holidayPay := (totalHolidayHours this * payRate employee)%Q in
  {| employeeId := employeeId this; month := month this; year := year this;
     totalRegularHours := totalRegularHours this;
     totalOTHours := totalOTHours this;
     totalVacationHours := totalVacationHours this;
     totalHolidayHours := totalHolidayHours this;
     totalPayableAmount :=
       (regularPay + otPay + vacationPay + holidayPay)%Q;
     breakdown := {| regularPay := regularPay; otPay := otPay;
                     vacationPay := vacationPay;
                     holidayPay := holidayPay |};
     status := status this; generatedBy := generatedBy this;
     finalizedAt := finalizedAt this; paidAt := paidAt this |}.

(** The schema validators that a [save()] runs on a summary: the ranges
    of [month] and [year] and the [min: 0] of the five totals. *)
Definition validate (d : Doc) : bool :=
  (1 <=? month d) && (month d <=? 12)
  && (2020 <=? year d) && (year d <=? 2030)
  && Qle_bool 0 (totalRegularHours d) && Qle_bool 0 (totalOTHours d)
  && Qle_bool 0 (totalVacationHours d) && Qle_bool 0 (totalHolidayHours d)
  && Qle_bool 0 (totalPayableAmount d).

(** [doc.save()], of a new summary and of a summary that was loaded
    alike; [None] is a rejected promise. *)
Definition save (_id : nat) (this : Doc) (coll : gmap nat Doc)
  : option (gmap nat Doc) :=
  if validate this then Some (<[_id := this]> coll) else None.

End MonthlySummary.

(** ** routes/reports.js *)

Module ReportRoutes.

Import Http EmployeeModel MonthlySummary.
Local Open Scope string_scope.
Local Open Scope Z_scope.

(** The running totals of the [forEach] of [calculateMonthlySummary]. *)
Record Totals := {
  regular : Q;
  ot : Q;
  vacation : Q;
  holiday : Q
}.

Definition add_timesheet (acc : Totals) (timesheet : DailyTimesheet.Doc)
  : Totals :=
  let regularHours :=
    Js.Math_max 0 (DailyTimesheet.totalHoursWorked timesheet
                   - DailyTimesheet.otHours timesheet)%Q in
  {| regular := (regular acc + regularHours)%Q;
     ot := (ot acc + DailyTimesheet.otHours timesheet)%Q;
     vacation :=
       if DailyTimesheet.isVacationWork timesheet
       then (vacation acc + DailyTimesheet.totalHoursWorked timesheet)%Q
       else vacation acc;
     holiday :=
       if DailyTimesheet.isHolidayWork timesheet
       then (holiday acc + DailyTimesheet.totalHoursWorked timesheet)%Q
       else holiday acc |}.

(** The timesheets [calculateMonthlySummary] reads: those of the employee
    dated from the first instant of the month to 23:59:59 of its last
    day, local time. *)
Definition month_timesheets (env : Env) (employee_id : nat) (year month : Z)
    (timesheets : gmap nat DailyTimesheet.Doc) : list DailyTimesheet.Doc :=
  let startDate := Js.new_Date (localTZA env) year (month - 1) 1 0 0 0 in
  let endDate := Js.new_Date (localTZA env) year month 0 23 59 59 in
  map snd
    (find (fun t =>
             bool_decide (DailyTimesheet.employeeId t = employee_id)
             && (startDate <=? DailyTimesheet.date t)
             && (DailyTimesheet.date t <=? endDate))
       timesheets).

(** [calculateMonthlySummary(monthlySummary, employee, year, month)]. *)
Definition calculateMonthlySummary (env : Env)
    (timesheets : gmap nat DailyTimesheet.Doc)
    (monthlySummary : Doc) (employee : nat * Employee) (year month : Z)
  : Doc :=
  let totals :=
    fold_left add_timesheet
      (month_timesheets env employee.1 year month timesheets)
      {| regular := 0; ot := 0; vacation := 0; holiday := 0 |} in
  calculatePayableAmount
    {| employeeId := employeeId monthlySummary;
       month := MonthlySummary.month monthlySummary;
       year := MonthlySummary.year monthlySummary;
       totalRegularHours := regular totals;
       totalOTHours := ot totals;
       totalVacationHours := vacation totals;
       totalHolidayHours := holiday totals;
       totalPayableAmount := totalPayableAmount monthlySummary;
       breakdown := breakdown monthlySummary;
       status := status monthlySummary;
       generatedBy := generatedBy monthlySummary;
       finalizedAt := finalizedAt monthlySummary;
       paidAt := paidAt monthlySummary |}
    employee.2.

Definition with_generatedBy (u : nat) (d : Doc) : Doc :=
  {| employeeId := employeeId d; month := month d; year := year d;
     totalRegularHours := totalRegularHours d;
     totalOTHours := totalOTHours d;
     totalVacationHours := totalVacationHours d;
     totalHolidayHours := totalHolidayHours d;
     totalPayableAmount := totalPayableAmount d;
     breakdown := breakdown d; status := status d;
     generatedBy := u;
     finalizedAt := finalizedAt d; paidAt := paidAt d |}.

Definition same_key (employee_id : nat) (yearNum monthNum : Z) (d : Doc)
  : bool :=
  bool_decide (employeeId d = employee_id)
  && (year d =? yearNum) && (month d =? monthNum).

(** The body of the loop of [POST /generate/:year/:month] for one
    employee: the summary saved and the collection after it, or [None]
    when [save()] rejects. *)
Definition generate_for (env : Env) (user : User) (yearNum monthNum : Z)
    (timesheets : gmap nat DailyTimesheet.Doc)
    (employee : nat * Employee) (summaries : gmap nat Doc)
  : option (Doc * gmap nat Doc) :=
  match findOne (same_key employee.1 yearNum monthNum) summaries with
  | Some (_id, monthlySummary) =>
      let monthlySummary :=
        calculateMonthlySummary env timesheets monthlySummary employee
          yearNum monthNum in
      let monthlySummary := with_generatedBy (id user) monthlySummary in
      summaries' ← save _id monthlySummary summaries;
      Some (monthlySummary, summaries')
  | None =>
      let monthlySummary := new employee.1 yearNum monthNum (id user) in
      let monthlySummary :=
        calculateMonthlySummary env timesheets monthlySummary employee
          yearNum monthNum in
      summaries' ← save (new_id summaries) monthlySummary summaries;
      Some (monthlySummary, summaries')
  end.

(** The loop over the employees.  A rejected [save()] leaves the loop for
    the [catch] of the handler; the summaries saved before it stay. *)
Fixpoint generate_loop (env : Env) (user : User) (yearNum monthNum : Z)
    (timesheets : gmap nat DailyTimesheet.Doc)
    (employees : list (nat * Employee))
    (generatedSummaries : list Doc) (summaries : gmap nat Doc)
  : option (list Doc) * gmap nat Doc :=
  match employees with
  | [] => (Some generatedSummaries, summaries)
  | employee_ :: rest =>
      match generate_for env user yearNum monthNum timesheets employee_
              summaries with
      | Some (monthlySummary, summaries') =>
          generate_loop env user yearNum monthNum timesheets rest
            (generatedSummaries ++ [monthlySummary]) summaries'
      | None => (None, summaries)
      end
  end.

(** [POST /generate/:year/:month], on the numbers [parseInt] reads from
    the path. *)
Definition generate (env : Env) (user : User) (yearNum monthNum : Z)
    (employees : gmap nat Employee)
    (timesheets : gmap nat DailyTimesheet.Doc)
    (summaries : gmap nat Doc)
  : Reply (list Doc) * gmap nat Doc :=
  match adminOrManager user with
  | Some r => (r, summaries)
  | None =>
      if (monthNum <? 1) || (12 <? monthNum) then
        (reply 400 (Message "Invalid month"), summaries)
      else if (yearNum <? 2020) || (2030 <? yearNum) then
        (reply 400 (Message "Invalid year"), summaries)
      else
        let employees :=
          find (fun e => bool_decide (EmployeeModel.status e = active))
            employees in
        match generate_loop env user yearNum monthNum timesheets employees
                [] summaries with
        | (Some generatedSummaries, summaries') =>
            (reply 200
               (MessageWith
                  ("Monthly summaries generated for "
                   ++ pretty (length generatedSummaries) ++ " employees")
                  generatedSummaries),
             summaries')
        | (None, summaries') => (server_error, summaries')
        end
  end.

(** [PUT /monthly/:id/finalize].  The [save()] validates the summary that
    was loaded, so a stored summary that fails the schema is answered
    500 and stays as it is. *)
Definition finalize (env : Env) (user : User) (_id : nat)
    (summaries : gmap nat Doc) : Reply Doc * gmap nat Doc :=
  run summaries (
    pass (adminOrManager user);;
    match summaries !! _id with
    | None => inl (reply 404 (Message "Monthly summary not found"))
    | Some summary =>
        return_if (bool_decide (status summary = finalized))
          (reply 400 (Message "Summary already finalized"));;
        let summary :=
          {| employeeId := employeeId summary; month := month summary;
             year := year summary;
             totalRegularHours := totalRegularHours summary;
             totalOTHours := totalOTHours summary;
             totalVacationHours := totalVacationHours summary;
             totalHolidayHours := totalHolidayHours summary;
             totalPayableAmount := totalPayableAmount summary;
             breakdown := breakdown summary;
             status := finalized;
             generatedBy := generatedBy summary;
             finalizedAt := Some (now env);
             paidAt := paidAt summary |} in
        summaries' ← or_throw (save _id summary summaries);
        inr (reply 200
               (MessageWith "Monthly summary finalized successfully" summary),
             summaries')
    end).

(** The requests that write the collection of summaries. *)
Inductive Request :=
| Generate (user : User) (yearNum monthNum : Z)
    (employees : gmap nat Employee)
    (timesheets : gmap nat DailyTimesheet.Doc)
| Finalize (user : User) (_id : nat).

Definition handle (env : Env) (r : Request) (summaries : gmap nat Doc)
  : gmap nat Doc :=
  match r with
  | Generate user yearNum monthNum employees timesheets =>
      (generate env user yearNum monthNum employees timesheets summaries).2
  | Finalize user _id => (finalize env user _id summaries).2
  end.

End ReportRoutes.

(** ** The sums of the specification, and conditions on the collections *)

Module Checks.

Import DailyTimesheet.

(** The sum of a quantity over timesheet entries, and the quantities the
    specification sums: the regular share [max(0, hoursWorked - otHours)]
    of an entry, and the full hours of an entry flagged as vacation or
    holiday work. *)
Definition sum_over (f : Doc -> Q) (entries : list Doc) : Q :=
  fold_right (fun t acc => (f t + acc)%Q) 0%Q entries.

Definition regular_part (t : Doc) : Q :=
  Qmax 0 (totalHoursWorked t - otHours t).
Definition vacation_part (t : Doc) : Q :=
  if isVacationWork t then totalHoursWorked t else 0%Q.
Definition holiday_part (t : Doc) : Q :=
  if isHolidayWork t then totalHoursWorked t else 0%Q.

(** Every document of a collection passes a test. *)
Definition all_docs {A} (test : A -> bool) (coll : gmap nat A) : bool :=
  forallb (fun kv => test kv.2) (map_to_list coll).

(** The key of the unique index of the summaries. *)
Definition summary_key (d : MonthlySummary.Doc) : nat * Z * Z :=
  (MonthlySummary.employeeId d, MonthlySummary.year d, MonthlySummary.month d).

(** No two documents of a collection have the same key. *)
Definition unique_by {A K : Type} `{EqDecision K} (key : A -> K)
    (coll : gmap nat A) : bool :=
  bool_decide (NoDup (map (fun kv => key kv.2) (map_to_list coll))).

(** What the unique index on [{employeeId, year, month}] maintains. *)
Definition unique_keys (summaries : gmap nat MonthlySummary.Doc) : bool :=
  unique_by summary_key summaries.

(** The pair a timesheet is looked up by before one is created. *)
Definition timesheet_pair (t : Doc) : nat * Z := (employeeId t, date t).

(** At most one timesheet for an employee and a date. *)
Definition unique_pairs (timesheets : gmap nat Doc) : bool :=
  unique_by timesheet_pair timesheets.

(** The employees the batch runs over. *)
Definition active_employees (employees : gmap nat EmployeeModel.Employee)
  : list (nat * EmployeeModel.Employee) :=
  Http.find (fun e => bool_decide (EmployeeModel.status e = EmployeeModel.active))
    employees.

(** The strings ["HH:MM"] are admitted by the validator and parse to the
    minute they name. *)
Definition hhmm_checked (h m : Z) : bool :=
  time_format (hhmm h m)
  && bool_decide (parseTime (hhmm h m) = Some (h * 60 + m)%Z).

End Checks.

(** ** The entries of a month, in the words of the specification *)

Module Calendar.

Local Open Scope Z_scope.

(** The specification sums the entries of an employee dated from the
    first day of the month to its last day, the end of the day at
    23:59:59.  The days are counted on the calendar, from 1 January
    1970; the instants are in local time, at an offset from UTC in
    milliseconds. *)
Definition leap (y : Z) : bool :=
  ((y mod 4 =? 0) && negb (y mod 100 =? 0)) || (y mod 400 =? 0).

Definition days_in_year (y : Z) : Z := if leap y then 366 else 365.

Definition days_in_month (y m : Z) : Z :=
  if m =? 2 then (if leap y then 29 else 28)
  else if (m =? 4) || (m =? 6) || (m =? 9) || (m =? 11) then 30
  else 31.

Definition total (f : Z -> Z) (l : list Z) : Z :=
  fold_right (fun x acc => f x + acc) 0 l.

(** The days from 1 January 1970 to the first day of a month. *)
Definition days_before (y m : Z) : Z :=
  total days_in_year (seqZ 1970 (y - 1970))
  + total (days_in_month y) (seqZ 1 (m - 1)).

Definition first_day_start (offset y m : Z) : Z :=
  days_before y m * 86400000 - offset.

Definition last_day_end (offset y m : Z) : Z :=
  (days_before y m + days_in_month y m - 1) * 86400000
  + (23 * 3600 + 59 * 60 + 59) * 1000 - offset.

Definition dated_within (offset y m : Z) (t : DailyTimesheet.Doc) : bool :=
  (first_day_start offset y m <=? DailyTimesheet.date t)
  && (DailyTimesheet.date t <=? last_day_end offset y m).

(** The stored entries of an employee that are dated within a month. *)
Definition entries_of (offset : Z) (employee_id : nat) (y m : Z)
    (timesheets : gmap nat DailyTimesheet.Doc) : list DailyTimesheet.Doc :=
  map snd
    (List.filter
       (fun kv => bool_decide (DailyTimesheet.employeeId kv.2 = employee_id)
                  && dated_within offset y m kv.2)
       (map_to_list timesheets)).

(** The months a generation accepts, and whether the range of dates the
    code reads for a month is the month of the calendar. *)
Definition months : list (Z * Z) := list_prod (seqZ 2020 11) (seqZ 1 12).

Definition same_range (ym : Z * Z) : bool :=
  (Js.new_Date 0 ym.1 (ym.2 - 1) 1 0 0 0 =? first_day_start 0 ym.1 ym.2)
  && (Js.new_Date 0 ym.1 ym.2 0 23 59 59 =? last_day_end 0 ym.1 ym.2).

End Calendar.

(** ** Sample data *)

Module Sample.

Import Http.
Local Open Scope string_scope.

(** A timesheet to try the calculator on. *)
Definition shift (startTime endTime : string) (breakTime : Q)
  : DailyTimesheet.Doc :=
  {| DailyTimesheet.date := 0; DailyTimesheet.employeeId := 0;
     DailyTimesheet.startTime := startTime;
     DailyTimesheet.endTime := endTime;
     DailyTimesheet.breakTime := breakTime;
     DailyTimesheet.totalHoursWorked := 0; DailyTimesheet.otHours := 0;
     DailyTimesheet.isVacationWork := false;
     DailyTimesheet.isHolidayWork := false;
     DailyTimesheet.notes := None; DailyTimesheet.createdBy := 0;
     DailyTimesheet.lastModifiedBy := None;
     DailyTimesheet.status := DailyTimesheet.draft |}.

(** Three employee records; the third is not active. *)
Definition worker (code name : string) (payRate otRate : Q)
    (status : EmployeeModel.EmployeeStatus) : EmployeeModel.Employee :=
  {| EmployeeModel.employeeId := code; EmployeeModel.name := name;
     EmployeeModel.position := "Developer";
     EmployeeModel.payRate := payRate; EmployeeModel.otRate := otRate;
     EmployeeModel.vacationPayRate := payRate;
     EmployeeModel.status := status |}.

Definition employees : gmap nat EmployeeModel.Employee :=
  {[ 1%nat := worker "EMP001" "John Smith" 25 (75 # 2) EmployeeModel.active;
     2%nat := worker "EMP002" "Jane Doe" 30 45 EmployeeModel.active;
     3%nat := worker "EMP003" "Max Roe" 20 30 EmployeeModel.inactive ]}.

(** Two employees' accounts, a manager and an administrator. *)
Definition alice : User :=
  {| id := 10; role := employee; linkedEmployeeId := Some 1%nat |}.
Definition bob : User :=
  {| id := 11; role := employee; linkedEmployeeId := Some 2%nat |}.
Definition boss : User :=
  {| id := 20; role := manager; linkedEmployeeId := None |}.
Definition root : User :=
  {| id := 30; role := admin; linkedEmployeeId := None |}.

Definition env : Env := {| now := 1706745600000; localTZA := 0 |}.

(** 15 and 16 January 2024, midnight UTC. *)
Definition jan15 : Z := 1705276800000.
Definition jan16 : Z := 1705363200000.

Definition timesheet (date : Z) (employeeId : nat)
    (startTime endTime : string) (breakTime hours overtime : Q)
    (vacation holiday : bool) (status : DailyTimesheet.Status)
  : DailyTimesheet.Doc :=
  {| DailyTimesheet.date := date; DailyTimesheet.employeeId := employeeId;
     DailyTimesheet.startTime := startTime;
     DailyTimesheet.endTime := endTime;
     DailyTimesheet.breakTime := breakTime;
     DailyTimesheet.totalHoursWorked := hours;
     DailyTimesheet.otHours := overtime;
     DailyTimesheet.isVacationWork := vacation;
     DailyTimesheet.isHolidayWork := holiday;
     DailyTimesheet.notes := None; DailyTimesheet.createdBy := 10;
     DailyTimesheet.lastModifiedBy := None;
     DailyTimesheet.status := status |}.

Definition timesheets : gmap nat DailyTimesheet.Doc :=
  {[ 0%nat := timesheet jan15 1 "09:00" "17:00" 0 8 0 false false
                DailyTimesheet.approved;
     1%nat := timesheet jan16 1 "08:00" "18:30" 30 10 2 true false
                DailyTimesheet.draft;
     2%nat := timesheet jan15 2 "22:00" "06:00" 0 8 0 false true
                DailyTimesheet.submitted ]}.

Definition expense (employeeId : nat) (amount : Q)
    (status : DailyExpense.Status) (approvedBy : option nat)
    (approvedAt : option Z) : DailyExpense.Doc :=
  {| DailyExpense.date := jan15; DailyExpense.employeeId := employeeId;
     DailyExpense.category := "meals"; DailyExpense.description := "Lunch";
     DailyExpense.amount := amount; DailyExpense.currency := "LKR";
     DailyExpense.receipt := None; DailyExpense.notes := None;
     DailyExpense.createdBy := 10; DailyExpense.lastModifiedBy := None;
     DailyExpense.status := status;
     DailyExpense.approvedBy := approvedBy;
     DailyExpense.approvedAt := approvedAt;
     DailyExpense.rejectionReason := None |}.

Definition expenses : gmap nat DailyExpense.Doc :=
  {[ 0%nat := expense 1 1200 DailyExpense.draft None None;
     1%nat := expense 1 800 DailyExpense.submitted None None;
     2%nat := expense 2 450 DailyExpense.approved (Some 20%nat) (Some jan16);
     3%nat := expense 1 300 DailyExpense.rejected None None ]}.

(** The body of a creation by the first employee, and the collection the
    creations of two days leave. *)
Definition new_shift (date : Z) (startTime endTime : string) (breakTime : Q)
  : TimesheetRoutes.Body :=
  {| TimesheetRoutes.b_date := Some date;
     TimesheetRoutes.b_employeeId := Some 1%nat;
     TimesheetRoutes.b_startTime := Some startTime;
     TimesheetRoutes.b_endTime := Some endTime;
     TimesheetRoutes.b_breakTime := Some breakTime;
     TimesheetRoutes.b_totalHoursWorked := None;
     TimesheetRoutes.b_otHours := None;
     TimesheetRoutes.b_isVacationWork := None;
     TimesheetRoutes.b_isHolidayWork := None;
     TimesheetRoutes.b_notes := None; TimesheetRoutes.b_createdBy := None;
     TimesheetRoutes.b_status := None |}.

Definition created : gmap nat DailyTimesheet.Doc :=
  TimesheetRoutes.handle
    (TimesheetRoutes.Post alice (new_shift jan16 "08:00" "18:30" 30)
       employees)
    (TimesheetRoutes.handle
       (TimesheetRoutes.Post alice (new_shift jan15 "09:00" "17:00" 0)
          employees)
       ∅).

(** Request bodies: a later end of the shift, hours named by the client,
    a move to 15 January, and an expense status. *)
Definition later_end : TimesheetRoutes.Body :=
  {| TimesheetRoutes.b_date := None; TimesheetRoutes.b_employeeId := None;
     TimesheetRoutes.b_startTime := None;
     TimesheetRoutes.b_endTime := Some "18:00";
     TimesheetRoutes.b_breakTime := None;
     TimesheetRoutes.b_totalHoursWorked := None;
     TimesheetRoutes.b_otHours := None;
     TimesheetRoutes.b_isVacationWork := None;
     TimesheetRoutes.b_isHolidayWork := None;
     TimesheetRoutes.b_notes := None; TimesheetRoutes.b_createdBy := None;
     TimesheetRoutes.b_status := None |}.

Definition claimed_hours : TimesheetRoutes.Body :=
  {| TimesheetRoutes.b_date := None; TimesheetRoutes.b_employeeId := None;
     TimesheetRoutes.b_startTime := None; TimesheetRoutes.b_endTime := None;
     TimesheetRoutes.b_breakTime := None;
     TimesheetRoutes.b_totalHoursWorked := Some 24%Q;
     TimesheetRoutes.b_otHours := Some 16%Q;
     TimesheetRoutes.b_isVacationWork := None;
     TimesheetRoutes.b_isHolidayWork := None;
     TimesheetRoutes.b_notes := None; TimesheetRoutes.b_createdBy := None;
     TimesheetRoutes.b_status := None |}.

Definition move_to_jan15 : TimesheetRoutes.Body :=
  {| TimesheetRoutes.b_date := Some jan15;
     TimesheetRoutes.b_employeeId := None;
     TimesheetRoutes.b_startTime := None; TimesheetRoutes.b_endTime := None;
     TimesheetRoutes.b_breakTime := None;
     TimesheetRoutes.b_totalHoursWorked := None;
     TimesheetRoutes.b_otHours := None;
     TimesheetRoutes.b_isVacationWork := None;
     TimesheetRoutes.b_isHolidayWork := None;
     TimesheetRoutes.b_notes := None; TimesheetRoutes.b_createdBy := None;
     TimesheetRoutes.b_status := None |}.

Definition approve_only : ExpenseRoutes.Body :=
  {| ExpenseRoutes.b_date := None; ExpenseRoutes.b_employeeId := None;
     ExpenseRoutes.b_category := None; ExpenseRoutes.b_description := None;
     ExpenseRoutes.b_amount := None; ExpenseRoutes.b_currency := None;
     ExpenseRoutes.b_receipt := None; ExpenseRoutes.b_notes := None;
     ExpenseRoutes.b_createdBy := None;
     ExpenseRoutes.b_status := Some "approved";
     ExpenseRoutes.b_approvedBy := None; ExpenseRoutes.b_approvedAt := None;
     ExpenseRoutes.b_rejectionReason := None |}.

(** A summary of January 2024 for the first employee, finalized, with
    totals that are out of date. *)
Definition january : MonthlySummary.Doc :=
  {| MonthlySummary.employeeId := 1; MonthlySummary.month := 1;
     MonthlySummary.year := 2024;
     MonthlySummary.totalRegularHours := 8;
     MonthlySummary.totalOTHours := 0;
     MonthlySummary.totalVacationHours := 0;
     MonthlySummary.totalHolidayHours := 0;
     MonthlySummary.totalPayableAmount := 200;
     MonthlySummary.breakdown :=
       {| MonthlySummary.regularPay := 200; MonthlySummary.otPay := 0;
          MonthlySummary.vacationPay := 0;
          MonthlySummary.holidayPay := 0 |};
     MonthlySummary.status := MonthlySummary.finalized;
     MonthlySummary.generatedBy := 20;
     MonthlySummary.finalizedAt := Some jan16;
     MonthlySummary.paidAt := None |}.

Definition summaries : gmap nat MonthlySummary.Doc := {[ 5%nat := january ]}.

(** A draft summary of December 2023 for the second employee. *)
Definition december : MonthlySummary.Doc :=
  {| MonthlySummary.employeeId := 2; MonthlySummary.month := 12;
     MonthlySummary.year := 2023;
     MonthlySummary.totalRegularHours := 160;
     MonthlySummary.totalOTHours := 4;
     MonthlySummary.totalVacationHours := 0;
     MonthlySummary.totalHolidayHours := 0;
     MonthlySummary.totalPayableAmount := 4980;
     MonthlySummary.breakdown :=
       {| MonthlySummary.regularPay := 4800; MonthlySummary.otPay := 180;
          MonthlySummary.vacationPay := 0;
          MonthlySummary.holidayPay := 0 |};
     MonthlySummary.status := MonthlySummary.draft;
     MonthlySummary.generatedBy := 20;
     MonthlySummary.finalizedAt := None;
     MonthlySummary.paidAt := None |}.

Definition drafts : gmap nat MonthlySummary.Doc := {[ 7%nat := december ]}.

End Sample.

(** ** models/PasswordResetToken.js *)

Module PasswordResetToken.

Import Http.

Record Doc := {
  userId : nat;
  token : string;
  expiresAt : Z;
  used : bool;
  createdAt : Z
}.

(** [generateToken(userId)].  The hexadecimal string of the bytes
    [crypto.randomBytes] draws is the argument [drawn]; [this.create]
    inserts the document under a new [_id], and the unique index on
    [token] rejects it ([None]) when a stored document has the token. *)
Definition generateToken (drawn : string) (userId : nat) (env : Env)
    (coll : gmap nat Doc) : option (nat * Doc * gmap nat Doc) :=
  if bool_decide (is_Some (findOne (fun d => String.eqb (token d) drawn) coll))
  then None
  else
    let d := {| userId := userId; token := drawn;
                expiresAt := now env + 3600000;
                used := false; createdAt := now env |} in
    Some (new_id coll, d, <[new_id coll := d]> coll).

(** [verifyToken(token)]: [findOne({token, used: false,
    expiresAt: {$gt: new Date()}})]. *)
Definition verifyToken (tok : string) (env : Env) (coll : gmap nat Doc)
  : option (nat * Doc) :=
  findOne (fun d => String.eqb (token d) tok && negb (used d)
                    && (now env <? expiresAt d)) coll.

(** [markAsUsed()] on the document stored under [_id]. *)
Definition markAsUsed (_id : nat) (this : Doc) (coll : gmap nat Doc)
  : gmap nat Doc :=
  <[_id := {| userId := userId this; token := token this;
              expiresAt := expiresAt this; used := true;
              createdAt := createdAt this |}]> coll.

End PasswordResetToken.

(** ** components/Timesheets/TimesheetForm.js: the hours the form shows *)

Module TimesheetForm.

Import Js.
Local Open Scope string_scope.
Local Open Scope Z_scope.

(** The fields of [formData] the calculation reads; [breakTime] is the
    number that the value of the field is converted to when it is
    subtracted, 0 for the empty field. *)
Record FormData := {
  startTime : string;
  endTime : string;
  breakTime : Q
}.

(** [parseTime] of the form. *)
Definition parseTime (timeString : string) : option Z :=
  match map Number (split_colon timeString) with
  | hours :: minutes :: _ =>
      h ← hours; m ← minutes; Some (h * 60 + m)
  | _ => None
  end.

(** [calculateHours] of the form: the pair [{totalHours, otHours}] it
    passes to [setCalculatedHours]; [None] when they are [NaN].  An empty
    string is falsy, and so is a break of zero in
    [formData.breakTime || 0]. *)
Definition calculateHours (formData : FormData) : option (Q * Q) :=
  if String.eqb (startTime formData) "" || String.eqb (endTime formData) ""
  then Some (0%Q, 0%Q)
  else
    start ← parseTime (startTime formData);
    end_ ← parseTime (endTime formData);
    let totalMinutes := end_ - start in
    let totalMinutes :=
      if totalMinutes <? 0 then totalMinutes + 24 * 60 else totalMinutes in
    let totalMinutes :=
      (inject_Z totalMinutes
       - (if Qeq_bool (breakTime formData) 0 then 0 else breakTime formData))%Q
    in
    let totalHours := Math_max 0 (totalMinutes / 60)%Q in
    let regularHours := 8%Q in
    Some (totalHours, Math_max 0 (totalHours - regularHours)%Q).

End TimesheetForm.

(** ** routes/timesheets.js and routes/expenses.js: the query of a listing *)

Module Listing.

Import Http.
Local Open Scope string_scope.
Local Open Scope Z_scope.

(** [req.query] of [GET /], without the page and the limit.  An empty
    status is falsy and counts as absent; the dates are the [Date]s
    their strings denote. *)
Record Params := {
  p_employeeId : option nat;
  p_startDate : option Z;
  p_endDate : option Z;
  p_status : option string;
  p_category : option string
}.

(** The [query] object a listing builds. *)
Record Filter := {
  f_employeeId : option nat;
  f_from : option Z;
  f_to : option Z;
  f_status : option string;
  f_category : option string
}.

Definition truthy (o : option string) : option string :=
  match o with
  | Some s => if String.eqb s "" then None else Some s
  | None => None
  end.

(** The part of the query both listings build the same way: the employee
    by the role of the caller, the range of dates, the status.  An
    employee's account without a linked record finds no employee. *)
Definition build {R} (user : User) (params : Params)
    (employees : gmap nat EmployeeModel.Employee) : Reply R + Filter :=
  f_emp ←
    (if bool_decide (role user = employee) then
       match linkedEmployeeId user ≫= fun l => (fun _ => l) <$> employees !! l with
       | None => inl (reply 404 (Message "Employee record not found"))
       | Some l => inr (Some l)
       end
     else inr (p_employeeId params));
  inr {| f_employeeId := f_emp;
         f_from := p_startDate params;
         f_to := p_endDate params;
         f_status := truthy (p_status params);
         f_category := None |}.

(** Whether a timesheet matches the query; a status that is none of the
    schema's matches no document. *)
Definition matches_timesheet (f : Filter) (d : DailyTimesheet.Doc) : bool :=
  from_option (fun e => bool_decide (DailyTimesheet.employeeId d = e)) true
    (f_employeeId f)
  && from_option (fun t => t <=? DailyTimesheet.date d) true (f_from f)
  && from_option (fun t => DailyTimesheet.date d <=? t) true (f_to f)
  && from_option
       (fun s => bool_decide (DailyTimesheet.status_of_string s
                              = Some (DailyTimesheet.status d)))
       true (f_status f).

(** [GET /api/timesheets]: the query and the [total] of the reply,
    [countDocuments(query)]. *)
Definition timesheet_query (user : User) (params : Params)
    (employees : gmap nat EmployeeModel.Employee)
  : Reply nat + Filter :=
  pass (allRoles user);;
  build user params employees.

Definition timesheet_total (user : User) (params : Params)
    (employees : gmap nat EmployeeModel.Employee)
    (timesheets : gmap nat DailyTimesheet.Doc) : Reply nat :=
  match timesheet_query user params employees with
  | inl r => r
  | inr f => reply 200 (Document (length (find (matches_timesheet f) timesheets)))
  end.

(** [GET /api/expenses]: the same with the category. *)
Definition matches_expense (f : Filter) (d : DailyExpense.Doc) : bool :=
  from_option (fun e => bool_decide (DailyExpense.employeeId d = e)) true
    (f_employeeId f)
  && from_option (fun t => t <=? DailyExpense.date d) true (f_from f)
  && from_option (fun t => DailyExpense.date d <=? t) true (f_to f)
  && from_option
       (fun s => bool_decide (DailyExpense.status_of_string s
                              = Some (DailyExpense.status d)))
       true (f_status f)
  && from_option (fun c => String.eqb (DailyExpense.category d) c) true
       (f_category f).

Definition expense_query (user : User) (params : Params)
    (employees : gmap nat EmployeeModel.Employee)
  : Reply nat + Filter :=
  pass (allRoles user);;
  f ← build user params employees;
  inr {| f_employeeId := f_employeeId f; f_from := f_from f;
         f_to := f_to f; f_status := f_status f;
         f_category := truthy (p_category params) |}.

Definition expense_total (user : User) (params : Params)
    (employees : gmap nat EmployeeModel.Employee)
    (expenses : gmap nat DailyExpense.Doc) : Reply nat :=
  match expense_query user params employees with
  | inl r => r
  | inr f => reply 200 (Document (length (find (matches_expense f) expenses)))
  end.

End Listing.

(** ** routes/reports.js: reading a summary, exporting a month *)

Module ReportReads.

Import Http MonthlySummary.
Local Open Scope string_scope.
Local Open Scope Z_scope.

(** [GET /monthly/:employeeId/:year/:month], on the [_id] the first
    parameter names and the numbers [parseInt] reads from the others.
    The ownership test comes before the lookup. *)
Definition get_monthly (user : User) (employeeId : nat) (year month : Z)
    (summaries : gmap nat Doc) : Reply Doc :=
  (run summaries (
    pass (allRoles user);;
    (if bool_decide (role user = employee) then
       linked ← or_throw (linkedEmployeeId user);
       return_if (negb (bool_decide (employeeId = linked)))
         (reply 403 (Message "Access denied"))
     else inr tt);;
    match findOne (ReportRoutes.same_key employeeId year month) summaries with
    | None => inl (reply 404 (Message "Monthly summary not found"))
    | Some (_, monthlySummary) =>
        inr (reply 200 (Document monthlySummary), summaries)
    end)).1.

Section CsvExport.

(** How a number is written into a template string. *)
Variable show : Q -> string.

Definition csv_header : string :=
  "Employee ID,Name,Position,Regular Hours,OT Hours,Vacation Hours,Holiday Hours,Total Payable"
  ++ String (ascii_of_nat 10) "".

Definition csv_row (employee : EmployeeModel.Employee) (summary : Doc)
  : string :=
  EmployeeModel.employeeId employee ++ ","
  ++ EmployeeModel.name employee ++ ","
  ++ EmployeeModel.position employee ++ ","
  ++ show (totalRegularHours summary) ++ ","
  ++ show (totalOTHours summary) ++ ","
  ++ show (totalVacationHours summary) ++ ","
  ++ show (totalHolidayHours summary) ++ ","
  ++ show (totalPayableAmount summary)
  ++ String (ascii_of_nat 10) "".

(** The [forEach] over the populated summaries: a summary whose employee
    record is gone is populated with [null], and reading a field of it
    throws ([None]). *)
Fixpoint csv_rows (employees : gmap nat EmployeeModel.Employee)
    (summaries : list Doc) (csvContent : string) : option string :=
  match summaries with
  | [] => Some csvContent
  | summary :: rest =>
      employee ← employees !! employeeId summary;
      csv_rows employees rest (csvContent ++ csv_row employee summary)
  end.

(** [GET /export/:year/:month]. *)
Definition export (user : User) (yearNum monthNum : Z)
    (employees : gmap nat EmployeeModel.Employee)
    (summaries : gmap nat Doc) : Reply string :=
  match adminOrManager user with
  | Some r => r
  | None =>
      let found :=
        map snd
          (find (fun s => (year s =? yearNum) && (month s =? monthNum))
             summaries) in
      match csv_rows employees found csv_header with
      | Some csvContent => reply 200 (Document csvContent)
      | None => server_error
      end
  end.

End CsvExport.

End ReportReads.

(** ** routes/employees.js: the soft delete *)

Module EmployeeRoutes.

Import Http EmployeeModel.
Local Open Scope string_scope.

Definition adminOnly {A} : User -> option (Reply A) := roleCheck [admin].

(** A stored employee document: the fields the reports read, and the two
    other paths of the schema that have validators. *)
Record Stored := {
  fields : Employee;
  dateOfEmployment : option Z;
  breakDuration : Q
}.

(** The schema validators of an employee: the three required strings are
    not empty, [name] and [position] have at most 100 characters,
    [dateOfEmployment] is there, the rates and the duration of the break
    are not negative.  [passwordResetInfo.dateOfBirth] is required when
    [this.role] is ['employee'], and an employee document has no
    [role]. *)
Definition required (s : string) : bool := negb (String.length s =? 0)%nat.

Definition validate (d : Stored) : bool :=
  required (employeeId (fields d))
  && required (name (fields d))
  && (String.length (name (fields d)) <=? 100)%nat
  && required (position (fields d))
  && (String.length (position (fields d)) <=? 100)%nat
  && bool_decide (is_Some (dateOfEmployment d))
  && rates_valid (fields d)
  && Qle_bool 0 (breakDuration d).

(** [employee.save()]; [None] is a rejected promise. *)
Definition save (_id : nat) (this : Stored) (coll : gmap nat Stored)
  : option (gmap nat Stored) :=
  if validate this then Some (<[_id := this]> coll) else None.

(** [DELETE /:id]: the record stays, with status inactive. *)
Definition delete (user : User) (_id : nat) (employees : gmap nat Stored)
  : Reply Stored * gmap nat Stored :=
  run employees (
    pass (adminOnly user);;
    match employees !! _id with
    | None => inl (reply 404 (Message "Employee not found"))
    | Some employee_ =>
        let e := fields employee_ in
        let employee_ :=
          {| fields :=
               {| employeeId := employeeId e; name := name e;
                  position := position e; payRate := payRate e;
                  otRate := otRate e; vacationPayRate := vacationPayRate e;
                  status := inactive |};
             dateOfEmployment := dateOfEmployment employee_;
             breakDuration := breakDuration employee_ |} in
        employees' ← or_throw (save _id employee_ employees);
        inr (reply 200 (Message "Employee deactivated successfully"),
             employees')
    end).

(** The employees as the reports read them. *)
Definition records (employees : gmap nat Stored) : gmap nat Employee :=
  fields <$> employees.

End EmployeeRoutes.

(** ** The requests that write the collection of expenses, with bodies
    that hold fields only *)

Module ExpenseRequests.

Import Http ExpenseRoutes.

Inductive Request :=
| Post (user : User) (body : Body)
    (employees : gmap nat EmployeeModel.Employee)
| Put (user : User) (_id : nat) (body : Body)
| Submit (user : User) (_id : nat)
| Approve (env : Env) (user : User) (_id : nat)
| Reject (user : User) (_id : nat) (body : Body)
| Delete (user : User) (_id : nat).

Definition handle (r : Request) (coll : gmap nat DailyExpense.Doc)
  : gmap nat DailyExpense.Doc :=
  match r with
  | Post user body employees => (post user body employees coll).2
  | Put user _id body => (put user _id body coll).2
  | Submit user _id => (submit user _id coll).2
  | Approve env user _id => (approve env user _id coll).2
  | Reject user _id body => (reject user _id body coll).2
  | Delete user _id => (delete user _id coll).2
  end.

(** The requests that move an expense through its statuses. *)
Definition is_status_request (r : Request) : bool :=
  match r with
  | Submit _ _ | Approve _ _ _ | Reject _ _ _ => true
  | _ => false
  end.

End ExpenseRequests.

(** ** Further conditions and sample data *)

Module MoreChecks.

Local Open Scope string_scope.


(** No two stored reset tokens have the same string: what the unique
    index on [token] maintains. *)
Definition unique_tokens (coll : gmap nat PasswordResetToken.Doc) : bool :=
  Checks.unique_by PasswordResetToken.token coll.

(** What the requests that move an expense through its statuses leave
    as it is: whose expense it is, and what is claimed. *)
Definition same_claim (x y : DailyExpense.Doc) : Prop :=
  DailyExpense.date y = DailyExpense.date x
  /\ DailyExpense.employeeId y = DailyExpense.employeeId x
  /\ DailyExpense.category y = DailyExpense.category x
  /\ DailyExpense.description y = DailyExpense.description x
  /\ DailyExpense.amount y = DailyExpense.amount x
  /\ DailyExpense.currency y = DailyExpense.currency x
  /\ DailyExpense.receipt y = DailyExpense.receipt x
  /\ DailyExpense.notes y = DailyExpense.notes x
  /\ DailyExpense.createdBy y = DailyExpense.createdBy x.

(** The first and the last instant of the range of dates that
    [calculateMonthlySummary] reads for a month, in a time zone without
    offset, and the months a generation accepts. *)
Definition month_start (ym : Z * Z) : Z :=
  Js.new_Date 0 ym.1 (ym.2 - 1) 1 0 0 0.
Definition month_end (ym : Z * Z) : Z :=
  Js.new_Date 0 ym.1 ym.2 0 23 59 59.

Definition months : list (Z * Z) :=
  list_prod (seqZ 2020 11) (seqZ 1 12).

(** Two months are the same or the range of one ends before the range of
    the other starts; and no range starts or has an instant left within a
    second after the end of another. *)
Definition apart (a b : Z * Z) : bool :=
  bool_decide (a = b)
  || (month_end a <? month_start b)%Z || (month_end b <? month_start a)%Z.

Definition second_after (a b : Z * Z) : bool :=
  (month_end b <=? month_end a)%Z
  || (month_end a + 1000 <=? month_start b)%Z.

(** The same but for the amount. *)
Definition same_claim_but_amount (x y : DailyExpense.Doc) : Prop :=
  DailyExpense.date y = DailyExpense.date x
  /\ DailyExpense.employeeId y = DailyExpense.employeeId x
  /\ DailyExpense.category y = DailyExpense.category x
  /\ DailyExpense.description y = DailyExpense.description x
  /\ DailyExpense.currency y = DailyExpense.currency x
  /\ DailyExpense.receipt y = DailyExpense.receipt x
  /\ DailyExpense.notes y = DailyExpense.notes x
  /\ DailyExpense.createdBy y = DailyExpense.createdBy x.

End MoreChecks.


(** ** Further sample data *)

Module MoreSample.

Import Http Sample.
Local Open Scope string_scope.

(** What the form holds for a night shift with a break. *)
Definition night_form : TimesheetForm.FormData :=
  {| TimesheetForm.startTime := "22:00"; TimesheetForm.endTime := "06:30";
     TimesheetForm.breakTime := 30 |}.

(** The body of the creation of an expense by the first employee, which
    names a status and an approver. *)
Definition new_expense : ExpenseRoutes.Body :=
  {| ExpenseRoutes.b_date := Some jan16;
     ExpenseRoutes.b_employeeId := Some 1%nat;
     ExpenseRoutes.b_category := Some "transport";
     ExpenseRoutes.b_description := Some " Taxi to the site ";
     ExpenseRoutes.b_amount := Some 950%Q;
     ExpenseRoutes.b_currency := None;
     ExpenseRoutes.b_receipt := None; ExpenseRoutes.b_notes := None;
     ExpenseRoutes.b_createdBy := None;
     ExpenseRoutes.b_status := Some "approved";
     ExpenseRoutes.b_approvedBy := Some 10%nat;
     ExpenseRoutes.b_approvedAt := Some jan16;
     ExpenseRoutes.b_rejectionReason := None |}.

(** The rejection of an expense with a reason. *)
Definition no_receipt : ExpenseRoutes.Body :=
  {| ExpenseRoutes.b_date := None; ExpenseRoutes.b_employeeId := None;
     ExpenseRoutes.b_category := None; ExpenseRoutes.b_description := None;
     ExpenseRoutes.b_amount := None; ExpenseRoutes.b_currency := None;
     ExpenseRoutes.b_receipt := None; ExpenseRoutes.b_notes := None;
     ExpenseRoutes.b_createdBy := None; ExpenseRoutes.b_status := None;
     ExpenseRoutes.b_approvedBy := None; ExpenseRoutes.b_approvedAt := None;
     ExpenseRoutes.b_rejectionReason := Some " No receipt " |}.

(** An expense on its way through the statuses, and a day of requests. *)
Definition workflow : list ExpenseRequests.Request :=
  [ ExpenseRequests.Submit alice 0; ExpenseRequests.Approve env boss 0;
    ExpenseRequests.Reject root 0 no_receipt;
    ExpenseRequests.Approve env root 3 ].

Definition busy_day : list ExpenseRequests.Request :=
  [ ExpenseRequests.Post alice new_expense employees;
    ExpenseRequests.Put alice 0 approve_only;
    ExpenseRequests.Reject boss 1 no_receipt;
    ExpenseRequests.Delete boss 2 ].

(** 17 January 2024, and the bodies of a creation for the second
    employee and of an update that names the second employee. *)
Definition jan17 : Z := 1705449600000.

Definition shift_of_second : TimesheetRoutes.Body :=
  {| TimesheetRoutes.b_date := Some jan17;
     TimesheetRoutes.b_employeeId := Some 2%nat;
     TimesheetRoutes.b_startTime := Some "09:00";
     TimesheetRoutes.b_endTime := Some "17:00";
     TimesheetRoutes.b_breakTime := None;
     TimesheetRoutes.b_totalHoursWorked := None;
     TimesheetRoutes.b_otHours := None;
     TimesheetRoutes.b_isVacationWork := None;
     TimesheetRoutes.b_isHolidayWork := None;
     TimesheetRoutes.b_notes := None; TimesheetRoutes.b_createdBy := None;
     TimesheetRoutes.b_status := None |}.

Definition give_away : TimesheetRoutes.Body :=
  {| TimesheetRoutes.b_date := None;
     TimesheetRoutes.b_employeeId := Some 2%nat;
     TimesheetRoutes.b_startTime := None; TimesheetRoutes.b_endTime := None;
     TimesheetRoutes.b_breakTime := None;
     TimesheetRoutes.b_totalHoursWorked := None;
     TimesheetRoutes.b_otHours := None;
     TimesheetRoutes.b_isVacationWork := None;
     TimesheetRoutes.b_isHolidayWork := None;
     TimesheetRoutes.b_notes := None; TimesheetRoutes.b_createdBy := None;
     TimesheetRoutes.b_status := None |}.

Definition timesheet_day : list TimesheetRoutes.Request :=
  [ TimesheetRoutes.Post alice (new_shift jan17 "08:00" "18:30" 30) employees;
    TimesheetRoutes.Put alice 1 later_end;
    TimesheetRoutes.Put alice 1 claimed_hours;
    TimesheetRoutes.Delete boss 2 ].

(** A summary that was paid, beside the finalized one. *)
Definition paid_december : MonthlySummary.Doc :=
  {| MonthlySummary.employeeId := 2; MonthlySummary.month := 12;
     MonthlySummary.year := 2023;
     MonthlySummary.totalRegularHours := 160;
     MonthlySummary.totalOTHours := 4;
     MonthlySummary.totalVacationHours := 0;
     MonthlySummary.totalHolidayHours := 0;
     MonthlySummary.totalPayableAmount := 4980;
     MonthlySummary.breakdown :=
       {| MonthlySummary.regularPay := 4800;
          MonthlySummary.otPay := 180;
          MonthlySummary.vacationPay := 0;
          MonthlySummary.holidayPay := 0 |};
     MonthlySummary.status := MonthlySummary.paid;
     MonthlySummary.generatedBy := 20;
     MonthlySummary.finalizedAt := Some jan15;
     MonthlySummary.paidAt := Some jan16 |}.

Definition paid_summaries : gmap nat MonthlySummary.Doc :=
  <[6%nat := paid_december]> summaries.

(** The employees as they are stored, with the date of employment and the
    duration of the break. *)
Definition staff : gmap nat EmployeeRoutes.Stored :=
  (fun e => {| EmployeeRoutes.fields := e;
               EmployeeRoutes.dateOfEmployment := Some jan15;
               EmployeeRoutes.breakDuration := 30 |}) <$> employees.

(** A way of writing a number: its whole part. *)
Definition whole (q : Q) : string := pretty (Qnum q / Zpos (Qden q))%Z.

(** A reset token drawn for the first employee's account, and the
    collection that holds it. *)
Definition drawn : string := "5f2a9c".

Definition tokens : gmap nat PasswordResetToken.Doc :=
  {[ 0%nat := {| PasswordResetToken.userId := 10;
                 PasswordResetToken.token := drawn;
                 PasswordResetToken.expiresAt := now env + 3600000;
                 PasswordResetToken.used := false;
                 PasswordResetToken.createdAt := now env |};
     1%nat := {| PasswordResetToken.userId := 11;
                 PasswordResetToken.token := "0b77e1";
                 PasswordResetToken.expiresAt := now env + 1800000;
                 PasswordResetToken.used := false;
                 PasswordResetToken.createdAt := now env - 1800000 |} ]}.

(** A timesheet dated half a second before the year 2024 begins. *)
Definition new_year : DailyTimesheet.Doc :=
  timesheet 1704067199500 1 "20:00" "23:59" 0 (239 # 60) 0 false true
    DailyTimesheet.draft.

(** The query string of a listing that names the second employee. *)
Definition of_second : Listing.Params :=
  {| Listing.p_employeeId := Some 2%nat; Listing.p_startDate := Some jan15;
     Listing.p_endDate := None; Listing.p_status := Some "";
     Listing.p_category := None |}.

End MoreSample.

(** * Properties *)

Import Http Checks Sample.

(** ** Queries on a collection *)

Section Queries.

Context {A : Type}.
Implicit Types (coll : gmap nat A) (filter : A -> bool).

Lemma findOne_Some filter coll i x :
  findOne filter coll = Some (i, x) -> coll !! i = Some x /\ filter x = true.
Proof.
  unfold findOne. intros H.
  assert (In (i, x) (List.filter (fun kv => filter kv.2) (map_to_list coll)))
    as Hin.
  { destruct (List.filter _ _) as [|p l]; [discriminate|].
    injection H as ->. by left. }
  apply filter_In in Hin as [Hin Hf].
  apply list_elem_of_In, elem_of_map_to_list in Hin. done.
Qed.

Lemma findOne_None filter coll :
  findOne filter coll = None ->
  forall i x, coll !! i = Some x -> filter x = false.
Proof.
  unfold findOne. intros H i x Hix.
  destruct (filter x) eqn:Hf; [|done].
  assert (In (i, x) (List.filter (fun kv => filter kv.2) (map_to_list coll)))
    as Hin.
  { apply filter_In. split; [|done].
    by apply list_elem_of_In, elem_of_map_to_list. }
  destruct (List.filter _ _); [destruct Hin | discriminate].
Qed.

Lemma findOne_is_Some filter coll i x :
  coll !! i = Some x -> filter x = true -> is_Some (findOne filter coll).
Proof.
  intros Hix Hf. destruct (findOne filter coll) eqn:E; [done|].
  rewrite (findOne_None _ _ E i x Hix) in Hf. discriminate.
Qed.

Lemma find_lookup filter coll i x :
  In (i, x) (find filter coll) <-> coll !! i = Some x /\ filter x = true.
Proof.
  unfold find. rewrite filter_In, <- list_elem_of_In, elem_of_map_to_list.
  done.
Qed.

Lemma find_NoDup_ids filter coll : NoDup (map fst (find filter coll)).
Proof.
  unfold find. pose proof (NoDup_fst_map_to_list coll) as H.
  induction (map_to_list coll) as [|p l IH]; cbn; [constructor|].
  cbn in H. apply NoDup_cons in H as [Hp Hl].
  destruct (filter p.2); cbn; [|by apply IH].
  apply NoDup_cons. split; [|by apply IH].
  intros Hin. apply Hp.
  apply list_elem_of_fmap in Hin as (q & -> & Hq).
  apply list_elem_of_fmap. exists q. split; [done|].
  apply list_elem_of_In, filter_In in Hq as [Hq _].
  by apply list_elem_of_In.
Qed.

Lemma new_id_fresh coll : coll !! new_id coll = None.
Proof.
  unfold new_id. apply not_elem_of_dom. apply is_fresh.
Qed.

End Queries.

Section Uniqueness.

Context {A K : Type} `{EqDecision K} (key : A -> K).
Implicit Types coll : gmap nat A.

Lemma unique_by_spec coll :
  unique_by key coll = true <->
  (forall i j a b, coll !! i = Some a -> coll !! j = Some b ->
     key a = key b -> i = j).
Proof.
  unfold unique_by. rewrite bool_decide_eq_true. split.
  - intros Hnd i j a b Hi Hj Hk.
    apply elem_of_map_to_list, list_elem_of_lookup in Hi as [p Hp].
    apply elem_of_map_to_list, list_elem_of_lookup in Hj as [q Hq].
    assert (p = q) as ->.
    { eapply NoDup_lookup; [exact Hnd | |].
      - rewrite list_lookup_fmap, Hp. reflexivity.
      - rewrite list_lookup_fmap, Hq. cbn. by rewrite Hk. }
    congruence.
  - intros H. apply NoDup_fmap_2_strong; [|apply NoDup_map_to_list].
    intros [i a] [j b] Hi Hj Hk. cbn in Hk.
    apply elem_of_map_to_list in Hi, Hj.
    assert (i = j) as -> by eauto. congruence.
Qed.

(** Writing a document keeps the keys distinct when it replaces one of the
    same key or when its key is new. *)
Lemma insert_unique_by coll (i : nat) (d : A) :
  (exists old, coll !! i = Some old /\ key old = key d)
  \/ (coll !! i = None
      /\ forall j x, coll !! j = Some x -> key x <> key d) ->
  unique_by key coll = true ->
  unique_by key (<[i := d]> coll) = true.
Proof.
  intros Hcase. rewrite !unique_by_spec. intros Hu a b x y Ha Hb Hk.
  destruct (decide (a = i)) as [->|Hai]; destruct (decide (b = i)) as [->|Hbi];
    [done| | |].
  - rewrite lookup_insert_eq in Ha. rewrite lookup_insert_ne in Hb by done.
    injection Ha as <-.
    destruct Hcase as [(old & Hold & Hko) | (_ & Hnone)].
    + symmetry. eapply Hu; [exact Hb | exact Hold | congruence].
    + exfalso. by eapply Hnone.
  - rewrite lookup_insert_eq in Hb. rewrite lookup_insert_ne in Ha by done.
    injection Hb as <-.
    destruct Hcase as [(old & Hold & Hko) | (_ & Hnone)].
    + eapply Hu; [exact Ha | exact Hold | congruence].
    + exfalso. by eapply Hnone.
  - rewrite lookup_insert_ne in Ha, Hb by done. eauto.
Qed.

Lemma delete_unique_by coll (i : nat) :
  unique_by key coll = true -> unique_by key (delete i coll) = true.
Proof.
  rewrite !unique_by_spec. intros Hu a b x y Ha Hb Hk.
  apply lookup_delete_Some in Ha as [_ Ha].
  apply lookup_delete_Some in Hb as [_ Hb]. eauto.
Qed.

End Uniqueness.

Section AllDocs.
Context {A : Type} (test : A -> bool).
Implicit Types coll : gmap nat A.

Lemma all_docs_spec coll :
  all_docs test coll = true <->
  (forall i x, coll !! i = Some x -> test x = true).
Proof.
  unfold all_docs. rewrite forallb_forall. split.
  - intros H i x Hix. apply (H (i, x)).
    by apply list_elem_of_In, elem_of_map_to_list.
  - intros H [i x] Hin. apply (H i x).
    by apply elem_of_map_to_list, list_elem_of_In.
Qed.

Lemma all_docs_lookup coll i x :
  all_docs test coll = true -> coll !! i = Some x -> test x = true.
Proof. rewrite all_docs_spec. eauto. Qed.

Lemma all_docs_insert coll (i : nat) (d : A) :
  all_docs test coll = true -> test d = true ->
  all_docs test (<[i := d]> coll) = true.
Proof.
  rewrite !all_docs_spec. intros H Hd j x Hj.
  destruct (decide (i = j)) as [->|Hij].
  - rewrite lookup_insert_eq in Hj. by injection Hj as <-.
  - rewrite lookup_insert_ne in Hj by done. eauto.
Qed.

Lemma all_docs_delete coll (i : nat) :
  all_docs test coll = true -> all_docs test (delete i coll) = true.
Proof.
  rewrite !all_docs_spec. intros H j x Hj.
  apply lookup_delete_Some in Hj as [_ Hj]. eauto.
Qed.
End AllDocs.

(** ** Access checks *)

Section Access.

Context {A : Type}.

Lemma adminOrManager_pass (user : User) :
  role user <> employee -> @adminOrManager A user = None.
Proof. unfold adminOrManager, roleCheck. by destruct (role user). Qed.

Lemma adminOrManager_employee (user : User) :
  role user = employee ->
  exists msg, @adminOrManager A user = Some (reply 403 (Message msg)).
Proof.
  unfold adminOrManager, roleCheck. intros ->. cbn. eexists. reflexivity.
Qed.

Lemma allRoles_pass (user : User) : @allRoles A user = None.
Proof. unfold allRoles, roleCheck. by destruct (role user). Qed.

End Access.

(** ** The white space setter *)

Section Trim.

Import Js.

Lemma trim_start_length (s : string) :
  (String.length (trim_start s) <= String.length s)%nat.
Proof.
  induction s as [|c s IH]; cbn; [done|].
  destruct (is_space c); cbn; lia.
Qed.

Lemma trim_end_length (s : string) :
  (String.length (trim_end s) <= String.length s)%nat.
Proof.
  induction s as [|c s IH]; cbn; [done|].
  destruct (trim_end s); [destruct (is_space c)|]; cbn in *; lia.
Qed.

Lemma trim_length (s : string) :
  (String.length (trim s) <= String.length s)%nat.
Proof.
  unfold trim. pose proof (trim_end_length (trim_start s)).
  pose proof (trim_start_length s). lia.
Qed.

End Trim.

(** ** The time calculator *)

Section TimeCalculator.

Import Js DailyTimesheet.
Local Open Scope Z_scope.

Lemma is_digit_range (c : ascii) :
  is_digit c = true -> 0 <= digit_value c <= 9.
Proof.
  unfold is_digit, digit_value. intros H.
  apply andb_prop in H as [H1 H2].
  apply Nat.leb_le in H1, H2. lia.
Qed.

Lemma is_digit_not_colon (c : ascii) :
  is_digit c = true -> Ascii.eqb c ":" = false.
Proof.
  intros H. destruct (Ascii.eqb_spec c ":") as [->|]; [discriminate H | done].
Qed.

Lemma is_0_5_range (c : ascii) :
  is_0_5 c = true -> is_digit c = true /\ 0 <= digit_value c <= 5.
Proof.
  unfold is_0_5. intros H. apply andb_prop in H as [H1 H2].
  split; [done|]. pose proof (is_digit_range c H1).
  apply Nat.leb_le in H2. unfold digit_value in *. lia.
Qed.

Lemma is_0_3_range (c : ascii) :
  is_0_3 c = true -> is_digit c = true /\ 0 <= digit_value c <= 3.
Proof.
  unfold is_0_3. intros H. apply andb_prop in H as [H1 H2].
  split; [done|]. pose proof (is_digit_range c H1).
  apply Nat.leb_le in H2. unfold digit_value in *. lia.
Qed.

Lemma is_0_1_range (c : ascii) :
  is_0_1 c = true -> is_digit c = true /\ 0 <= digit_value c <= 1.
Proof.
  unfold is_0_1. intros H. apply orb_prop in H as [H|H];
    apply Ascii.eqb_eq in H; subst c; (split; [reflexivity | cbv; split; discriminate]).
Qed.

(** A time string one digit of hours long. *)
Lemma parseTime_4 (h m1 m2 : ascii) :
  is_digit h = true -> is_digit m1 = true -> is_digit m2 = true ->
  parseTime (String h (String ":" (String m1 (String m2 EmptyString))))
  = Some (digit_value h * 60 + (10 * digit_value m1 + digit_value m2)).
Proof.
  intros Hh H1 H2. unfold parseTime. cbn [split_colon].
  rewrite (is_digit_not_colon _ Hh), (is_digit_not_colon _ H1),
    (is_digit_not_colon _ H2).
  cbn. rewrite Hh, H1, H2. cbn. do 2 f_equal; lia.
Qed.

(** A time string two digits of hours long. *)
Lemma parseTime_5 (h1 h2 m1 m2 : ascii) :
  is_digit h1 = true -> is_digit h2 = true ->
  is_digit m1 = true -> is_digit m2 = true ->
  parseTime
    (String h1 (String h2 (String ":" (String m1 (String m2 EmptyString)))))
  = Some ((10 * digit_value h1 + digit_value h2) * 60
          + (10 * digit_value m1 + digit_value m2)).
Proof.
  intros Hh1 Hh2 H1 H2. unfold parseTime. cbn [split_colon].
  rewrite (is_digit_not_colon _ Hh1), (is_digit_not_colon _ Hh2),
    (is_digit_not_colon _ H1), (is_digit_not_colon _ H2).
  cbn. rewrite Hh1, Hh2, H1, H2. cbn. do 2 f_equal; lia.
Qed.

(** Every string the validator admits parses to a minute of the day. *)
Lemma parseTime_time_format (s : string) :
  time_format s = true ->
  exists n, parseTime s = Some n /\ 0 <= n < 1440.
Proof.
  destruct s as [|a [|b [|c [|d [|e [|f s]]]]]]; try discriminate.
  - cbn [time_format]. intros H.
    apply andb_prop in H as [H Hd]. apply andb_prop in H as [H Hc].
    apply andb_prop in H as [Ha Hb].
    apply Ascii.eqb_eq in Hb. subst b.
    apply is_0_5_range in Hc as [Hc ?].
    pose proof (is_digit_range a Ha). pose proof (is_digit_range d Hd).
    eexists. split; [by apply parseTime_4 | lia].
  - cbn [time_format]. intros H.
    apply andb_prop in H as [H He]. apply andb_prop in H as [H Hd].
    apply andb_prop in H as [H Hc].
    apply Ascii.eqb_eq in Hc. subst c.
    apply is_0_5_range in Hd as [Hd ?].
    pose proof (is_digit_range e He).
    apply orb_prop in H as [H|H]; apply andb_prop in H as [Ha Hb].
    + apply is_0_1_range in Ha as [Ha ?].
      pose proof (is_digit_range b Hb).
      eexists. split; [by apply parseTime_5 | lia].
    + apply Ascii.eqb_eq in Ha. subst a.
      apply is_0_3_range in Hb as [Hb ?].
      eexists. split; [by apply parseTime_5 | ].
      change (digit_value "2") with 2. lia.
Qed.

Lemma hhmm_checked_all :
  forallb (fun h => forallb (hhmm_checked h) (seqZ 0 60)) (seqZ 0 24) = true.
Proof. vm_compute. reflexivity. Qed.

Lemma parseTime_hhmm (h m : Z) :
  0 <= h < 24 -> 0 <= m < 60 ->
  time_format (hhmm h m) = true
  /\ parseTime (hhmm h m) = Some (h * 60 + m).
Proof.
  intros Hh Hm. pose proof hhmm_checked_all as H.
  rewrite forallb_forall in H.
  specialize (H h). rewrite <- list_elem_of_In, elem_of_seqZ in H.
  specialize (H ltac:(lia)). rewrite forallb_forall in H.
  specialize (H m). rewrite <- list_elem_of_In, elem_of_seqZ in H.
  specialize (H ltac:(lia)). unfold hhmm_checked in H.
  apply andb_prop in H as [H1 H2]. apply bool_decide_eq_true in H2. done.
Qed.

Lemma hours_of_minutes (t : Z) (x : Q) :
  (x == inject_Z t)%Q ->
  (Math_max 0 (x / 60) == inject_Z (Z.max 0 t) / 60)%Q.
Proof.
  intros Hx. unfold Math_max. rewrite Hx.
  destruct (Z.le_gt_cases t 0) as [Hle|Hgt].
  - rewrite Z.max_l by done.
    rewrite Q.max_l; [reflexivity|].
    unfold Qle, Qdiv, Qmult, Qinv, inject_Z; simpl. lia.
  - rewrite Z.max_r by lia.
    rewrite Q.max_r; [reflexivity|].
    unfold Qle, Qdiv, Qmult, Qinv, inject_Z; simpl. lia.
Qed.

Lemma calculateHours_minutes (this : Doc) (sm em : Z) :
  parseTime (startTime this) = Some sm ->
  parseTime (endTime this) = Some em ->
  exists this', calculateHours this = Some this' /\
    totalHoursWorked this' =
      Math_max 0 ((inject_Z (if em - sm <? 0 then em - sm + 24 * 60 else em - sm)
                   - breakTime this) / 60)%Q /\
    otHours this' = Math_max 0 (totalHoursWorked this' - regularHours)%Q.
Proof.
  intros Hs He. unfold calculateHours. rewrite Hs, He. cbn.
  eexists. split; [reflexivity|]. cbn. done.
Qed.

(** On validated times the calculator returns, and what it returns passes
    the validators of the schema. *)
Lemma calculateHours_valid (this : Doc) :
  validate this = true ->
  exists d, calculateHours this = Some d /\ validate d = true.
Proof.
  unfold validate. intros H.
  apply andb_prop in H as [H Hnotes]. apply andb_prop in H as [H _].
  apply andb_prop in H as [H _]. apply andb_prop in H as [H _].
  apply andb_prop in H as [H Hb480]. apply andb_prop in H as [H Hb0].
  apply andb_prop in H as [Hs He].
  destruct (parseTime_time_format _ Hs) as (sm & Psm & Hsm).
  destruct (parseTime_time_format _ He) as (em & Pem & Hem).
  destruct (calculateHours_minutes this sm em Psm Pem)
    as (d & Hd & Hw & Ho).
  exists d. split; [done|].
  pose proof Hd as Hf. unfold calculateHours in Hf.
  rewrite Psm, Pem in Hf. cbn in Hf. injection Hf as Hf.
  assert (startTime d = startTime this /\ endTime d = endTime this
          /\ breakTime d = breakTime this /\ notes d = notes this)
    as (-> & -> & -> & ->) by (by rewrite <- Hf).
  rewrite Hs, He, Hb0, Hb480, Hnotes, Hw, Ho. cbn.
  unfold Math_max.
  set (tm := if em - sm <? 0 then em - sm + 24 * 60 else em - sm).
  assert (0 <= tm < 1440) as Htm.
  { subst tm. destruct (Z.ltb_spec (em - sm) 0); lia. }
  apply Qle_bool_iff in Hb0.
  assert ((inject_Z tm - breakTime this) / 60 <= 24)%Q as Hle.
  { apply Qle_shift_div_r; [reflexivity|].
    apply Qle_trans with (inject_Z tm - 0)%Q.
    - apply Qplus_le_compat; [apply Qle_refl|]. by apply Qopp_le_compat.
    - unfold Qminus. rewrite Qplus_0_r.
      change (24 * 60)%Q with (inject_Z 1440). rewrite <- Zle_Qle. lia. }
  repeat (apply andb_true_intro; split); try done; apply Qle_bool_iff.
  - apply Q.le_max_l.
  - apply Q.max_lub; [discriminate | done].
  - apply Q.le_max_l.
Qed.


(** The formula on every pair of times the validator admits, one-digit
    hours included. *)
Lemma calculateHours_validated (this : Doc) (b : Z) :
  time_format (startTime this) = true ->
  time_format (endTime this) = true ->
  (breakTime this == inject_Z b)%Q ->
  exists sm em this',
    parseTime (startTime this) = Some sm /\ 0 <= sm < 1440
    /\ parseTime (endTime this) = Some em /\ 0 <= em < 1440
    /\ calculateHours this = Some this'
    /\ (totalHoursWorked this' ==
          inject_Z (Z.max 0 (em - sm + (if em <? sm then 1440 else 0) - b))
          / 60)%Q
    /\ (otHours this' == Qmax 0 (totalHoursWorked this' - 8))%Q.
Proof.
  intros Hs He Hb.
  destruct (parseTime_time_format _ Hs) as (sm & Ps & Hsm).
  destruct (parseTime_time_format _ He) as (em & Pe & Hem).
  destruct (calculateHours_minutes this sm em Ps Pe) as (this' & Hc & Hw & Ho).
  exists sm, em, this'. repeat split; try done; try lia; [|by rewrite Ho].
  rewrite Hw. apply hours_of_minutes. rewrite Hb.
  unfold Qminus. rewrite <- inject_Z_opp, <- inject_Z_plus.
  destruct (Z.ltb_spec (em - sm) 0), (Z.ltb_spec em sm); try lia;
    apply inject_Z_injective; lia.
Qed.

(** C1.  For start and end times ["HH:MM"] with hours 00-23 and minutes
    00-59 and a break of a whole number of minutes in [0,480],
    [calculateHours] assigns
    [totalHoursWorked = max(0, (end - start) + (1440 if end < start) - break) / 60]
    and [otHours = max(0, totalHoursWorked - 8)]; 22:00 to 06:00 without a
    break gives 8 hours and no overtime, and 09:00 to 09:30 with a break of
    60 minutes gives 0 hours. *)
Theorem C1_calculateHours_formula :
  (forall (h1 m1 h2 m2 b : Z) (this : Doc),
     0 <= h1 < 24 -> 0 <= m1 < 60 -> 0 <= h2 < 24 -> 0 <= m2 < 60 ->
     0 <= b <= 480 ->
     startTime this = hhmm h1 m1 -> endTime this = hhmm h2 m2 ->
     (breakTime this == inject_Z b)%Q ->
     let startMinutes := h1 * 60 + m1 in
     let endMinutes := h2 * 60 + m2 in
     exists this', calculateHours this = Some this' /\
       (totalHoursWorked this' ==
          inject_Z (Z.max 0 (endMinutes - startMinutes
                             + (if endMinutes <? startMinutes then 1440 else 0)
                             - b)) / 60)%Q /\
       (otHours this' == Qmax 0 (totalHoursWorked this' - 8))%Q)
  /\ (forall this : Doc,
        startTime this = "22:00"%string -> endTime this = "06:00"%string ->
        (breakTime this == 0)%Q ->
        exists this', calculateHours this = Some this' /\
          (totalHoursWorked this' == 8)%Q /\ (otHours this' == 0)%Q)
  /\ (forall this : Doc,
        startTime this = "09:00"%string -> endTime this = "09:30"%string ->
        (breakTime this == 60)%Q ->
        exists this', calculateHours this = Some this' /\
          (totalHoursWorked this' == 0)%Q).
Proof.
  assert (forall (h1 m1 h2 m2 b : Z) (this : Doc),
     0 <= h1 < 24 -> 0 <= m1 < 60 -> 0 <= h2 < 24 -> 0 <= m2 < 60 ->
     startTime this = hhmm h1 m1 -> endTime this = hhmm h2 m2 ->
     (breakTime this == inject_Z b)%Q ->
     exists this', calculateHours this = Some this' /\
       (totalHoursWorked this' ==
          inject_Z (Z.max 0 (h2 * 60 + m2 - (h1 * 60 + m1)
                             + (if h2 * 60 + m2 <? h1 * 60 + m1
                                then 1440 else 0)
                             - b)) / 60)%Q /\
       (otHours this' == Qmax 0 (totalHoursWorked this' - 8))%Q) as general.
  { intros h1 m1 h2 m2 b this Hh1 Hm1 Hh2 Hm2 Hs He Hb.
    destruct (parseTime_hhmm h1 m1 Hh1 Hm1) as [_ Ps].
    destruct (parseTime_hhmm h2 m2 Hh2 Hm2) as [_ Pe].
    rewrite <- Hs in Ps. rewrite <- He in Pe.
    destruct (calculateHours_minutes this _ _ Ps Pe) as (this' & Hc & Hw & Ho).
    exists this'. split; [done|]. split; [|by rewrite Ho].
    rewrite Hw. apply hours_of_minutes. rewrite Hb.
    unfold Qminus. rewrite <- inject_Z_opp, <- inject_Z_plus.
    destruct (Z.ltb_spec (h2 * 60 + m2 - (h1 * 60 + m1)) 0),
      (Z.ltb_spec (h2 * 60 + m2) (h1 * 60 + m1)); try lia;
      apply inject_Z_injective; lia. }
  split; [intros; cbv zeta; apply general; done|].
  split.
  - intros this Hs He Hb.
    destruct (general 22 0 6 0 0 this) as (this' & Hc & Hw & Ho);
      [lia | lia | lia | lia | done | done | done |].
    exists this'. split; [done|].
    assert (totalHoursWorked this' == 8)%Q as Hw8 by (rewrite Hw; reflexivity).
    split; [done|]. rewrite Ho, Hw8. reflexivity.
  - intros this Hs He Hb.
    destruct (general 9 0 9 30 60 this) as (this' & Hc & Hw & Ho);
      [lia | lia | lia | lia | done | done | done |].
    exists this'. split; [done|]. rewrite Hw. reflexivity.
Qed.

Lemma C1_calculateHours_formula_witness :
  exists this', calculateHours (shift "09:00" "17:30" 30) = Some this' /\
    (totalHoursWorked this' == inject_Z 480 / 60)%Q /\
    (otHours this' == Qmax 0 (totalHoursWorked this' - 8))%Q.
Proof.
  apply (proj1 C1_calculateHours_formula 9 0 17 30 30
           (shift "09:00" "17:30" 30));
    [lia | lia | lia | lia | lia | reflexivity | reflexivity | reflexivity].
Defined.

End TimeCalculator.

(** ** The monthly aggregation *)

Section Aggregation.

Import EmployeeModel MonthlySummary ReportRoutes.
Local Open Scope Q_scope.

Lemma sum_over_cons f (t : DailyTimesheet.Doc) entries :
  sum_over f (t :: entries) = f t + sum_over f entries.
Proof. reflexivity. Qed.

Lemma fold_add_timesheet (entries : list DailyTimesheet.Doc) (acc : Totals) :
  let totals := fold_left add_timesheet entries acc in
  regular totals == regular acc + sum_over regular_part entries
  /\ ot totals == ot acc + sum_over DailyTimesheet.otHours entries
  /\ vacation totals == vacation acc + sum_over vacation_part entries
  /\ holiday totals == holiday acc + sum_over holiday_part entries.
Proof.
  revert acc. induction entries as [|t entries IH]; intros acc.
  - cbn. repeat split; ring.
  - cbn [fold_left]. rewrite !sum_over_cons.
    destruct (IH (add_timesheet acc t)) as (Hr & Ho & Hv & Hh).
    cbv zeta in *. rewrite Hr, Ho, Hv, Hh.
    unfold add_timesheet, vacation_part, holiday_part, regular_part,
      Js.Math_max; cbn [regular ot vacation holiday].
    repeat split; try ring;
      destruct (DailyTimesheet.isVacationWork t),
        (DailyTimesheet.isHolidayWork t); ring.
Qed.

Lemma sum_over_nonneg f (entries : list DailyTimesheet.Doc) :
  (forall t, In t entries -> 0 <= f t) -> 0 <= sum_over f entries.
Proof.
  induction entries as [|t entries IH]; cbn; intros H; [apply Qle_refl|].
  apply Qle_trans with (0 + 0); [apply Qle_refl|].
  apply Qplus_le_compat; [apply H; by left | apply IH; intros; apply H; by right].
Qed.


Lemma Qadd_nonneg (a b : Q) : 0 <= a -> 0 <= b -> 0 <= a + b.
Proof.
  intros Ha Hb. apply Qle_trans with (0 + 0); [apply Qle_refl|].
  by apply Qplus_le_compat.
Qed.

Lemma month_timesheets_lookup env eid y m ts t :
  In t (month_timesheets env eid y m ts) ->
  exists i, ts !! i = Some t /\ DailyTimesheet.employeeId t = eid.
Proof.
  unfold month_timesheets. intros H.
  apply in_map_iff in H as ([i t'] & <- & H).
  apply find_lookup in H as [H Hf]. exists i. split; [done|].
  apply andb_prop in Hf as [Hf _]. apply andb_prop in Hf as [Hf _].
  by apply bool_decide_eq_true in Hf.
Qed.

Lemma unique_keys_spec (summaries : gmap nat Doc) :
  unique_keys summaries = true <->
  (forall i j a b, summaries !! i = Some a -> summaries !! j = Some b ->
     summary_key a = summary_key b -> i = j).
Proof. apply unique_by_spec. Qed.

Lemma insert_unique_keys (summaries : gmap nat Doc) (i : nat) (d : Doc) :
  (exists old, summaries !! i = Some old /\ summary_key old = summary_key d)
  \/ (summaries !! i = None
      /\ forall j x, summaries !! j = Some x -> summary_key x <> summary_key d) ->
  unique_keys summaries = true ->
  unique_keys (<[i := d]> summaries) = true.
Proof. apply insert_unique_by. Qed.

Section Generate.

Variables (env : Env) (yearNum monthNum : Z).
Variable timesheets : gmap nat DailyTimesheet.Doc.

Hypothesis month_ok : (1 <= monthNum <= 12)%Z.
Hypothesis year_ok : (2020 <= yearNum <= 2030)%Z.
Hypothesis timesheets_ok : all_docs DailyTimesheet.validate timesheets = true.

Abbreviation calc d e :=
  (calculateMonthlySummary env timesheets d e yearNum monthNum).
Abbreviation key eid := (same_key eid yearNum monthNum).

Lemma calc_idem d e : calc (calc d e) e = calc d e.
Proof. reflexivity. Qed.

Lemma calc_with_generatedBy g d e :
  calc (with_generatedBy g d) e = with_generatedBy g (calc d e).
Proof. reflexivity. Qed.

Lemma calc_key eid d e : key eid (calc d e) = key eid d.
Proof. reflexivity. Qed.

Lemma timesheet_hours_nonneg t :
  DailyTimesheet.validate t = true ->
  0 <= DailyTimesheet.totalHoursWorked t /\ 0 <= DailyTimesheet.otHours t.
Proof.
  unfold DailyTimesheet.validate. intros H.
  repeat (apply andb_prop in H as [H ?]).
  split; by apply Qle_bool_iff.
Qed.

Lemma calc_validate (d : Doc) (e : nat * Employee) :
  rates_valid e.2 = true ->
  month d = monthNum -> year d = yearNum ->
  validate (calc d e) = true.
Proof.
  intros Hrates Hm Hy.
  unfold rates_valid in Hrates.
  apply andb_prop in Hrates as [Hrates Hv].
  apply andb_prop in Hrates as [Hp Ho].
  apply Qle_bool_iff in Hp, Ho, Hv.
  pose proof (fold_add_timesheet
    (month_timesheets env e.1 yearNum monthNum timesheets)
    {| regular := 0; ot := 0; vacation := 0; holiday := 0 |})
    as (Sr & So & Sv & Sh).
  cbv zeta in *. cbn [regular ot vacation holiday] in *.
  set (totals := fold_left add_timesheet _ _) in *.
  assert (forall t,
            In t (month_timesheets env e.1 yearNum monthNum timesheets) ->
            0 <= DailyTimesheet.totalHoursWorked t
            /\ 0 <= DailyTimesheet.otHours t) as Hts.
  { intros t Ht. apply month_timesheets_lookup in Ht as (i & Hi & _).
    apply timesheet_hours_nonneg. by eapply all_docs_lookup. }
  assert (0 <= regular totals) as Hr.
  { rewrite Sr, Qplus_0_l. apply sum_over_nonneg.
    intros t _. apply Q.le_max_l. }
  assert (0 <= ot totals) as Hot.
  { rewrite So, Qplus_0_l. apply sum_over_nonneg.
    intros t Ht. by apply Hts. }
  assert (0 <= vacation totals) as Hvac.
  { rewrite Sv, Qplus_0_l. apply sum_over_nonneg.
    intros t Ht. unfold vacation_part.
    destruct (DailyTimesheet.isVacationWork t);
      [by apply Hts | apply Qle_refl]. }
  assert (0 <= holiday totals) as Hhol.
  { rewrite Sh, Qplus_0_l. apply sum_over_nonneg.
    intros t Ht. unfold holiday_part.
    destruct (DailyTimesheet.isHolidayWork t);
      [by apply Hts | apply Qle_refl]. }
  unfold validate, calculateMonthlySummary, calculatePayableAmount.
  cbn [month year totalRegularHours totalOTHours totalVacationHours
       totalHolidayHours totalPayableAmount].
  fold totals. rewrite Hm, Hy.
  repeat (apply andb_true_intro; split);
    try (apply Z.leb_le; lia); try by apply Qle_bool_iff.
  apply Qle_bool_iff.
  repeat (apply Qadd_nonneg || apply Qmult_le_0_compat); done.
Qed.


Lemma key_true eid d :
  key eid d = true <-> summary_key d = (eid, yearNum, monthNum).
Proof.
  unfold same_key, summary_key. split.
  - intros H. apply andb_prop in H as [H Hm]. apply andb_prop in H as [He Hy].
    apply bool_decide_eq_true in He. apply Z.eqb_eq in Hy, Hm. congruence.
  - intros [= -> -> ->]. rewrite bool_decide_eq_true_2 by done.
    by rewrite !Z.eqb_refl.
Qed.

Lemma key_other eid eid' d : key eid d = true -> eid' <> eid -> key eid' d = false.
Proof.
  intros H Hne. apply key_true in H.
  destruct (key eid' d) eqn:E; [|done].
  apply key_true in E. congruence.
Qed.

(** What one round of the loop does. *)
Lemma generate_for_total (user : User) (e : nat * Employee)
    (summaries : gmap nat Doc) :
  rates_valid e.2 = true ->
  exists d summaries',
    generate_for env user yearNum monthNum timesheets e summaries
      = Some (d, summaries')
    /\ key e.1 d = true
    /\ ((exists i old, summaries !! i = Some old /\ key e.1 old = true
           /\ d = with_generatedBy (id user) (calc old e)
           /\ summaries' = <[i := d]> summaries)
        \/ ((forall i x, summaries !! i = Some x -> key e.1 x = false)
            /\ d = calc (new e.1 yearNum monthNum (id user)) e
            /\ summaries !! new_id summaries = None
            /\ summaries' = <[new_id summaries := d]> summaries)).
Proof.
  intros Hrates. unfold generate_for.
  destruct (findOne (key e.1) summaries) as [[i old]|] eqn:E.
  - apply findOne_Some in E as [Hi Hk].
    pose proof Hk as Hk'. apply key_true in Hk' as [= _ Hy Hm].
    unfold save. cbn.
    change (validate (with_generatedBy (id user) (calc old e)))
      with (validate (calc old e)).
    rewrite calc_validate by done. cbn.
    eexists _, _. split; [reflexivity|]. split; [done|].
    left. by exists i, old.
  - pose proof (findOne_None _ _ E) as Hnone.
    unfold save. cbn. rewrite calc_validate by done. cbn.
    eexists _, _. split; [reflexivity|]. split.
    { apply key_true. reflexivity. }
    right. repeat split; try done. apply new_id_fresh.
Qed.


(** The first pass of the loop over employees with distinct ids. *)
Lemma generate_loop_first (user : User) (employees : list (nat * Employee))
    (generated : list Doc) (summaries : gmap nat Doc) :
  Forall (fun e => rates_valid e.2 = true) employees ->
  NoDup (map fst employees) ->
  exists out summaries',
    generate_loop env user yearNum monthNum timesheets employees generated
      summaries = (Some (generated ++ out), summaries')
    /\ length out = length employees
    /\ (unique_keys summaries = true -> unique_keys summaries' = true)
    /\ (forall i x, summaries !! i = Some x ->
          (forall e, In e employees -> key e.1 x = false) ->
          summaries' !! i = Some x)
    /\ (forall e, In e employees ->
          (exists i old, summaries !! i = Some old /\ key e.1 old = true
             /\ summaries' !! i
                = Some (with_generatedBy (id user) (calc old e))
             /\ In (with_generatedBy (id user) (calc old e)) out)
          \/ ((forall i x, summaries !! i = Some x -> key e.1 x = false)
              /\ exists i, summaries !! i = None
                 /\ summaries' !! i
                    = Some (calc (new e.1 yearNum monthNum (id user)) e)
                 /\ In (calc (new e.1 yearNum monthNum (id user)) e) out)).
Proof.
  revert generated summaries.
  induction employees as [|e rest IH]; intros generated summaries Hrates Hnd.
  - exists [], summaries. cbn. rewrite app_nil_r.
    repeat split; done.
  - apply Forall_cons in Hrates as [He Hrest].
    cbn in Hnd. apply NoDup_cons in Hnd as [Hfresh Hnd].
    destruct (generate_for_total user e summaries He)
      as (d & S' & Hgen & Hkd & Hcase).
    cbn [generate_loop]. rewrite Hgen.
    destruct (IH (generated ++ [d]) S' Hrest Hnd)
      as (out & S1 & Hloop & Hlen & Huniq & Hkeep & Hper).
    exists (d :: out), S1.
    assert (forall e', In e' rest -> key e'.1 d = false) as Hd_other.
    { intros e' He'. apply (key_other e.1); [done|].
      intros Heq. apply Hfresh. rewrite <- Heq.
      apply list_elem_of_In, in_map, He'. }
    assert (exists i0, S' = <[i0 := d]> summaries
              /\ (forall x, summaries !! i0 = Some x -> key e.1 x = true)
              /\ (unique_keys summaries = true -> unique_keys S' = true))
      as (i0 & HS' & Hi0 & HuS').
    { destruct Hcase as [(i & old & Hi & Hk & _ & ->)
                        | (Hnone & _ & Hnew & ->)].
      - exists i. split; [done|]. split; [intros x Hx; congruence|].
        apply insert_unique_keys. left. exists old. split; [done|].
        apply key_true in Hkd, Hk. congruence.
      - exists (new_id summaries). split; [done|].
        split; [intros x Hx; congruence|].
        apply insert_unique_keys. right. split; [done|].
        intros j x Hj Hkx. apply key_true in Hkd.
        assert (key e.1 x = true) as Hx by (apply key_true; congruence).
        rewrite (Hnone _ _ Hj) in Hx. discriminate. }
    assert (S' !! i0 = Some d) as Hi0d by (rewrite HS'; apply lookup_insert_eq).
    split; [by rewrite Hloop, <- app_assoc|].
    split; [cbn; by rewrite Hlen|].
    split; [by intros Hu; apply Huniq, HuS'|].
    split.
    { intros i x Hi Hno. apply Hkeep.
      - rewrite HS', lookup_insert_ne; [done|].
        intros <-. specialize (Hi0 x Hi).
        rewrite (Hno e) in Hi0; [discriminate | by left].
      - intros e' He'. apply Hno. by right. }
    intros e' [<-|He'].
    + destruct Hcase as [(i & old & Hi & Hk & -> & Heq)
                        | (Hnone & -> & Hnew & Heq)].
      * left. exists i, old. repeat split; try done; [|by left].
        apply Hkeep; [|done]. rewrite Heq. apply lookup_insert_eq.
      * right. split; [done|]. exists (new_id summaries).
        repeat split; try done; [|by left].
        apply Hkeep; [|done]. rewrite Heq. apply lookup_insert_eq.
    + assert (e'.1 <> e.1) as Hne.
      { intros Heq. apply Hfresh. rewrite <- Heq.
        apply list_elem_of_In, in_map, He'. }
      destruct (Hper e' He') as [(i & old & Hi & Hk & Hi1 & Hin)
                                | (Hnone & i & Hi & Hi1 & Hin)].
      * left. exists i, old. repeat split; try done; [|by right].
        rewrite HS' in Hi.
        destruct (decide (i0 = i)) as [->|Hii].
        -- rewrite lookup_insert_eq in Hi. injection Hi as <-.
           rewrite (Hd_other e' He') in Hk. discriminate.
        -- by rewrite lookup_insert_ne in Hi.
      * right. split.
        -- intros j x Hj. destruct (decide (j = i0)) as [->|Hji].
           ++ apply (key_other e.1); [by apply Hi0 | done].
           ++ apply (Hnone j). by rewrite HS', lookup_insert_ne.
        -- exists i. repeat split; try done; [|by right].
           rewrite HS' in Hi.
           destruct (decide (i0 = i)) as [->|Hii].
           ++ by rewrite lookup_insert_eq in Hi.
           ++ by rewrite lookup_insert_ne in Hi.
Qed.


(** A pass of the loop over a collection that already holds, for every
    employee, only computed summaries: nothing but [generatedBy] changes. *)
Lemma generate_loop_again (user : User) (employees : list (nat * Employee))
    (generated : list Doc) (summaries : gmap nat Doc) :
  Forall (fun e => rates_valid e.2 = true) employees ->
  (forall e, In e employees ->
     exists i d, summaries !! i = Some d /\ key e.1 d = true) ->
  (forall e i d, In e employees -> summaries !! i = Some d ->
     key e.1 d = true -> calc d e = d) ->
  exists out summaries',
    generate_loop env user yearNum monthNum timesheets employees generated
      summaries = (Some (generated ++ out), summaries')
    /\ forall i,
         summaries' !! i = summaries !! i
         \/ exists d, summaries !! i = Some d
              /\ summaries' !! i = Some (with_generatedBy (id user) d).
Proof.
  revert generated summaries.
  induction employees as [|e rest IH];
    intros generated summaries Hrates Hhas Hfixed.
  - exists [], summaries. cbn. rewrite app_nil_r. split; [done|]. by left.
  - apply Forall_cons in Hrates as [He Hrest].
    destruct (generate_for_total user e summaries He)
      as (d & S' & Hgen & Hkd & Hcase).
    cbn [generate_loop]. rewrite Hgen.
    destruct Hcase as [(i & old & Hi & Hk & Hd & HS')
                      | (Hnone & _)]; cycle 1.
    { destruct (Hhas e (or_introl eq_refl)) as (j & x & Hj & Hx).
      rewrite (Hnone _ _ Hj) in Hx. discriminate. }
    rewrite (Hfixed e i old) in Hd by (done || by left).
    destruct (IH (generated ++ [d]) S' Hrest) as (out & S2 & Hloop & Hrel).
    { intros e' He'.
      destruct (Hhas e' (or_intror He')) as (j & x & Hj & Hx).
      destruct (decide (j = i)) as [->|Hji].
      - exists i, d. rewrite HS', lookup_insert_eq. split; [done|].
        rewrite Hd. assert (x = old) as -> by congruence. exact Hx.
      - exists j, x. by rewrite HS', lookup_insert_ne. }
    { intros e' j x He' Hj Hx. rewrite HS' in Hj.
      destruct (decide (i = j)) as [->|Hji].
      - rewrite lookup_insert_eq in Hj. injection Hj as <-. rewrite Hd in *.
        rewrite calc_with_generatedBy.
        by rewrite (Hfixed e' j old (or_intror He') Hi Hx).
      - rewrite lookup_insert_ne in Hj by done.
        by apply (Hfixed e' j x (or_intror He')). }
    exists (d :: out), S2. split; [by rewrite Hloop, <- app_assoc|].
    intros j. destruct (Hrel j) as [Hsame | (x & Hx & Hx2)].
    + rewrite Hsame, HS'. destruct (decide (i = j)) as [->|Hij].
      * right. exists old. by rewrite lookup_insert_eq, Hd.
      * left. by rewrite lookup_insert_ne.
    + rewrite HS' in Hx. destruct (decide (i = j)) as [->|Hij].
      * right. exists old. split; [done|].
        rewrite lookup_insert_eq in Hx. injection Hx as <-.
        rewrite Hx2, Hd. reflexivity.
      * right. exists x. by rewrite lookup_insert_ne in Hx.
Qed.

End Generate.


Lemma active_employees_In employees eid e :
  In (eid, e) (active_employees employees) <->
  employees !! eid = Some e /\ EmployeeModel.status e = active.
Proof.
  unfold active_employees. rewrite find_lookup, bool_decide_eq_true. done.
Qed.

Lemma active_employees_rates employees :
  all_docs rates_valid employees = true ->
  Forall (fun e => rates_valid e.2 = true) (active_employees employees).
Proof.
  intros H. apply List.Forall_forall. intros [eid e] Hin.
  apply active_employees_In in Hin as [Hin _]. by eapply all_docs_lookup.
Qed.

Lemma generate_authorized env user yearNum monthNum employees timesheets
    summaries :
  role user <> employee ->
  (1 <= monthNum <= 12)%Z -> (2020 <= yearNum <= 2030)%Z ->
  generate env user yearNum monthNum employees timesheets summaries
  = match generate_loop env user yearNum monthNum timesheets
            (active_employees employees) [] summaries with
    | (Some generated, summaries') =>
        (reply 200
           (MessageWith
              ("Monthly summaries generated for "
               ++ pretty (length generated) ++ " employees")%string
              generated),
         summaries')
    | (None, summaries') => (server_error, summaries')
    end.
Proof.
  intros Hrole Hm Hy. unfold generate.
  assert (@adminOrManager (list Doc) user = None) as ->.
  { unfold adminOrManager, roleCheck. by destruct (role user). }
  assert ((monthNum <? 1)%Z || (12 <? monthNum)%Z = false) as ->.
  { apply orb_false_intro; apply Z.ltb_ge; lia. }
  assert ((yearNum <? 2020)%Z || (2030 <? yearNum)%Z = false) as ->.
  { apply orb_false_intro; apply Z.ltb_ge; lia. }
  reflexivity.
Qed.

Lemma generate_out_of_range env user yearNum monthNum employees timesheets
    summaries :
  ~ ((1 <= monthNum <= 12)%Z /\ (2020 <= yearNum <= 2030)%Z) ->
  (generate env user yearNum monthNum employees timesheets summaries).2
  = summaries.
Proof.
  intros Hrange. unfold generate.
  destruct (adminOrManager user); [done|].
  destruct (Z.ltb_spec monthNum 1); [done|].
  destruct (Z.ltb_spec 12 monthNum); [done|].
  destruct (Z.ltb_spec yearNum 2020); [done|].
  destruct (Z.ltb_spec 2030 yearNum); [done|].
  lia.
Qed.

(** The totals a generation stores, as sums over the timesheets that its
    query selects. *)
Lemma generate_totals_of_query (env : Env) (user : User) (yearNum monthNum : Z)
    (employees : gmap nat Employee)
    (timesheets : gmap nat DailyTimesheet.Doc)
    (summaries : gmap nat Doc) (eid : nat) (e : Employee) :
  role user <> employee ->
  (1 <= monthNum <= 12)%Z -> (2020 <= yearNum <= 2030)%Z ->
  all_docs rates_valid employees = true ->
  all_docs DailyTimesheet.validate timesheets = true ->
  employees !! eid = Some e -> EmployeeModel.status e = active ->
  let entries := month_timesheets env eid yearNum monthNum timesheets in
  let regularSum := sum_over regular_part entries in
  let otSum := sum_over DailyTimesheet.otHours entries in
  let vacationSum := sum_over vacation_part entries in
  let holidaySum := sum_over holiday_part entries in
  exists msg generated summaries' _id summary,
    generate env user yearNum monthNum employees timesheets summaries
      = (reply 200 (MessageWith msg generated), summaries')
    /\ summaries' !! _id = Some summary
    /\ In summary generated
    /\ summary_key summary = (eid, yearNum, monthNum)
    /\ totalRegularHours summary == regularSum
    /\ totalOTHours summary == otSum
    /\ totalVacationHours summary == vacationSum
    /\ totalHolidayHours summary == holidaySum
    /\ totalPayableAmount summary
       = totalRegularHours summary * payRate e
         + totalOTHours summary * otRate e
         + totalVacationHours summary * vacationPayRate e
         + totalHolidayHours summary * payRate e
    /\ totalPayableAmount summary ==
         regularSum * payRate e + otSum * otRate e
         + vacationSum * vacationPayRate e + holidaySum * payRate e.
Proof.
  intros Hrole Hm Hy Hrates Hts He Hact entries R OT V H.
  rewrite generate_authorized by done.
  destruct (generate_loop_first env yearNum monthNum timesheets Hm Hy Hts
              user (active_employees employees) [] summaries)
    as (out & S1 & Hloop & _ & _ & _ & Hper).
  { by apply active_employees_rates. }
  { apply find_NoDup_ids. }
  rewrite Hloop. cbn [app].
  assert (forall old : Doc,
            let s := calculateMonthlySummary env timesheets old (eid, e)
                       yearNum monthNum in
            totalRegularHours s == R /\ totalOTHours s == OT
            /\ totalVacationHours s == V /\ totalHolidayHours s == H
            /\ totalPayableAmount s
               = totalRegularHours s * payRate e
                 + totalOTHours s * otRate e
                 + totalVacationHours s * vacationPayRate e
                 + totalHolidayHours s * payRate e
            /\ totalPayableAmount s ==
                 R * payRate e + OT * otRate e
                 + V * vacationPayRate e + H * payRate e) as Htot.
  { intros old.
    pose proof (fold_add_timesheet entries
      {| regular := 0; ot := 0; vacation := 0; holiday := 0 |})
      as (Sr & So & Sv & Sh).
    cbv zeta in *. cbn [regular ot vacation holiday] in *.
    rewrite Qplus_0_l in Sr, So, Sv, Sh.
    unfold calculateMonthlySummary, calculatePayableAmount.
    cbn [totalRegularHours totalOTHours totalVacationHours
         totalHolidayHours totalPayableAmount fst snd].
    fold entries. fold R OT V H in Sr, So, Sv, Sh.
    repeat split; try done. by rewrite Sr, So, Sv, Sh. }
  destruct (Hper (eid, e)) as [(i & old & Hi & Hk & Hi1 & Hin)
                              | (Hnone & i & Hi & Hi1 & Hin)].
  { by apply active_employees_In. }
  - eexists _, out, S1, i, _. split; [reflexivity|].
    split; [exact Hi1|]. split; [exact Hin|].
    split; [by apply key_true in Hk|]. apply Htot.
  - eexists _, out, S1, i, _. split; [reflexivity|].
    split; [exact Hi1|]. split; [exact Hin|].
    split; [reflexivity|]. apply Htot.
Qed.

Lemma same_range_all : forallb Calendar.same_range Calendar.months = true.
Proof. vm_compute. reflexivity. Qed.

(** For the years and months a generation accepts, the range of dates the
    query is made with is the month of the calendar. *)
Lemma month_range (offset y m : Z) :
  (2020 <= y <= 2030)%Z -> (1 <= m <= 12)%Z ->
  Js.new_Date offset y (m - 1) 1 0 0 0 = Calendar.first_day_start offset y m
  /\ Js.new_Date offset y m 0 23 59 59 = Calendar.last_day_end offset y m.
Proof.
  intros Hy Hm.
  pose proof same_range_all as Hall. rewrite forallb_forall in Hall.
  specialize (Hall (y, m)). unfold Calendar.same_range in Hall.
  cbn [fst snd] in Hall.
  destruct (andb_prop _ _ (Hall ltac:(apply in_prod; apply list_elem_of_In;
                                      apply elem_of_seqZ; lia)))
    as [Hs He].
  apply Z.eqb_eq in Hs, He.
  unfold Js.new_Date, Calendar.first_day_start, Calendar.last_day_end in *.
  split; lia.
Qed.

Lemma month_timesheets_calendar (env : Env) (eid : nat) (y m : Z)
    (timesheets : gmap nat DailyTimesheet.Doc) :
  (2020 <= y <= 2030)%Z -> (1 <= m <= 12)%Z ->
  month_timesheets env eid y m timesheets
  = Calendar.entries_of (localTZA env) eid y m timesheets.
Proof.
  intros Hy Hm. unfold month_timesheets, Calendar.entries_of, Http.find.
  destruct (month_range (localTZA env) y m Hy Hm) as [-> ->].
  f_equal. apply filter_ext. intros [i t]. cbn [snd].
  unfold Calendar.dated_within. by rewrite andb_assoc.
Qed.

(** C2.  For an active employee, batch generation stores and returns a
    summary of the employee and month whose totals are the sums over the
    employee's stored timesheets dated within the month, from the start
    of its first day to 23:59:59 of its last day on the calendar: regular
    hours [max(0, totalHoursWorked - otHours)], overtime [otHours],
    vacation and holiday hours the full [totalHoursWorked] of the entries
    flagged so (on top of their regular and overtime share), and whose
    payable amount is regular x payRate + overtime x otRate + vacation x
    vacationPayRate + holiday x payRate. *)
Theorem C2_generate_totals (env : Env) (user : User) (yearNum monthNum : Z)
    (employees : gmap nat Employee)
    (timesheets : gmap nat DailyTimesheet.Doc)
    (summaries : gmap nat Doc) (eid : nat) (e : Employee) :
  role user <> employee ->
  (1 <= monthNum <= 12)%Z -> (2020 <= yearNum <= 2030)%Z ->
  all_docs rates_valid employees = true ->
  all_docs DailyTimesheet.validate timesheets = true ->
  employees !! eid = Some e -> EmployeeModel.status e = active ->
  let entries :=
    Calendar.entries_of (localTZA env) eid yearNum monthNum timesheets in
  let regularSum := sum_over regular_part entries in
  let otSum := sum_over DailyTimesheet.otHours entries in
  let vacationSum := sum_over vacation_part entries in
  let holidaySum := sum_over holiday_part entries in
  exists msg generated summaries' _id summary,
    generate env user yearNum monthNum employees timesheets summaries
      = (reply 200 (MessageWith msg generated), summaries')
    /\ summaries' !! _id = Some summary
    /\ In summary generated
    /\ summary_key summary = (eid, yearNum, monthNum)
    /\ totalRegularHours summary == regularSum
    /\ totalOTHours summary == otSum
    /\ totalVacationHours summary == vacationSum
    /\ totalHolidayHours summary == holidaySum
    /\ totalPayableAmount summary
       = totalRegularHours summary * payRate e
         + totalOTHours summary * otRate e
         + totalVacationHours summary * vacationPayRate e
         + totalHolidayHours summary * payRate e
    /\ totalPayableAmount summary ==
         regularSum * payRate e + otSum * otRate e
         + vacationSum * vacationPayRate e + holidaySum * payRate e.
Proof.
  intros Hrole Hm Hy Hrates Hts He Hact. cbv zeta.
  rewrite <- (month_timesheets_calendar env eid yearNum monthNum timesheets)
    by done.
  by apply generate_totals_of_query.
Qed.


(** C4.  Batch generation run twice over unchanged timesheets: both runs
    succeed, no key has two summaries after either, the second run adds no
    document and changes nothing in any summary but [generatedBy], and in
    the first run a summary that exists is overwritten under its [_id]
    while a missing one is created with status draft. *)
Theorem C4_generate_idempotent (env : Env) (user user' : User)
    (yearNum monthNum : Z) (employees : gmap nat Employee)
    (timesheets : gmap nat DailyTimesheet.Doc) (summaries : gmap nat Doc) :
  role user <> employee -> role user' <> employee ->
  (1 <= monthNum <= 12)%Z -> (2020 <= yearNum <= 2030)%Z ->
  all_docs rates_valid employees = true ->
  all_docs DailyTimesheet.validate timesheets = true ->
  unique_keys summaries = true ->
  let first :=
    generate env user yearNum monthNum employees timesheets summaries in
  let second :=
    generate env user' yearNum monthNum employees timesheets first.2 in
  code first.1 = 200%nat /\ code second.1 = 200%nat
  /\ unique_keys first.2 = true /\ unique_keys second.2 = true
  /\ dom second.2 = dom first.2
  /\ (forall _id d1, first.2 !! _id = Some d1 ->
        exists d2, second.2 !! _id = Some d2
          /\ d2 = with_generatedBy (generatedBy d2) d1)
  /\ (forall eid e,
        employees !! eid = Some e -> EmployeeModel.status e = active ->
        (exists _id old,
           summaries !! _id = Some old
           /\ summary_key old = (eid, yearNum, monthNum)
           /\ first.2 !! _id
              = Some (with_generatedBy (id user)
                        (calculateMonthlySummary env timesheets old (eid, e)
                           yearNum monthNum)))
        \/ ((forall _id x, summaries !! _id = Some x ->
               summary_key x <> (eid, yearNum, monthNum))
            /\ exists _id d,
                 summaries !! _id = None /\ first.2 !! _id = Some d
                 /\ summary_key d = (eid, yearNum, monthNum)
                 /\ status d = draft)).
Proof.
  intros Hrole Hrole' Hm Hy Hrates Hts Huniq first second.
  subst second first. rewrite (generate_authorized env user) by done.
  destruct (generate_loop_first env yearNum monthNum timesheets Hm Hy Hts
              user (active_employees employees) [] summaries)
    as (out & S1 & Hloop & _ & Hu1 & _ & Hper).
  { by apply active_employees_rates. }
  { apply find_NoDup_ids. }
  rewrite Hloop. cbn [app fst snd].
  specialize (Hu1 Huniq).
  rewrite (generate_authorized env user') by done.
  destruct (generate_loop_again env yearNum monthNum timesheets Hm Hy Hts
              user' (active_employees employees) [] S1)
    as (out' & S2 & Hloop' & Hrel).
  { by apply active_employees_rates. }
  { intros [eid e] Hin.
    destruct (Hper _ Hin) as [(i & old & _ & Hk & Hi1 & _)
                             | (_ & i & _ & Hi1 & _)];
      eexists i, _; (split; [exact Hi1|]); [exact Hk|].
    apply key_true. reflexivity. }
  { intros [eid e] j x Hin Hj Hx.
    rewrite unique_keys_spec in Hu1.
    destruct (Hper _ Hin) as [(i & old & _ & Hk & Hi1 & _)
                             | (_ & i & _ & Hi1 & _)].
    - assert (j = i) as ->.
      { eapply Hu1; [exact Hj | exact Hi1 |].
        apply key_true in Hx. rewrite Hx. symmetry.
        apply (key_true yearNum monthNum eid). exact Hk. }
      rewrite Hi1 in Hj. injection Hj as <-. reflexivity.
    - assert (j = i) as ->.
      { eapply Hu1; [exact Hj | exact Hi1 |].
        apply key_true in Hx. rewrite Hx. reflexivity. }
      rewrite Hi1 in Hj. injection Hj as <-. reflexivity. }
  rewrite Hloop'. cbn [app fst snd code reply].
  assert (forall _id d1, S1 !! _id = Some d1 ->
            exists d2, S2 !! _id = Some d2
              /\ d2 = with_generatedBy (generatedBy d2) d1) as Hsame.
  { intros i d1 Hi. destruct (Hrel i) as [Hs | (d & Hd & Hd2)].
    - exists d1. split; [congruence|]. by destruct d1.
    - exists (with_generatedBy (id user') d). split; [done|].
      assert (d = d1) as -> by congruence. reflexivity. }
  split; [done|]. split; [done|]. split; [done|].
  split.
  { rewrite unique_keys_spec in *. intros i j a b Hi Hj Hk.
    assert (forall i a, S2 !! i = Some a ->
              exists a1, S1 !! i = Some a1 /\ summary_key a1 = summary_key a)
      as Hback.
    { intros k c Hc. destruct (Hrel k) as [Hs | (d & Hd & Hd2)].
      - exists c. split; [congruence | done].
      - exists d. split; [done|]. rewrite Hc in Hd2. by injection Hd2 as ->. }
    destruct (Hback _ _ Hi) as (a1 & Ha1 & Hka).
    destruct (Hback _ _ Hj) as (b1 & Hb1 & Hkb).
    eapply Hu1; [exact Ha1 | exact Hb1 | congruence]. }
  split.
  { apply set_eq. intros i. rewrite !elem_of_dom.
    destruct (Hrel i) as [Hs | (d & Hd & Hd2)]; [by rewrite Hs|].
    rewrite Hd, Hd2. split; eauto. }
  split; [exact Hsame|].
  intros eid e He Hact.
  destruct (Hper (eid, e)) as [(i & old & Hi & Hk & Hi1 & _)
                              | (Hnone & i & Hi & Hi1 & _)].
  { by apply active_employees_In. }
  - left. exists i, old. split; [done|]. split; [|done].
    by apply key_true in Hk.
  - right. split.
    + intros j x Hj Hkx.
      assert (same_key eid yearNum monthNum x = true) as Hx
        by (by apply key_true).
      cbn in Hnone. rewrite (Hnone _ _ Hj) in Hx. discriminate.
    + eexists i, _. split; [done|]. split; [exact Hi1|]. done.
Qed.

Lemma C2_generate_totals_witness :
  exists msg generated summaries' _id summary,
    generate Sample.env boss 2024 1 Sample.employees Sample.timesheets
      Sample.summaries
      = (reply 200 (MessageWith msg generated), summaries')
    /\ summaries' !! _id = Some summary
    /\ In summary generated
    /\ summary_key summary = (1%nat, 2024%Z, 1%Z)
    /\ totalRegularHours summary == 16
    /\ totalOTHours summary == 2
    /\ totalVacationHours summary == 10
    /\ totalHolidayHours summary == 0
    /\ totalPayableAmount summary == 725.
Proof.
  destruct (C2_generate_totals Sample.env boss 2024 1 Sample.employees
              Sample.timesheets Sample.summaries 1
              (worker "EMP001" "John Smith" 25 (75 # 2) active))
    as (msg & generated & summaries' & _id & summary
        & Hgen & Hstored & Hin & Hkey & Hr & Ho & Hv & Hh & _ & Hpay);
    [discriminate | lia | lia | vm_compute; reflexivity
    | vm_compute; reflexivity | vm_compute; reflexivity | reflexivity |].
  exists msg, generated, summaries', _id, summary.
  split; [exact Hgen|]. split; [exact Hstored|]. split; [exact Hin|].
  split; [exact Hkey|].
  split; [eapply Qeq_trans; [exact Hr | vm_compute; reflexivity]|].
  split; [eapply Qeq_trans; [exact Ho | vm_compute; reflexivity]|].
  split; [eapply Qeq_trans; [exact Hv | vm_compute; reflexivity]|].
  split; [eapply Qeq_trans; [exact Hh | vm_compute; reflexivity]|].
  eapply Qeq_trans; [exact Hpay | vm_compute; reflexivity].
Defined.

Lemma C4_generate_idempotent_witness :
  let first :=
    generate Sample.env boss 2024 1 Sample.employees Sample.timesheets
      Sample.summaries in
  let second :=
    generate Sample.env root 2024 1 Sample.employees Sample.timesheets
      first.2 in
  code first.1 = 200%nat /\ code second.1 = 200%nat
  /\ unique_keys first.2 = true /\ unique_keys second.2 = true
  /\ dom second.2 = dom first.2
  /\ (forall _id d1, first.2 !! _id = Some d1 ->
        exists d2, second.2 !! _id = Some d2
          /\ d2 = with_generatedBy (generatedBy d2) d1)
  /\ (forall eid e,
        Sample.employees !! eid = Some e -> EmployeeModel.status e = active ->
        (exists _id old,
           Sample.summaries !! _id = Some old
           /\ summary_key old = (eid, 2024%Z, 1%Z)
           /\ first.2 !! _id
              = Some (with_generatedBy (id boss)
                        (calculateMonthlySummary Sample.env Sample.timesheets
                           old (eid, e) 2024 1)))
        \/ ((forall _id x, Sample.summaries !! _id = Some x ->
               summary_key x <> (eid, 2024%Z, 1%Z))
            /\ exists _id d,
                 Sample.summaries !! _id = None /\ first.2 !! _id = Some d
                 /\ summary_key d = (eid, 2024%Z, 1%Z)
                 /\ status d = draft)).
Proof.
  apply (C4_generate_idempotent Sample.env boss root 2024 1 Sample.employees
           Sample.timesheets Sample.summaries);
    [discriminate | discriminate | lia | lia | vm_compute; reflexivity
    | vm_compute; reflexivity | vm_compute; reflexivity].
Defined.

End Aggregation.

(** ** The expense routes *)

Section Expenses.

Import DailyExpense ExpenseRoutes.

Lemma reason_after_trim (body : Body) :
  max_length 500 (b_rejectionReason body) = true ->
  max_length 500
    (Some (Js.trim (default ""%string (b_rejectionReason body)))) = true.
Proof.
  unfold max_length.
  destruct (b_rejectionReason body) as [s|]; cbn -[Js.trim]; [|done].
  intros H. apply Nat.leb_le in H. apply Nat.leb_le.
  pose proof (trim_length s). lia.
Qed.



(** The update of an expense by the employee it belongs to. *)
Lemma put_by_owner (user : User) (_id : nat) (body : Body)
    (expenses : gmap nat Doc) (expense : Doc) :
  role user = employee ->
  linkedEmployeeId user = Some (employeeId expense) ->
  expenses !! _id = Some expense ->
  put_validators body = [] -> update_valid body = true ->
  put user _id body expenses
  = if bool_decide (status expense = draft)
       || bool_decide (status expense = rejected)
    then (reply 200 (MessageWith "Expense updated successfully"
                       (apply_update body (id user) expense)),
          <[_id := apply_update body (id user) expense]> expenses)
    else (reply 403 (Message
            "You can only update expenses that are in draft or rejected status"),
          expenses).
Proof.
  intros Hrole Hlinked Hfound Hbody Hvalid. unfold put.
  rewrite allRoles_pass, Hbody, Hfound, Hrole.
  unfold own_only, findByIdAndUpdate. rewrite Hlinked, Hvalid, Hfound.
  cbn.
  rewrite (bool_decide_eq_true_2 (employeeId expense = employeeId expense))
    by done.
  cbn.
  by destruct (bool_decide (status expense = draft)
               || bool_decide (status expense = rejected)).
Qed.

(** The update of an expense by a manager or an administrator. *)
Lemma put_by_staff (user : User) (_id : nat) (body : Body)
    (expenses : gmap nat Doc) (expense : Doc) :
  role user <> employee ->
  expenses !! _id = Some expense ->
  put_validators body = [] -> update_valid body = true ->
  put user _id body expenses
  = (reply 200 (MessageWith "Expense updated successfully"
                  (apply_update body (id user) expense)),
     <[_id := apply_update body (id user) expense]> expenses).
Proof.
  intros Hrole Hfound Hbody Hvalid. unfold put.
  rewrite allRoles_pass, Hbody, Hfound.
  rewrite bool_decide_eq_false_2 by done.
  unfold findByIdAndUpdate. rewrite Hvalid, Hfound. reflexivity.
Qed.



End Expenses.

(** ** The timesheet routes *)

Section Timesheets.

Import DailyTimesheet TimesheetRoutes.

(** The update of a timesheet by an employee it belongs to, a manager or an
    administrator: no test of the status stands before it. *)
Lemma put_allowed (user : User) (_id : nat) (body : Body)
    (timesheets : gmap nat Doc) (timesheet : Doc) :
  (role user = employee ->
   linkedEmployeeId user = Some (employeeId timesheet)) ->
  timesheets !! _id = Some timesheet ->
  put_validators body = [] -> update_valid body = true ->
  put user _id body timesheets
  = (reply 200 (MessageWith "Timesheet updated successfully"
                  (apply_update body (id user) timesheet)),
     <[_id := apply_update body (id user) timesheet]> timesheets).
Proof.
  intros Hown Hfound Hbody Hvalid. unfold put.
  rewrite allRoles_pass, Hbody, Hfound.
  unfold findByIdAndUpdate. rewrite Hvalid, Hfound.
  destruct (decide (role user = employee)) as [Hrole|Hrole].
  - rewrite bool_decide_eq_true_2, (Hown Hrole) by done. cbn.
    by rewrite bool_decide_eq_true_2.
  - by rewrite bool_decide_eq_false_2.
Qed.

(** The update of another employee's timesheet. *)
Lemma put_denied (user : User) (linked _id : nat) (body : Body)
    (timesheets : gmap nat Doc) (timesheet : Doc) :
  role user = employee -> linkedEmployeeId user = Some linked ->
  timesheets !! _id = Some timesheet -> employeeId timesheet <> linked ->
  put_validators body = [] ->
  put user _id body timesheets
  = (reply 403 (Message "You can only update your own timesheets"),
     timesheets).
Proof.
  intros Hrole Hlinked Hfound Hother Hbody. unfold put.
  rewrite allRoles_pass, Hbody, Hfound, Hrole, Hlinked. cbn.
  rewrite (bool_decide_eq_false_2 (employeeId timesheet = linked)) by done.
  reflexivity.
Qed.

End Timesheets.

(** ** Who may edit, and what a caller learns about other records *)

Section Editing.

Import TimesheetRoutes.

(** C6, amended.  The update of a timesheet by the employee it belongs to,
    by a manager or by an administrator succeeds whatever the status of
    the timesheet; it is the update of an expense that its owner may make
    only in draft or rejected status, failing with 403 otherwise, while a
    manager or an administrator may make it in any status. *)
Theorem C6_edit_by_status :
  (forall (user : User) (_id : nat) (body : Body)
          (timesheets : gmap nat DailyTimesheet.Doc)
          (timesheet : DailyTimesheet.Doc),
     (role user = employee ->
      linkedEmployeeId user = Some (DailyTimesheet.employeeId timesheet)) ->
     timesheets !! _id = Some timesheet ->
     put_validators body = [] -> update_valid body = true ->
     let result := put user _id body timesheets in
     code result.1 = 200%nat
     /\ result.2
        = <[_id := apply_update body (id user) timesheet]> timesheets)
  /\ (forall (user : User) (_id : nat) (body : ExpenseRoutes.Body)
             (expenses : gmap nat DailyExpense.Doc)
             (expense : DailyExpense.Doc),
        expenses !! _id = Some expense ->
        ExpenseRoutes.put_validators body = [] ->
        ExpenseRoutes.update_valid body = true ->
        let result := ExpenseRoutes.put user _id body expenses in
        (role user = employee ->
         linkedEmployeeId user = Some (DailyExpense.employeeId expense) ->
         (code result.1 = 200%nat <->
            DailyExpense.status expense = DailyExpense.draft
            \/ DailyExpense.status expense = DailyExpense.rejected)
         /\ (code result.1 <> 200%nat ->
             code result.1 = 403%nat /\ result.2 = expenses))
        /\ (role user <> employee -> code result.1 = 200%nat)).
Proof.
  split.
  - intros user _id body timesheets timesheet Hown Hfound Hbody Hvalid result.
    subst result. by rewrite (put_allowed user _id body timesheets timesheet).
  - intros user _id body expenses expense Hfound Hbody Hvalid result.
    subst result. split.
    + intros Hrole Hlinked.
      rewrite (put_by_owner user _id body expenses expense) by done.
      destruct (DailyExpense.status expense); cbn;
        (split; [split; [try done; intros _; by (left + right)
                        | try done; intros [?|?]; done]
                | done]).
    + intros Hrole.
      by rewrite (put_by_staff user _id body expenses expense).
Qed.


(** C6, an edit the specification forbids: the owner changes an approved
    timesheet. *)
Lemma C6_counterexample :
  exists timesheet,
    Sample.timesheets !! 0%nat = Some timesheet
    /\ DailyTimesheet.status timesheet = DailyTimesheet.approved
    /\ role alice = employee
    /\ linkedEmployeeId alice = Some (DailyTimesheet.employeeId timesheet)
    /\ code (put alice 0 later_end Sample.timesheets).1 = 200%nat.
Proof. eexists. repeat split; vm_compute; reflexivity. Qed.

Lemma C6_edit_by_status_witness :
  let result := put alice 0 later_end Sample.timesheets in
  code result.1 = 200%nat
  /\ result.2
     = <[0%nat := apply_update later_end (id alice)
                    (timesheet jan15 1 "09:00" "17:00" 0 8 0 false false
                       DailyTimesheet.approved)]> Sample.timesheets.
Proof.
  apply (proj1 C6_edit_by_status alice 0%nat later_end Sample.timesheets
           (timesheet jan15 1 "09:00" "17:00" 0 8 0 false false
              DailyTimesheet.approved));
    [reflexivity | vm_compute; reflexivity | reflexivity | reflexivity].
Defined.

Section CrossEmployee.

Variables (user : User) (linked : nat).
Hypothesis is_employee : role user = employee.
Hypothesis is_linked : linkedEmployeeId user = Some linked.

Lemma timesheet_get_denied employees timesheets _id
    (d : DailyTimesheet.Doc) :
  timesheets !! _id = Some d -> DailyTimesheet.employeeId d <> linked ->
  is_Some (employees !! DailyTimesheet.employeeId d) ->
  get user _id employees timesheets = reply 403 (Message "Access denied").
Proof.
  intros Hfound Hother [e He]. unfold get.
  rewrite allRoles_pass, Hfound, is_employee, He, is_linked. cbn.
  rewrite (bool_decide_eq_false_2 (DailyTimesheet.employeeId d = linked))
    by done.
  reflexivity.
Qed.

Lemma timesheet_delete_denied timesheets _id :
  code (delete user _id timesheets).1 = 403%nat
  /\ (delete user _id timesheets).2 = timesheets.
Proof.
  unfold delete. destruct (adminOrManager_employee (A:=DailyTimesheet.Doc) user is_employee) as [msg ->].
  done.
Qed.

Lemma expense_get_denied employees expenses _id (d : DailyExpense.Doc) :
  expenses !! _id = Some d -> DailyExpense.employeeId d <> linked ->
  is_Some (employees !! DailyExpense.employeeId d) ->
  ExpenseRoutes.get user _id employees expenses
  = reply 403 (Message "Access denied").
Proof.
  intros Hfound Hother [e He]. unfold ExpenseRoutes.get.
  rewrite allRoles_pass, Hfound, is_employee, He, is_linked. cbn.
  rewrite (bool_decide_eq_false_2 (DailyExpense.employeeId d = linked))
    by done.
  reflexivity.
Qed.

Lemma own_only_denied (d : DailyExpense.Doc) (denied : string) :
  DailyExpense.employeeId d <> linked ->
  ExpenseRoutes.own_only user d denied = inl (reply 403 (Message denied)).
Proof.
  intros Hother. unfold ExpenseRoutes.own_only. rewrite is_linked. cbn.
  rewrite (bool_decide_eq_false_2 (DailyExpense.employeeId d = linked))
    by done.
  reflexivity.
Qed.

Lemma expense_put_denied expenses _id (d : DailyExpense.Doc) body :
  expenses !! _id = Some d -> DailyExpense.employeeId d <> linked ->
  ExpenseRoutes.put_validators body = [] ->
  ExpenseRoutes.put user _id body expenses
  = (reply 403 (Message "You can only update your own expenses"), expenses).
Proof.
  intros Hfound Hother Hbody. unfold ExpenseRoutes.put.
  rewrite allRoles_pass, Hbody, Hfound, is_employee. cbn.
  by rewrite own_only_denied.
Qed.

Lemma expense_submit_denied expenses _id (d : DailyExpense.Doc) :
  expenses !! _id = Some d -> DailyExpense.employeeId d <> linked ->
  ExpenseRoutes.submit user _id expenses
  = (reply 403 (Message "You can only submit your own expenses"), expenses).
Proof.
  intros Hfound Hother. unfold ExpenseRoutes.submit.
  rewrite allRoles_pass, Hfound, is_employee. cbn.
  by rewrite own_only_denied.
Qed.

Lemma expense_delete_denied expenses _id (d : DailyExpense.Doc) :
  expenses !! _id = Some d -> DailyExpense.employeeId d <> linked ->
  ExpenseRoutes.delete user _id expenses
  = (reply 403 (Message "You can only delete your own expenses"), expenses).
Proof.
  intros Hfound Hother. unfold ExpenseRoutes.delete.
  rewrite allRoles_pass, Hfound, is_employee. cbn.
  by rewrite own_only_denied.
Qed.

Lemma expense_approve_denied env expenses _id :
  code (ExpenseRoutes.approve env user _id expenses).1 = 403%nat
  /\ (ExpenseRoutes.approve env user _id expenses).2 = expenses.
Proof.
  unfold ExpenseRoutes.approve.
  destruct (adminOrManager_employee (A:=DailyExpense.Doc) user is_employee)
    as [msg ->].
  done.
Qed.

Lemma expense_reject_denied expenses _id body :
  code (ExpenseRoutes.reject user _id body expenses).1 = 403%nat
  /\ (ExpenseRoutes.reject user _id body expenses).2 = expenses.
Proof.
  unfold ExpenseRoutes.reject.
  destruct (adminOrManager_employee (A:=DailyExpense.Doc) user is_employee)
    as [msg ->].
  done.
Qed.

End CrossEmployee.


(** C9, amended.  For a caller with role employee, every read or write by
    id of a stored timesheet or expense of another employee fails with 403
    and changes nothing (the reads, provided the owner's employee record
    exists; the updates, provided the body passes the validation chain).
    When no record has the id, the reads, the updates, the submission and
    the deletion of an expense answer 404 instead. *)
Theorem C9_cross_employee_denied (user : User) (linked : nat) :
  role user = employee -> linkedEmployeeId user = Some linked ->
  (forall employees timesheets _id (d : DailyTimesheet.Doc),
     timesheets !! _id = Some d -> DailyTimesheet.employeeId d <> linked ->
     (is_Some (employees !! DailyTimesheet.employeeId d) ->
      code (get user _id employees timesheets) = 403%nat)
     /\ (forall body, put_validators body = [] ->
           code (put user _id body timesheets).1 = 403%nat
           /\ (put user _id body timesheets).2 = timesheets)
     /\ code (delete user _id timesheets).1 = 403%nat
     /\ (delete user _id timesheets).2 = timesheets)
  /\ (forall env employees expenses _id (d : DailyExpense.Doc),
        expenses !! _id = Some d -> DailyExpense.employeeId d <> linked ->
        (is_Some (employees !! DailyExpense.employeeId d) ->
         code (ExpenseRoutes.get user _id employees expenses) = 403%nat)
        /\ (forall body, ExpenseRoutes.put_validators body = [] ->
              code (ExpenseRoutes.put user _id body expenses).1 = 403%nat
              /\ (ExpenseRoutes.put user _id body expenses).2 = expenses)
        /\ code (ExpenseRoutes.submit user _id expenses).1 = 403%nat
        /\ (ExpenseRoutes.submit user _id expenses).2 = expenses
        /\ code (ExpenseRoutes.delete user _id expenses).1 = 403%nat
        /\ (ExpenseRoutes.delete user _id expenses).2 = expenses
        /\ code (ExpenseRoutes.approve env user _id expenses).1 = 403%nat
        /\ (ExpenseRoutes.approve env user _id expenses).2 = expenses
        /\ (forall body,
              code (ExpenseRoutes.reject user _id body expenses).1 = 403%nat
              /\ (ExpenseRoutes.reject user _id body expenses).2 = expenses))
  /\ (forall employees (timesheets : gmap nat DailyTimesheet.Doc) _id,
        timesheets !! _id = None ->
        code (get user _id employees timesheets) = 404%nat
        /\ (forall body, put_validators body = [] ->
              code (put user _id body timesheets).1 = 404%nat))
  /\ (forall employees (expenses : gmap nat DailyExpense.Doc) _id,
        expenses !! _id = None ->
        code (ExpenseRoutes.get user _id employees expenses) = 404%nat
        /\ (forall body, ExpenseRoutes.put_validators body = [] ->
              code (ExpenseRoutes.put user _id body expenses).1 = 404%nat)
        /\ code (ExpenseRoutes.submit user _id expenses).1 = 404%nat
        /\ code (ExpenseRoutes.delete user _id expenses).1 = 404%nat).
Proof.
  intros Hrole Hlinked. split; [|split; [|split]].
  - intros employees timesheets _id d Hfound Hother.
    split; [|split].
    + intros He.
      by rewrite (timesheet_get_denied user linked Hrole Hlinked _ _ _ d).
    + intros body Hbody.
      by rewrite (put_denied user linked _id body timesheets d).
    + by apply timesheet_delete_denied.
  - intros env employees expenses _id d Hfound Hother.
    split; [|split; [|split; [|split; [|split; [|split; [|split; [|split]]]]]]].
    + intros He.
      by rewrite (expense_get_denied user linked Hrole Hlinked _ _ _ d).
    + intros body Hbody. by rewrite (expense_put_denied user linked Hrole Hlinked _ _ d).
    + by rewrite (expense_submit_denied user linked Hrole Hlinked _ _ d).
    + by rewrite (expense_submit_denied user linked Hrole Hlinked _ _ d).
    + by rewrite (expense_delete_denied user linked Hrole Hlinked _ _ d).
    + by rewrite (expense_delete_denied user linked Hrole Hlinked _ _ d).
    + by apply expense_approve_denied.
    + by apply expense_approve_denied.
    + intros body. by apply expense_reject_denied.
  - intros employees timesheets _id Hnone. split.
    + unfold get. by rewrite allRoles_pass, Hnone.
    + intros body Hbody. unfold put. by rewrite allRoles_pass, Hbody, Hnone.
  - intros employees expenses _id Hnone. split; [|split; [|split]].
    + unfold ExpenseRoutes.get. by rewrite allRoles_pass, Hnone.
    + intros body Hbody. unfold ExpenseRoutes.put.
      by rewrite allRoles_pass, Hbody, Hnone.
    + unfold ExpenseRoutes.submit. by rewrite allRoles_pass, Hnone.
    + unfold ExpenseRoutes.delete. by rewrite allRoles_pass, Hnone.
Qed.

(** C9, a denial that tells whether the record exists: the timesheet of
    another employee is refused with 403, a missing one with 404. *)
Lemma C9_counterexample :
  role alice = employee
  /\ (exists d, Sample.timesheets !! 2%nat = Some d
        /\ Some (DailyTimesheet.employeeId d) <> linkedEmployeeId alice)
  /\ Sample.timesheets !! 7%nat = None
  /\ get alice 2 Sample.employees Sample.timesheets
     = reply 403 (Message "Access denied")
  /\ get alice 7 Sample.employees Sample.timesheets
     = reply 404 (Message "Timesheet not found")
  /\ get alice 7 Sample.employees Sample.timesheets
     <> get alice 2 Sample.employees Sample.timesheets.
Proof.
  split; [reflexivity|]. split.
  { eexists. split; [vm_compute; reflexivity | discriminate]. }
  split; [vm_compute; reflexivity|].
  split; [vm_compute; reflexivity|].
  split; [vm_compute; reflexivity|].
  vm_compute. discriminate.
Qed.

Lemma C9_cross_employee_denied_witness :
  code (get alice 2 Sample.employees Sample.timesheets) = 403%nat
  /\ code (ExpenseRoutes.delete alice 2 Sample.expenses).1 = 403%nat
  /\ code (get alice 7 Sample.employees Sample.timesheets) = 404%nat.
Proof.
  pose proof (C9_cross_employee_denied alice 1 eq_refl eq_refl)
    as (Ht & He & Htm & _).
  split; [|split].
  - refine (proj1 (Ht Sample.employees Sample.timesheets 2%nat
             (timesheet jan15 2 "22:00" "06:00" 0 8 0 false true
                DailyTimesheet.submitted) _ _) _);
      [vm_compute; reflexivity | discriminate | vm_compute; eauto].
  - refine (proj1 (proj2 (proj2 (proj2 (proj2
             (He Sample.env Sample.employees Sample.expenses 2%nat
                (expense 2 450 DailyExpense.approved (Some 20%nat)
                   (Some jan16)) _ _))))));
      [vm_compute; reflexivity | discriminate].
  - refine (proj1 (Htm Sample.employees Sample.timesheets 7%nat _)).
    vm_compute; reflexivity.
Defined.

End Editing.

(** ** Writes to the timesheets *)

Section TimesheetWrites.

Import DailyTimesheet TimesheetRoutes.

(** A document [calculateHours] has run on is one it leaves as it is. *)
Lemma calculateHours_idem (this d : Doc) :
  calculateHours this = Some d -> calculateHours d = Some d.
Proof.
  unfold calculateHours.
  destruct (parseTime (startTime this)) as [sm|] eqn:Hs; [|discriminate].
  destruct (parseTime (endTime this)) as [em|] eqn:He; [|discriminate].
  cbn. intros [= <-]. cbn. rewrite Hs, He. reflexivity.
Qed.

Lemma calculateHours_fields (this d : Doc) :
  calculateHours this = Some d ->
  date d = date this /\ employeeId d = employeeId this
  /\ status d = status this.
Proof.
  unfold calculateHours.
  destruct (parseTime (startTime this)) as [sm|]; [|discriminate].
  destruct (parseTime (endTime this)) as [em|]; [|discriminate].
  cbn. intros [= <-]. done.
Qed.

(** What [POST /] leaves in the collection: nothing new, or one document
    under a new [_id], with status draft and the hours calculated, whose
    pair no stored document has. *)
Lemma post_inv (user : User) (body : Body)
    (employees : gmap nat EmployeeModel.Employee) (timesheets : gmap nat Doc) :
  (code (post user body employees timesheets).1 <> 201%nat
   /\ (post user body employees timesheets).2 = timesheets)
  \/ exists msg d,
       post user body employees timesheets
       = (reply 201 (MessageWith msg d), <[new_id timesheets := d]> timesheets)
       /\ Some (date d) = b_date body
       /\ Some (employeeId d) = b_employeeId body
       /\ calculateHours d = Some d
       /\ validate d = true
       /\ status d = draft
       /\ forall i x, timesheets !! i = Some x ->
            timesheet_pair x <> timesheet_pair d.
Proof.
  unfold post. rewrite allRoles_pass.
  destruct (is_nil (post_validators body)) eqn:Hv; cbn; [|left; done].
  destruct (b_date body) as [dt|]; cbn; [|left; done].
  destruct (b_employeeId body) as [eid|]; cbn; [|left; done].
  destruct (b_startTime body) as [st|]; cbn; [|left; done].
  destruct (b_endTime body) as [en|]; cbn; [|left; done].
  destruct (bool_decide (employees !! eid = None)); cbn; [left; done|].
  set (guard := if bool_decide (role user = employee) then _ else _).
  assert (guard = inr tt \/ exists r, guard = inl r /\ code r <> 201%nat)
    as [-> | (r & -> & Hr)]; [|cbn|by left].
  { subst guard. destruct (bool_decide (role user = employee)); [|by left].
    destruct (linkedEmployeeId user) as [l|]; cbn.
    - destruct (bool_decide (eid = l)); cbn; [by left|].
      right. eexists. split; [reflexivity|done].
    - right. eexists. split; [reflexivity|done]. }
  destruct (findOne _ timesheets) as [[i x]|] eqn:Hfind; cbn.
  { by left. }
  unfold save.
  destruct (validate _) eqn:Hval; cbn; [|by left].
  destruct (calculateHours _) as [d|] eqn:Hcalc; cbn; [|by left].
  right. exists "Timesheet created successfully"%string, d.
  split; [reflexivity|].
  pose proof (calculateHours_idem _ _ Hcalc) as Hidem.
  destruct (calculateHours_valid _ Hval) as (d' & Hd' & Hvalid).
  rewrite Hcalc in Hd'. injection Hd' as <-.
  apply calculateHours_fields in Hcalc as (Hdate & Hemp & Hstatus).
  cbn in Hdate, Hemp, Hstatus.
  repeat split; try congruence.
  intros j y Hj Hpair.
  pose proof (findOne_None _ _ Hfind j y Hj) as Hno. cbn in Hno.
  unfold timesheet_pair in Hpair. injection Hpair as He Hd.
  rewrite bool_decide_eq_true_2 in Hno by congruence.
  rewrite Hd, Hdate, Z.eqb_refl in Hno. discriminate.
Qed.

(** A creation for a pair that is stored is refused and stores nothing. *)
Lemma post_conflict (user : User) (body : Body)
    (employees : gmap nat EmployeeModel.Employee) (timesheets : gmap nat Doc)
    (i : nat) (x : Doc) :
  timesheets !! i = Some x ->
  b_employeeId body = Some (employeeId x) -> b_date body = Some (date x) ->
  (post user body employees timesheets).2 = timesheets
  /\ (post_validators body = [] ->
      is_Some (employees !! employeeId x) ->
      (role user = employee -> linkedEmployeeId user = Some (employeeId x)) ->
      (post user body employees timesheets).1
      = reply 400
          (Message "Timesheet already exists for this date and employee")).
Proof.
  intros Hx Hemp Hdate. split.
  - destruct (post_inv user body employees timesheets)
      as [[_ H] | (msg & d & _ & Hd & He & _ & _ & _ & Hnew)]; [done|].
    exfalso. apply (Hnew i x Hx). unfold timesheet_pair. congruence.
  - intros Hv [e He] Hown. unfold post.
    rewrite allRoles_pass, Hv, Hdate, Hemp. cbn.
    assert (exists st en, b_startTime body = Some st
                          /\ b_endTime body = Some en) as (st & en & -> & ->).
    { unfold post_validators, check in Hv.
      destruct (bool_decide _), (bool_decide _),
        (b_startTime body) as [st|], (b_endTime body) as [en|];
        cbn in Hv; try discriminate;
        repeat (destruct (time_format _); cbn in Hv; try discriminate);
        eauto. }
    cbn. rewrite (bool_decide_eq_false_2 (employees !! employeeId x = None))
      by congruence.
    cbn.
    assert ((if bool_decide (role user = employee)
             then linked ← or_throw (linkedEmployeeId user);
                  return_if (negb (bool_decide (employeeId x = linked)))
                    (reply 403 (Message
                       "You can only create timesheets for yourself"))
             else inr ()) = (inr tt : Reply Doc + unit)) as ->.
    { destruct (decide (role user = employee)) as [Hr|Hr].
      - rewrite bool_decide_eq_true_2, (Hown Hr) by done. cbn.
        by rewrite (bool_decide_eq_true_2 (employeeId x = employeeId x)).
      - by rewrite bool_decide_eq_false_2. }
    cbn.
    destruct (findOne _ timesheets) as [[j y]|] eqn:Hfind; cbn; [done|].
    pose proof (findOne_None _ _ Hfind i x Hx) as Hno. cbn in Hno.
    rewrite bool_decide_eq_true_2, Z.eqb_refl in Hno by done. discriminate.
Qed.

(** Creation and deletion keep the pairs distinct; so does an update that
    names neither the employee nor the date. *)
Lemma post_unique_pairs (user : User) (body : Body)
    (employees : gmap nat EmployeeModel.Employee) (timesheets : gmap nat Doc) :
  unique_pairs timesheets = true ->
  unique_pairs (post user body employees timesheets).2 = true.
Proof.
  intros Hu.
  destruct (post_inv user body employees timesheets)
    as [[_ ->] | (msg & d & -> & _ & _ & _ & _ & _ & Hnew)]; [done|].
  apply insert_unique_by; [|done]. right. split; [apply new_id_fresh|done].
Qed.

Lemma delete_unique_pairs (user : User) (_id : nat)
    (timesheets : gmap nat Doc) :
  unique_pairs timesheets = true ->
  unique_pairs (delete user _id timesheets).2 = true.
Proof.
  intros Hu. unfold delete.
  destruct (adminOrManager user); cbn; [done|].
  destruct (bool_decide (timesheets !! _id = None)); cbn; [done|].
  by apply delete_unique_by.
Qed.

Lemma put_inv (user : User) (_id : nat) (body : Body)
    (timesheets : gmap nat Doc) :
  (put user _id body timesheets).2 = timesheets
  \/ exists d, timesheets !! _id = Some d
       /\ update_valid body = true
       /\ (put user _id body timesheets).2
          = <[_id := apply_update body (id user) d]> timesheets.
Proof.
  unfold put. rewrite allRoles_pass.
  destruct (is_nil (put_validators body)); cbn; [|by left].
  destruct (timesheets !! _id) as [d|] eqn:Hd; cbn; [|by left].
  set (guard := if bool_decide (role user = employee) then _ else _).
  assert (guard = inr tt \/ exists r, guard = inl r)
    as [-> | (r & ->)]; [|cbn|by left].
  { subst guard. destruct (bool_decide (role user = employee)); [|by left].
    destruct (linkedEmployeeId user) as [l|]; cbn; [|eauto].
    destruct (bool_decide (employeeId d = l)); cbn; eauto. }
  unfold findByIdAndUpdate. rewrite Hd.
  destruct (update_valid body); cbn; [|by left].
  right. by exists d.
Qed.

Lemma put_unique_pairs (user : User) (_id : nat) (body : Body)
    (timesheets : gmap nat Doc) :
  b_date body = None -> b_employeeId body = None ->
  unique_pairs timesheets = true ->
  unique_pairs (put user _id body timesheets).2 = true.
Proof.
  intros Hdate Hemp Hu.
  destruct (put_inv user _id body timesheets) as [-> | (d & Hd & _ & ->)];
    [done|].
  apply insert_unique_by; [|done]. left. exists d. split; [done|].
  unfold timesheet_pair, apply_update. cbn. by rewrite Hdate, Hemp.
Qed.

(** The hours a body names do not reach a created timesheet. *)
Lemma post_ignores_hours (user : User) (body : Body) (hours overtime : option Q)
    (employees : gmap nat EmployeeModel.Employee) (timesheets : gmap nat Doc) :
  post user
    {| b_date := b_date body; b_employeeId := b_employeeId body;
       b_startTime := b_startTime body; b_endTime := b_endTime body;
       b_breakTime := b_breakTime body;
       b_totalHoursWorked := hours; b_otHours := overtime;
       b_isVacationWork := b_isVacationWork body;
       b_isHolidayWork := b_isHolidayWork body;
       b_notes := b_notes body; b_createdBy := b_createdBy body;
       b_status := b_status body |} employees timesheets
  = post user body employees timesheets.
Proof. reflexivity. Qed.

(** An update the validators admit leaves a valid document valid. *)
Lemma apply_update_valid (body : Body) (modifier : nat) (d : Doc) :
  validate d = true -> update_valid body = true ->
  validate (apply_update body modifier d) = true.
Proof.
  unfold validate, update_valid, apply_update. intros Hd Hb.
  apply andb_prop in Hd as [Hd Hnotes]. apply andb_prop in Hd as [Hd Hot].
  apply andb_prop in Hd as [Hd Hw24]. apply andb_prop in Hd as [Hd Hw0].
  apply andb_prop in Hd as [Hd Hb480]. apply andb_prop in Hd as [Hd Hb0].
  apply andb_prop in Hd as [Hs He].
  apply andb_prop in Hb as [Hb _]. apply andb_prop in Hb as [Hb Kn].
  apply andb_prop in Hb as [Hb Ko]. apply andb_prop in Hb as [Hb Kw].
  apply andb_prop in Hb as [Hb Kb]. apply andb_prop in Hb as [Ks Ke].
  cbn.
  destruct (b_startTime body), (b_endTime body), (b_breakTime body),
    (b_totalHoursWorked body), (b_otHours body), (b_notes body);
    cbn in *;
    repeat match goal with
           | H : _ && _ = true |- _ => apply andb_prop in H as [? ?]
           end;
    repeat (apply andb_true_intro; split); done.
Qed.

(** Every request with a body of fields leaves a collection of valid
    timesheets valid. *)
Lemma handle_keeps_valid (r : Request) (timesheets : gmap nat Doc) :
  all_docs validate timesheets = true ->
  all_docs validate (handle r timesheets) = true.
Proof.
  intros Hv. destruct r as [user body employees|user _id body|user _id];
    cbn [handle].
  - destruct (post_inv user body employees timesheets)
      as [[_ ->] | (msg & d & -> & _ & _ & _ & Hd & _)]; [done|].
    by apply all_docs_insert.
  - destruct (put_inv user _id body timesheets)
      as [-> | (d & Hd & Hb & ->)]; [done|].
    apply all_docs_insert; [done|]. apply apply_update_valid; [|done].
    by eapply all_docs_lookup.
  - unfold delete. destruct (adminOrManager user); cbn; [done|].
    destruct (bool_decide (timesheets !! _id = None)); cbn; [done|].
    by apply all_docs_delete.
Qed.

(** The timesheets any sequence of requests with bodies of fields leaves,
    starting with none, are valid. *)
Lemma requests_keep_valid (requests : list Request) :
  all_docs validate (fold_left (fun coll r => handle r coll) requests ∅)
  = true.
Proof.
  assert (forall coll, all_docs validate coll = true ->
            all_docs validate
              (fold_left (fun coll r => handle r coll) requests coll) = true)
    as H.
  { induction requests as [|r rest IH]; intros coll Hc; cbn; [done|].
    apply IH. by apply handle_keeps_valid. }
  apply H. reflexivity.
Qed.

(** An update keeps the stored hours unless the body names others. *)
Lemma put_hours (user : User) (_id : nat) (body : Body)
    (timesheets : gmap nat Doc) (timesheet : Doc) :
  (role user = employee ->
   linkedEmployeeId user = Some (employeeId timesheet)) ->
  timesheets !! _id = Some timesheet ->
  put_validators body = [] -> update_valid body = true ->
  exists d, (put user _id body timesheets).2 !! _id = Some d
    /\ totalHoursWorked d
       = default (totalHoursWorked timesheet) (b_totalHoursWorked body)
    /\ otHours d = default (otHours timesheet) (b_otHours body).
Proof.
  intros Hown Hfound Hbody Hvalid.
  rewrite (put_allowed user _id body timesheets timesheet) by done.
  eexists. split; [apply lookup_insert_eq|]. done.
Qed.

(** What the two creations of the sample leave. *)
Example created_timesheets :
  code (post alice (new_shift jan15 "09:00" "17:00" 0) Sample.employees ∅).1
  = 201%nat
  /\ exists a b,
       Sample.created = {[ 0%nat := a; 1%nat := b ]}
       /\ timesheet_pair a = (1%nat, jan15)
       /\ timesheet_pair b = (1%nat, jan16).
Proof.
  split; [vm_compute; reflexivity|].
  eexists _, _. split; [vm_compute; reflexivity|]. split; reflexivity.
Qed.

(** C3, where the code departs from the specification.  On the timesheets two
    creations left, an update that moves the end of the shift of 09:00 to
    17:00 to 18:00 is accepted and leaves the stored 8 hours and no
    overtime, where [calculateHours] on the stored times gives 9 hours and
    1 of overtime; an update whose body names 24 hours and 16 of overtime
    is accepted and stores them, where the stored times give 10 hours and
    2 of overtime. *)
Theorem C3_update_skips_calculation :
  let later := put alice 0 later_end Sample.created in
  let claimed := put alice 1 claimed_hours Sample.created in
  code later.1 = 200%nat
  /\ (exists d d', later.2 !! 0%nat = Some d
        /\ startTime d = "09:00"%string /\ endTime d = "18:00"%string
        /\ (breakTime d == 0)%Q
        /\ (totalHoursWorked d == 8)%Q /\ (otHours d == 0)%Q
        /\ calculateHours d = Some d'
        /\ (totalHoursWorked d' == 9)%Q /\ (otHours d' == 1)%Q)
  /\ code claimed.1 = 200%nat
  /\ (exists d d', claimed.2 !! 1%nat = Some d
        /\ startTime d = "08:00"%string /\ endTime d = "18:30"%string
        /\ (breakTime d == 30)%Q
        /\ (totalHoursWorked d == 24)%Q /\ (otHours d == 16)%Q
        /\ calculateHours d = Some d'
        /\ (totalHoursWorked d' == 10)%Q /\ (otHours d' == 2)%Q).
Proof.
  cbv zeta. split; [vm_compute; reflexivity|]. split.
  { eexists _, _. split; [vm_compute; reflexivity|].
    repeat split; vm_compute; reflexivity. }
  split; [vm_compute; reflexivity|].
  eexists _, _. split; [vm_compute; reflexivity|].
  repeat split; vm_compute; reflexivity.
Qed.

(** C7, where the code departs from the specification.  Two creations leave one
    timesheet of the employee for 15 January and one for 16 January; an
    update that moves the second to 15 January is accepted and leaves two
    timesheets with the same employee and date. *)
Theorem C7_update_duplicates_pair :
  let moved := put alice 1 move_to_jan15 Sample.created in
  unique_pairs Sample.created = true
  /\ code moved.1 = 200%nat
  /\ unique_pairs moved.2 = false
  /\ exists a b, moved.2 !! 0%nat = Some a /\ moved.2 !! 1%nat = Some b
       /\ employeeId a = employeeId b /\ date a = date b.
Proof.
  cbv zeta. split; [vm_compute; reflexivity|].
  split; [vm_compute; reflexivity|]. split; [vm_compute; reflexivity|].
  eexists _, _. split; [vm_compute; reflexivity|].
  split; [vm_compute; reflexivity|]. split; reflexivity.
Qed.

End TimesheetWrites.

(** ** Finalization *)

Section Finalization.

Import EmployeeModel MonthlySummary ReportRoutes.

(** A round of the generation keeps the status of every stored summary. *)
Lemma generate_for_status env user yearNum monthNum timesheets
    (e : nat * Employee) (summaries summaries' : gmap nat Doc) (d : Doc) :
  generate_for env user yearNum monthNum timesheets e summaries
    = Some (d, summaries') ->
  forall i x, summaries !! i = Some x ->
    exists x', summaries' !! i = Some x' /\ status x' = status x.
Proof.
  unfold generate_for, save. intros H i x Hx.
  destruct (findOne _ summaries) as [[j old]|] eqn:Hfind.
  - apply findOne_Some in Hfind as [Hj _].
    destruct (validate _); [|discriminate]. cbn in H. injection H as <- <-.
    destruct (decide (j = i)) as [->|Hji].
    + rewrite lookup_insert_eq. eexists. split; [reflexivity|].
      cbn. congruence.
    + rewrite lookup_insert_ne by done. eauto.
  - destruct (validate _); [|discriminate]. cbn in H. injection H as <- <-.
    rewrite lookup_insert_ne; [eauto|].
    intros Heq. rewrite <- Heq, new_id_fresh in Hx. discriminate.
Qed.

Lemma generate_loop_status env user yearNum monthNum timesheets
    (employees : list (nat * Employee)) (generated : list Doc)
    (summaries : gmap nat Doc) :
  forall i x, summaries !! i = Some x ->
    exists x',
      (generate_loop env user yearNum monthNum timesheets employees generated
         summaries).2 !! i = Some x'
      /\ status x' = status x.
Proof.
  revert generated summaries.
  induction employees as [|e rest IH]; intros generated summaries i x Hx;
    cbn [generate_loop]; [eauto|].
  destruct (generate_for _ _ _ _ _ e summaries) as [[d S']|] eqn:Hgen;
    [|eauto].
  destruct (generate_for_status _ _ _ _ _ _ _ _ _ Hgen i x Hx)
    as (x1 & Hx1 & Hs1).
  destruct (IH (generated ++ [d]) S' i x1 Hx1) as (x2 & Hx2 & Hs2).
  exists x2. split; [done | congruence].
Qed.

(** No request takes a summary out of the finalized status. *)
Lemma handle_keeps_finalized (env : Env) (request : Request)
    (summaries : gmap nat Doc) (i : nat) (x : Doc) :
  summaries !! i = Some x -> status x = finalized ->
  exists x', handle env request summaries !! i = Some x'
    /\ status x' = finalized.
Proof.
  intros Hx Hfin. destruct request as [user y m employees timesheets|user j];
    cbn [handle].
  - unfold generate.
    destruct (adminOrManager user); [eauto|].
    destruct (_ || _); [eauto|]. destruct (_ || _); [eauto|].
    destruct (generate_loop_status env user y m timesheets
                (Http.find (fun e => bool_decide (EmployeeModel.status e = active))
                   employees) [] summaries i x Hx)
      as (x' & Hx' & Hs).
    destruct (generate_loop _ _ _ _ _ _ _ _) as [[g|] S']; cbn in *;
      exists x'; split; congruence.
  - unfold finalize. destruct (adminOrManager user); cbn; [eauto|].
    destruct (summaries !! j) as [s|] eqn:Hj; cbn; [|eauto].
    destruct (bool_decide (status s = finalized)) eqn:Hs; cbn; [eauto|].
    apply bool_decide_eq_false in Hs.
    unfold save. destruct (validate _); cbn; [|eauto].
    rewrite lookup_insert_ne; [eauto|]. intros ->. congruence.
Qed.

(** C8.  For a manager or an administrator: finalizing a stored summary
    that is finalized fails with 400 and changes nothing; finalizing a
    stored draft that passes the validators of the schema succeeds, sets
    the status to finalized and stamps [finalizedAt], and finalizing it
    once more fails with 400; and whatever requests follow, generations
    and finalizations by any caller, a finalized summary stays finalized,
    the one that was stored so and the one that was a draft. *)
Theorem C8_finalize (env : Env) (user : User)
    (summaries : gmap nat Doc) (_id : nat) (summary : Doc)
    (drafts : gmap nat Doc) (draft_id : nat) (draft_ : Doc) :
  role user <> employee ->
  summaries !! _id = Some summary -> status summary = finalized ->
  drafts !! draft_id = Some draft_ -> status draft_ = draft ->
  validate draft_ = true ->
  let refused := finalize env user _id summaries in
  let result := finalize env user draft_id drafts in
  code refused.1 = 400%nat /\ refused.2 = summaries
  /\ code result.1 = 200%nat
  /\ (exists s, result.2 = <[draft_id := s]> drafts
        /\ status s = finalized /\ finalizedAt s = Some (now env))
  /\ code (finalize env user draft_id result.2).1 = 400%nat
  /\ (finalize env user draft_id result.2).2 = result.2
  /\ (forall requests : list (Env * Request),
      exists s,
        fold_left (fun coll r => handle r.1 r.2 coll) requests summaries
          !! _id = Some s
        /\ status s = finalized)
  /\ (forall requests : list (Env * Request),
      exists s,
        fold_left (fun coll r => handle r.1 r.2 coll) requests result.2
          !! draft_id = Some s
        /\ status s = finalized).
Proof.
  intros Hrole Hfound Hfin Hdraft Hstatus Hvalid refused result.
  assert (forall (S : gmap nat Doc) i x,
            S !! i = Some x -> status x = finalized ->
            forall requests : list (Env * Request),
            exists s,
              fold_left (fun coll r => handle r.1 r.2 coll) requests S
                !! i = Some s
              /\ status s = finalized) as Hstays.
  { intros S i x Hx Hxf requests. revert S x Hx Hxf.
    induction requests as [|[env' r] rest IH]; intros S x Hx Hxf;
      cbn [fold_left]; [eauto|].
    destruct (handle_keeps_finalized env' r S i x Hx Hxf) as (s & Hs & Hsf).
    by apply (IH _ s). }
  assert (forall (S : gmap nat Doc) i x,
            S !! i = Some x -> status x = finalized ->
            finalize env user i S
            = (reply 400 (Message "Summary already finalized"), S))
    as Hrefused.
  { intros S i x Hx Hxf. unfold finalize.
    rewrite adminOrManager_pass, Hx by done. cbn.
    by rewrite (bool_decide_eq_true_2 (status x = finalized)). }
  set (s := {| employeeId := employeeId draft_; month := month draft_;
               year := year draft_;
               totalRegularHours := totalRegularHours draft_;
               totalOTHours := totalOTHours draft_;
               totalVacationHours := totalVacationHours draft_;
               totalHolidayHours := totalHolidayHours draft_;
               totalPayableAmount := totalPayableAmount draft_;
               breakdown := breakdown draft_;
               status := finalized;
               generatedBy := generatedBy draft_;
               finalizedAt := Some (now env);
               paidAt := paidAt draft_ |}).
  assert (result
          = (reply 200
               (MessageWith "Monthly summary finalized successfully" s),
             <[draft_id := s]> drafts)) as Hresult.
  { subst result. unfold finalize.
    rewrite adminOrManager_pass, Hdraft by done. cbn.
    rewrite (bool_decide_eq_false_2 (status draft_ = finalized))
      by (rewrite Hstatus; discriminate).
    cbn. unfold save. fold s.
    change (validate s) with (validate draft_). by rewrite Hvalid. }
  assert (result.2 !! draft_id = Some s) as Hstored
    by (rewrite Hresult; apply lookup_insert_eq).
  subst refused. rewrite (Hrefused summaries _id summary) by done.
  rewrite (Hrefused result.2 draft_id s) by done.
  split; [done|]. split; [done|].
  split; [by rewrite Hresult|].
  split; [exists s; by rewrite Hresult|].
  split; [done|]. split; [done|].
  split; [by apply (Hstays summaries _id summary)|].
  by apply (Hstays result.2 draft_id s).
Qed.

Lemma C8_finalize_witness :
  let refused := finalize Sample.env boss 5 Sample.summaries in
  let result := finalize Sample.env boss 7 Sample.drafts in
  code refused.1 = 400%nat /\ refused.2 = Sample.summaries
  /\ code result.1 = 200%nat
  /\ (exists s, result.2 = <[7%nat := s]> Sample.drafts
        /\ status s = finalized /\ finalizedAt s = Some (now Sample.env))
  /\ code (finalize Sample.env boss 7 result.2).1 = 400%nat
  /\ (finalize Sample.env boss 7 result.2).2 = result.2
  /\ (forall requests : list (Env * Request),
      exists s,
        fold_left (fun coll r => handle r.1 r.2 coll) requests
          Sample.summaries !! 5%nat = Some s
        /\ status s = finalized)
  /\ (forall requests : list (Env * Request),
      exists s,
        fold_left (fun coll r => handle r.1 r.2 coll) requests result.2
          !! 7%nat = Some s
        /\ status s = finalized).
Proof.
  apply (C8_finalize Sample.env boss Sample.summaries 5 january
           Sample.drafts 7 december);
    [discriminate | vm_compute; reflexivity | reflexivity
    | vm_compute; reflexivity | reflexivity | reflexivity].
Defined.

End Finalization.

(** ** More on the time calculator *)

Section MoreTimeCalculator.

Import Js DailyTimesheet MoreChecks.
Local Open Scope Z_scope.

(** X1.  A time string the validator admits, with one or two digits of
    hours, parses to a minute of the day: a number from 0 to 1439, never
    [NaN]. *)
Theorem X1_parseTime_validated (s : string) :
  time_format s = true ->
  exists n, parseTime s = Some n /\ 0 <= n < 1440.
Proof. apply parseTime_time_format. Qed.

Lemma X1_parseTime_validated_witness :
  exists n, parseTime "9:05" = Some n /\ 0 <= n < 1440.
Proof. apply (X1_parseTime_validated "9:05"). reflexivity. Defined.




(** X3.  On a timesheet that passes the schema validators the calculator
    returns, and the hours it assigns are within the schema: from 0 to 24
    hours worked, from 0 to 16 of overtime; the document still passes the
    validators. *)
Theorem X3_calculateHours_bounds (this : Doc) :
  validate this = true ->
  exists d, calculateHours this = Some d
    /\ validate d = true
    /\ (0 <= totalHoursWorked d)%Q /\ (totalHoursWorked d <= 24)%Q
    /\ (0 <= otHours d)%Q /\ (otHours d <= 16)%Q.
Proof.
  intros Hv. destruct (calculateHours_valid this Hv) as (d & Hd & Hvd).
  exists d. split; [done|]. split; [done|].
  pose proof Hvd as H. unfold validate in H.
  apply andb_prop in H as [H _]. apply andb_prop in H as [H Hot].
  apply andb_prop in H as [H Hw24]. apply andb_prop in H as [_ Hw0].
  apply Qle_bool_iff in Hot, Hw24, Hw0. repeat split; try done.
  unfold calculateHours in Hd.
  destruct (parseTime (startTime this)); [|discriminate].
  destruct (parseTime (endTime this)); [|discriminate].
  cbn in Hd. injection Hd as Hd. rewrite <- Hd in *. cbn in *.
  unfold Math_max in *. apply Q.max_lub; [discriminate|].
  unfold regularHours.
  apply Qle_trans with (24 - 8)%Q; [|discriminate].
  apply Qplus_le_compat; [exact Hw24 | apply Qle_refl].
Qed.

Lemma X3_calculateHours_bounds_witness :
  exists d, calculateHours (shift "22:00" "06:00" 15) = Some d
    /\ validate d = true
    /\ (0 <= totalHoursWorked d)%Q /\ (totalHoursWorked d <= 24)%Q
    /\ (0 <= otHours d)%Q /\ (otHours d <= 16)%Q.
Proof.
  apply (X3_calculateHours_bounds (shift "22:00" "06:00" 15)). reflexivity.
Defined.

(** X4.  For a timesheet the calculator has run on, the regular share the
    aggregation takes, [max(0, totalHoursWorked - otHours)], is the smaller
    of the hours worked and 8, and the regular share and the overtime add
    up to the hours worked. *)
Theorem X4_regular_share (this d : Doc) :
  calculateHours this = Some d ->
  (regular_part d == Qmin (totalHoursWorked d) 8)%Q
  /\ (regular_part d + otHours d == totalHoursWorked d)%Q.
Proof.
  unfold calculateHours.
  destruct (parseTime (startTime this)); [|discriminate].
  destruct (parseTime (endTime this)); [|discriminate].
  cbn [mbind option_bind]. intros [= <-].
  unfold regular_part, Math_max, regularHours.
  cbn [totalHoursWorked otHours].
  set (hw := Qmax 0 (_ / 60)%Q).
  assert (0 <= hw)%Q as H0 by apply Q.le_max_l.
  destruct (Qlt_le_dec 8 hw) as [Hgt|Hle].
  - assert (Qmax 0 (hw - 8) == hw - 8)%Q as Hot.
    { apply Q.max_r. unfold Qminus. rewrite <- Qle_minus_iff.
      by apply Qlt_le_weak. }
    rewrite Hot.
    assert (hw - (hw - 8) == 8)%Q as -> by ring.
    rewrite Q.max_r by discriminate.
    rewrite Q.min_r by (by apply Qlt_le_weak). split; [reflexivity | ring].
  - assert (Qmax 0 (hw - 8) == 0)%Q as Hot.
    { apply Q.max_l. apply Qle_minus_iff.
      assert (0 + - (hw - 8) == 8 + - hw)%Q as -> by ring.
      by apply Qle_minus_iff in Hle. }
    rewrite Hot.
    assert (hw - 0 == hw)%Q as -> by ring.
    rewrite Q.max_r by done. rewrite Q.min_l by done.
    split; [reflexivity | ring].
Qed.

Lemma X4_regular_share_witness :
  exists d, calculateHours (shift "08:00" "18:30" 30) = Some d
    /\ (regular_part d == Qmin (totalHoursWorked d) 8)%Q
    /\ (regular_part d + otHours d == totalHoursWorked d)%Q.
Proof.
  eexists. split; [reflexivity|].
  apply (X4_regular_share (shift "08:00" "18:30" 30)). reflexivity.
Defined.

(** X5.  On times the validator admits, the hours the form shows while it
    is filled in are the hours the server stores when the timesheet is
    created. *)
Theorem X5_form_shows_stored_hours (this : Doc)
    (formData : TimesheetForm.FormData) :
  time_format (startTime this) = true ->
  time_format (endTime this) = true ->
  TimesheetForm.startTime formData = startTime this ->
  TimesheetForm.endTime formData = endTime this ->
  (TimesheetForm.breakTime formData == breakTime this)%Q ->
  exists d totalHours overtime,
    calculateHours this = Some d
    /\ TimesheetForm.calculateHours formData = Some (totalHours, overtime)
    /\ (totalHours == totalHoursWorked d)%Q
    /\ (overtime == otHours d)%Q.
Proof.
  intros Hs He Fs Fe Fb.
  destruct (parseTime_time_format _ Hs) as (sm & Ps & _).
  destruct (parseTime_time_format _ He) as (em & Pe & _).
  destruct (calculateHours_minutes this sm em Ps Pe) as (d & Hd & Hw & Ho).
  unfold TimesheetForm.calculateHours. rewrite Fs, Fe.
  assert (forall s, time_format s = true -> String.eqb s "" = false) as Hne.
  { intros [|c s]; [discriminate | done]. }
  rewrite (Hne _ Hs), (Hne _ He). cbn [orb].
  change (TimesheetForm.parseTime (startTime this))
    with (parseTime (startTime this)).
  change (TimesheetForm.parseTime (endTime this))
    with (parseTime (endTime this)).
  rewrite Ps, Pe. cbn [mbind option_bind].
  eexists d, _, _. split; [done|]. split; [reflexivity|].
  assert ((if Qeq_bool (TimesheetForm.breakTime formData) 0 then 0
           else TimesheetForm.breakTime formData) == breakTime this)%Q as Hb.
  { destruct (Qeq_bool _ 0) eqn:E; [|done].
    apply Qeq_bool_iff in E. by rewrite <- Fb, E. }
  unfold Math_max. rewrite Hw, Ho, Hw. unfold Math_max, regularHours.
  rewrite Hb. split; reflexivity.
Qed.

Lemma X5_form_shows_stored_hours_witness :
  exists d totalHours overtime,
    calculateHours (shift "22:00" "06:30" 30) = Some d
    /\ TimesheetForm.calculateHours MoreSample.night_form
       = Some (totalHours, overtime)
    /\ (totalHours == totalHoursWorked d)%Q
    /\ (overtime == otHours d)%Q.
Proof.
  apply (X5_form_shows_stored_hours (shift "22:00" "06:30" 30)
           MoreSample.night_form); reflexivity.
Defined.

End MoreTimeCalculator.

(** ** More on the timesheet routes *)

Section MoreTimesheets.

Import DailyTimesheet TimesheetRoutes.

Lemma notes_after_trim (n : option string) :
  notes_valid n = true -> notes_valid (Js.trim <$> n) = true.
Proof.
  destruct n as [s|]; cbn -[Js.trim]; [|done].
  intros H. apply Nat.leb_le in H. apply Nat.leb_le.
  pose proof (trim_length s). lia.
Qed.

(** The fields the calculator leaves as they are. *)
Lemma calculateHours_keeps (this d : Doc) :
  calculateHours this = Some d ->
  startTime d = startTime this /\ endTime d = endTime this
  /\ breakTime d = breakTime this /\ createdBy d = createdBy this
  /\ lastModifiedBy d = lastModifiedBy this /\ notes d = notes this
  /\ isVacationWork d = isVacationWork this
  /\ isHolidayWork d = isHolidayWork this.
Proof.
  unfold calculateHours.
  destruct (parseTime (startTime this)) as [sm|]; [|discriminate].
  destruct (parseTime (endTime this)) as [em|]; [|discriminate].
  cbn. intros [= <-]. done.
Qed.

(** What the validators of [POST /] ask of a body. *)
Lemma post_validators_pass (body : Body) :
  post_validators body = [] ->
  exists dt eid st en,
    b_date body = Some dt /\ b_employeeId body = Some eid
    /\ b_startTime body = Some st /\ b_endTime body = Some en
    /\ time_format st = true /\ time_format en = true
    /\ notes_valid (b_notes body) = true.
Proof.
  unfold post_validators, check. intros H.
  destruct (b_date body) as [dt|]; cbn in H; [|discriminate].
  destruct (b_employeeId body) as [eid|]; cbn in H; [|discriminate].
  destruct (b_startTime body) as [st|]; cbn in H; [|discriminate].
  destruct (b_endTime body) as [en|]; cbn in H;
    [|by destruct (time_format st)].
  destruct (time_format st) eqn:Fs; cbn in H; [|discriminate].
  destruct (time_format en) eqn:Fe; cbn in H; [|discriminate].
  destruct (notes_valid (b_notes body)) eqn:Fn; [|discriminate].
  eexists _, _, _, _. repeat split; done.
Qed.

(** The steps of [POST /] up to the [save()], for a body that passes the
    validators, an employee that exists and a caller who may create for
    that employee, when no timesheet has the pair. *)
Lemma post_reaches_save (user : User) (body : Body)
    (employees : gmap nat EmployeeModel.Employee) (timesheets : gmap nat Doc)
    (dt : Z) (eid : nat) (st en : string) :
  post_validators body = [] ->
  b_date body = Some dt -> b_employeeId body = Some eid ->
  b_startTime body = Some st -> b_endTime body = Some en ->
  is_Some (employees !! eid) ->
  (role user = employee -> linkedEmployeeId user = Some eid) ->
  (forall i x, timesheets !! i = Some x -> timesheet_pair x <> (eid, dt)) ->
  post user body employees timesheets
  = run timesheets (
      '(saved, coll') ←
        or_throw
          (save true false (new_id timesheets)
             {| date := dt; employeeId := eid; startTime := st;
                endTime := en;
                breakTime := default 0%Q (b_breakTime body);
                totalHoursWorked := 0; otHours := 0;
                isVacationWork := default false (b_isVacationWork body);
                isHolidayWork := default false (b_isHolidayWork body);
                notes := Js.trim <$> b_notes body; createdBy := id user;
                lastModifiedBy := None; status := draft |} timesheets);
      inr (reply 201 (MessageWith "Timesheet created successfully" saved),
           coll')).
Proof.
  intros Hv Hdt Heid Hst Hen [e He] Hown Hnew. unfold post.
  rewrite allRoles_pass, Hv, Hdt, Heid, Hst, Hen. cbn -[save].
  rewrite (bool_decide_eq_false_2 (employees !! eid = None)) by congruence.
  cbn -[save].
  assert ((if bool_decide (role user = employee)
           then linked ← or_throw (linkedEmployeeId user);
                return_if (negb (bool_decide (eid = linked)))
                  (reply 403 (Message
                     "You can only create timesheets for yourself"))
           else inr ()) = (inr tt : Reply Doc + unit)) as ->.
  { destruct (decide (role user = employee)) as [Hr|Hr].
    - rewrite bool_decide_eq_true_2, (Hown Hr) by done. cbn.
      by rewrite (bool_decide_eq_true_2 (eid = eid)).
    - by rewrite bool_decide_eq_false_2. }
  cbn -[save].
  destruct (findOne _ timesheets) as [[j y]|] eqn:Hfind; cbn -[save]; [|done].
  apply findOne_Some in Hfind as [Hj Hy]. exfalso.
  apply andb_prop in Hy as [Hy1 Hy2].
  apply bool_decide_eq_true in Hy1. apply Z.eqb_eq in Hy2.
  apply (Hnew j y Hj). unfold timesheet_pair. congruence.
Qed.

Lemma new_pair (timesheets : gmap nat Doc) (eid : nat) (dt : Z) :
  all_docs (fun x => negb (bool_decide (timesheet_pair x = (eid, dt))))
    timesheets = true ->
  forall i x, timesheets !! i = Some x -> timesheet_pair x <> (eid, dt).
Proof.
  intros H i x Hx Hp.
  pose proof (all_docs_lookup _ _ _ _ H Hx) as Hn. cbn in Hn.
  by rewrite bool_decide_eq_true_2 in Hn.
Qed.

(** The creation that succeeds. *)
Lemma post_creates (user : User) (body : Body)
    (employees : gmap nat EmployeeModel.Employee) (timesheets : gmap nat Doc)
    (dt : Z) (eid : nat) :
  post_validators body = [] ->
  b_date body = Some dt -> b_employeeId body = Some eid ->
  is_Some (employees !! eid) ->
  (role user = employee -> linkedEmployeeId user = Some eid) ->
  all_docs (fun x => negb (bool_decide (timesheet_pair x = (eid, dt))))
    timesheets = true ->
  (0 <= default 0 (b_breakTime body))%Q ->
  (default 0 (b_breakTime body) <= 480)%Q ->
  exists d,
    post user body employees timesheets
    = (reply 201 (MessageWith "Timesheet created successfully" d),
       <[new_id timesheets := d]> timesheets)
    /\ timesheets !! new_id timesheets = None
    /\ date d = dt /\ employeeId d = eid
    /\ status d = draft /\ createdBy d = id user
    /\ calculateHours d = Some d.
Proof.
  intros Hv Hdt Heid He Hown Hnew' Hb0 Hb480.
  pose proof (new_pair _ _ _ Hnew') as Hnew.
  destruct (post_validators_pass body Hv)
    as (dt' & eid' & st & en & Hdt' & Heid' & Hst & Hen & Fs & Fe & Hn).
  assert (dt' = dt) as -> by congruence.
  assert (eid' = eid) as -> by congruence.
  rewrite (post_reaches_save user body employees timesheets dt eid st en)
    by done.
  set (this := {| date := dt |}).
  assert (validate this = true) as Hval.
  { unfold validate, this. cbn -[Js.trim].
    rewrite Fs, Fe, (notes_after_trim _ Hn).
    apply Qle_bool_iff in Hb0, Hb480. by rewrite Hb0, Hb480. }
  destruct (calculateHours_valid this Hval) as (d & Hd & _).
  unfold save, pre_save. rewrite Hval. cbn [orb]. rewrite Hd. cbn.
  exists d. split; [done|]. split; [apply new_id_fresh|].
  pose proof (calculateHours_idem _ _ Hd) as Hidem.
  pose proof (calculateHours_keeps _ _ Hd) as (_ & _ & _ & Hc & _).
  apply calculateHours_fields in Hd as (H1 & H2 & H3).
  repeat split; done.
Qed.


(** X6.  A creation whose body passes the validators, for an employee that
    exists, by a manager, an administrator or that employee, with a break
    from 0 to 480 minutes and for a pair no timesheet has, is answered 201:
    one document is stored under a new [_id], with status draft, the
    caller as creator, the hours calculated from its times, and the other
    documents as they were. *)
Theorem X6_post_creates (user : User) (body : Body)
    (employees : gmap nat EmployeeModel.Employee) (timesheets : gmap nat Doc)
    (dt : Z) (eid : nat) :
  post_validators body = [] ->
  b_date body = Some dt -> b_employeeId body = Some eid ->
  is_Some (employees !! eid) ->
  (role user = employee -> linkedEmployeeId user = Some eid) ->
  all_docs (fun x => negb (bool_decide (timesheet_pair x = (eid, dt))))
    timesheets = true ->
  (0 <= default 0 (b_breakTime body))%Q ->
  (default 0 (b_breakTime body) <= 480)%Q ->
  exists d,
    post user body employees timesheets
    = (reply 201 (MessageWith "Timesheet created successfully" d),
       <[new_id timesheets := d]> timesheets)
    /\ timesheets !! new_id timesheets = None
    /\ date d = dt /\ employeeId d = eid
    /\ status d = draft /\ createdBy d = id user
    /\ calculateHours d = Some d.
Proof. apply post_creates. Qed.

Lemma X6_post_creates_witness :
  exists d,
    post alice (new_shift MoreSample.jan17 "08:00" "18:30" 30)
      Sample.employees Sample.timesheets
    = (reply 201 (MessageWith "Timesheet created successfully" d),
       <[new_id Sample.timesheets := d]> Sample.timesheets)
    /\ Sample.timesheets !! new_id Sample.timesheets = None
    /\ date d = MoreSample.jan17 /\ employeeId d = 1%nat
    /\ status d = draft /\ createdBy d = id alice
    /\ calculateHours d = Some d.
Proof.
  apply (X6_post_creates alice (new_shift MoreSample.jan17 "08:00" "18:30" 30)
           Sample.employees Sample.timesheets MoreSample.jan17 1);
    [vm_compute; reflexivity | reflexivity | reflexivity
    | eexists; vm_compute; reflexivity | intros _; reflexivity
    | vm_compute; reflexivity | vm_compute; discriminate
    | vm_compute; discriminate].
Defined.

(** X7.  The break is validated by the schema alone: the same creation
    with a break below 0 or above 480 minutes is answered 500, not 400, and
    stores nothing. *)
Theorem X7_post_break_out_of_range (user : User) (body : Body)
    (employees : gmap nat EmployeeModel.Employee) (timesheets : gmap nat Doc)
    (dt : Z) (eid : nat) :
  post_validators body = [] ->
  b_date body = Some dt -> b_employeeId body = Some eid ->
  is_Some (employees !! eid) ->
  (role user = employee -> linkedEmployeeId user = Some eid) ->
  all_docs (fun x => negb (bool_decide (timesheet_pair x = (eid, dt))))
    timesheets = true ->
  (default 0 (b_breakTime body) < 0 \/ 480 < default 0 (b_breakTime body))%Q ->
  post user body employees timesheets = (server_error, timesheets).
Proof.
  intros Hv Hdt Heid He Hown Hnew' Hb.
  pose proof (new_pair _ _ _ Hnew') as Hnew.
  destruct (post_validators_pass body Hv)
    as (dt' & eid' & st & en & Hdt' & Heid' & Hst & Hen & Fs & Fe & Hn).
  assert (dt' = dt) as -> by congruence.
  assert (eid' = eid) as -> by congruence.
  rewrite (post_reaches_save user body employees timesheets dt eid st en)
    by done.
  unfold save, validate. cbn -[Js.trim]. rewrite Fs, Fe. cbn -[Js.trim].
  assert (Qle_bool 0 (default 0%Q (b_breakTime body))
          && Qle_bool (default 0%Q (b_breakTime body)) 480 = false) as ->.
  { destruct Hb as [Hb|Hb].
    - apply andb_false_intro1. apply not_true_is_false.
      rewrite Qle_bool_iff. by apply Qlt_not_le.
    - apply andb_false_intro2. apply not_true_is_false.
      rewrite Qle_bool_iff. by apply Qlt_not_le. }
  reflexivity.
Qed.

Lemma X7_post_break_out_of_range_witness :
  post alice (new_shift MoreSample.jan17 "08:00" "18:30" 500)
    Sample.employees Sample.timesheets
  = (server_error, Sample.timesheets).
Proof.
  apply (X7_post_break_out_of_range alice
           (new_shift MoreSample.jan17 "08:00" "18:30" 500)
           Sample.employees Sample.timesheets MoreSample.jan17 1);
    [vm_compute; reflexivity | reflexivity | reflexivity
    | eexists; vm_compute; reflexivity | intros _; reflexivity
    | vm_compute; reflexivity | right; vm_compute; reflexivity].
Defined.

(** X8.  A creation by an employee for another employee stores nothing;
    it is answered 403 when that employee exists and 404 when not, the
    lookup of the employee coming first. *)
Theorem X8_post_for_another (user : User) (linked eid : nat) (body : Body)
    (employees : gmap nat EmployeeModel.Employee) (timesheets : gmap nat Doc) :
  role user = employee -> linkedEmployeeId user = Some linked ->
  post_validators body = [] -> b_employeeId body = Some eid ->
  eid <> linked ->
  (is_Some (employees !! eid) ->
   post user body employees timesheets
   = (reply 403 (Message "You can only create timesheets for yourself"),
      timesheets))
  /\ (employees !! eid = None ->
      post user body employees timesheets
      = (reply 404 (Message "Employee not found"), timesheets)).
Proof.
  intros Hrole Hlinked Hv Heid Hne.
  destruct (post_validators_pass body Hv)
    as (dt & eid' & st & en & Hdt & Heid' & Hst & Hen & _).
  assert (eid' = eid) as -> by congruence.
  unfold post. rewrite allRoles_pass, Hv, Hdt, Heid, Hst, Hen. cbn.
  split.
  - intros [e He].
    rewrite (bool_decide_eq_false_2 (employees !! eid = None)) by congruence.
    cbn. rewrite Hrole, Hlinked. cbn.
    by rewrite (bool_decide_eq_false_2 (eid = linked)).
  - intros He. by rewrite (bool_decide_eq_true_2 (employees !! eid = None)).
Qed.

Lemma X8_post_for_another_witness :
  (is_Some (Sample.employees !! 2%nat) ->
   post alice MoreSample.shift_of_second Sample.employees Sample.timesheets
   = (reply 403 (Message "You can only create timesheets for yourself"),
      Sample.timesheets))
  /\ (Sample.employees !! 2%nat = None ->
      post alice MoreSample.shift_of_second Sample.employees
        Sample.timesheets
      = (reply 404 (Message "Employee not found"), Sample.timesheets)).
Proof.
  apply (X8_post_for_another alice 1 2 MoreSample.shift_of_second
           Sample.employees Sample.timesheets);
    [reflexivity | reflexivity | vm_compute; reflexivity | reflexivity
    | discriminate].
Defined.

(** X9.  A timesheet that was created can be read back: after a creation
    that is answered 201, by a manager, an administrator or the employee
    the timesheet is for, [GET /:id] with the new [_id] answers the caller
    200 with the document of the 201 reply. *)
Theorem X9_post_then_get (user : User) (body : Body)
    (employees : gmap nat EmployeeModel.Employee) (timesheets : gmap nat Doc)
    (dt : Z) (eid : nat) :
  post_validators body = [] ->
  b_date body = Some dt -> b_employeeId body = Some eid ->
  is_Some (employees !! eid) ->
  (role user = employee -> linkedEmployeeId user = Some eid) ->
  all_docs (fun x => negb (bool_decide (timesheet_pair x = (eid, dt))))
    timesheets = true ->
  (0 <= default 0 (b_breakTime body))%Q ->
  (default 0 (b_breakTime body) <= 480)%Q ->
  exists d,
    (post user body employees timesheets).1
    = reply 201 (MessageWith "Timesheet created successfully" d)
    /\ get user (new_id timesheets) employees
         (post user body employees timesheets).2
       = reply 200 (Document d).
Proof.
  intros Hv Hdt Heid He Hown Hnew Hb0 Hb480.
  destruct (post_creates user body employees timesheets dt eid)
    as (d & -> & _ & _ & Hde & _); try done.
  exists d. split; [done|]. cbn [fst snd]. unfold get.
  rewrite allRoles_pass, lookup_insert_eq. cbn [pass mbind early_bind].
  destruct (decide (role user = employee)) as [Hr|Hr].
  - rewrite bool_decide_eq_true_2 by done. rewrite Hde.
    destruct He as [e ->]. rewrite (Hown Hr). cbn.
    by rewrite (bool_decide_eq_true_2 (eid = eid)).
  - by rewrite bool_decide_eq_false_2.
Qed.

Lemma X9_post_then_get_witness :
  exists d,
    (post alice (new_shift MoreSample.jan17 "08:00" "18:30" 30)
       Sample.employees Sample.timesheets).1
    = reply 201 (MessageWith "Timesheet created successfully" d)
    /\ get alice (new_id Sample.timesheets) Sample.employees
         (post alice (new_shift MoreSample.jan17 "08:00" "18:30" 30)
            Sample.employees Sample.timesheets).2
       = reply 200 (Document d).
Proof.
  apply (X9_post_then_get alice (new_shift MoreSample.jan17 "08:00" "18:30" 30)
           Sample.employees Sample.timesheets MoreSample.jan17 1);
    [vm_compute; reflexivity | reflexivity | reflexivity
    | eexists; vm_compute; reflexivity | intros _; reflexivity
    | vm_compute; reflexivity | vm_compute; discriminate
    | vm_compute; discriminate].
Defined.

Lemma delete_by_staff (user : User) (_id : nat) (timesheets : gmap nat Doc) :
  role user <> employee ->
  delete user _id timesheets
  = if bool_decide (timesheets !! _id = None)
    then (reply 404 (Message "Timesheet not found"), timesheets)
    else (reply 200 (Message "Timesheet deleted successfully"),
          base.delete _id timesheets).
Proof.
  intros Hrole. unfold delete. rewrite adminOrManager_pass by done.
  by destruct (bool_decide (timesheets !! _id = None)).
Qed.

(** X10.  A deletion by a manager or an administrator removes the one
    document: it is answered 200, the [_id] is free afterwards and every
    other document is as it was, a read of the [_id] by any caller and a
    second deletion are answered 404. *)
Theorem X10_delete_removes (user : User) (_id : nat)
    (timesheets : gmap nat Doc) (d : Doc) :
  role user <> employee -> timesheets !! _id = Some d ->
  let result := delete user _id timesheets in
  code result.1 = 200%nat
  /\ result.2 !! _id = None
  /\ (forall j, j <> _id -> result.2 !! j = timesheets !! j)
  /\ code (delete user _id result.2).1 = 404%nat
  /\ forall reader employees,
       code (get reader _id employees result.2) = 404%nat.
Proof.
  intros Hrole Hfound result. subst result.
  rewrite (delete_by_staff user _id timesheets) by done.
  rewrite (bool_decide_eq_false_2 (timesheets !! _id = None)) by congruence.
  cbn [fst snd code reply].
  split; [done|]. split; [apply lookup_delete_eq|].
  split; [intros j Hj; by apply lookup_delete_ne|].
  split.
  - rewrite delete_by_staff by done.
    by rewrite bool_decide_eq_true_2 by apply lookup_delete_eq.
  - intros reader employees. unfold get.
    by rewrite allRoles_pass, lookup_delete_eq.
Qed.

Lemma X10_delete_removes_witness :
  let result := delete boss 2 Sample.timesheets in
  code result.1 = 200%nat
  /\ result.2 !! 2%nat = None
  /\ (forall j, j <> 2%nat -> result.2 !! j = Sample.timesheets !! j)
  /\ code (delete boss 2 result.2).1 = 404%nat
  /\ forall reader employees,
       code (get reader 2 employees result.2) = 404%nat.
Proof.
  apply (X10_delete_removes boss 2 Sample.timesheets
           (timesheet jan15 2 "22:00" "06:00" 0 8 0 false true submitted));
    [discriminate | vm_compute; reflexivity].
Defined.

(** X11.  The schema validators are kept by requests whose bodies hold
    fields, and not by an update whose body holds [$inc].  Stored
    timesheets that pass the validators still pass them after whatever
    creations, updates and deletions with bodies of fields; but for a
    stored timesheet and its owner, a manager or an administrator, the
    update [{"$inc": {"breakTime": n}}] that takes the break above 480
    minutes is answered 200 and stores that break, with the hours as they
    were, and the stored timesheet fails the validators. *)
Theorem X11_validators_and_inc (timesheets : gmap nat Doc) (user : User)
    (_id : nat) (d : Doc) (n : Q) :
  all_docs validate timesheets = true ->
  timesheets !! _id = Some d ->
  (role user = employee -> linkedEmployeeId user = Some (employeeId d)) ->
  (480 < breakTime d + n)%Q ->
  (forall requests : list Request,
     all_docs validate (fold_left (fun coll r => handle r coll) requests
                          timesheets) = true)
  /\ let result :=
       put_inc user _id
         {| inc_breakTime := Some n; inc_totalHoursWorked := None;
            inc_otHours := None |} timesheets in
     code result.1 = 200%nat
     /\ (exists d', result.2 = <[_id := d']> timesheets
          /\ breakTime d' = (breakTime d + n)%Q
          /\ totalHoursWorked d' = totalHoursWorked d
          /\ otHours d' = otHours d
          /\ validate d' = false)
     /\ all_docs validate result.2 = false.
Proof.
  intros Hv Hd Hown Hn. split.
  - intros requests. revert timesheets Hv Hd.
    induction requests as [|r rest IH]; intros timesheets Hv _; cbn; [done|].
    assert (forall coll, all_docs validate coll = true ->
              all_docs validate
                (fold_left (fun coll r => handle r coll) rest coll) = true)
      as Hrest.
    { clear. induction rest as [|r rest IH]; intros coll Hc; cbn; [done|].
      apply IH. by apply handle_keeps_valid. }
    apply Hrest. by apply handle_keeps_valid.
  - cbv zeta. unfold put_inc. rewrite allRoles_pass, Hd.
    assert ((if bool_decide (role user = employee)
             then linked ← or_throw (linkedEmployeeId user);
                  return_if (negb (bool_decide (employeeId d = linked)))
                    (reply 403
                       (Message "You can only update your own timesheets"))
             else inr tt) = (inr tt : Reply Doc + unit)) as ->.
    { destruct (decide (role user = employee)) as [Hr|Hr].
      - rewrite (bool_decide_eq_true_2 (role user = employee)) by done.
        rewrite (Hown Hr). cbn.
        by rewrite (bool_decide_eq_true_2 (employeeId d = employeeId d)).
      - by rewrite (bool_decide_eq_false_2 (role user = employee)). }
    cbn [mbind early_bind run fst snd code reply].
    set (d' := apply_inc _ (id user) d).
    assert (validate d' = false) as Hbad.
    { unfold validate, d', apply_inc, increment.
      cbn -[Qle_bool time_format notes_valid Qplus].
      assert (Qle_bool (breakTime d + n) 480 = false) as ->.
      { apply not_true_is_false. intros H. apply Qle_bool_iff in H.
        by apply (Qlt_not_le _ _ Hn). }
      by rewrite andb_false_r. }
    split; [done|]. split.
    + exists d'. by repeat split.
    + apply not_true_is_false. intros Hall.
      rewrite (all_docs_lookup validate _ _id d' Hall) in Hbad;
        [done | apply lookup_insert_eq].
Qed.

Lemma X11_validators_and_inc_witness :
  (forall requests : list Request,
     all_docs validate (fold_left (fun coll r => handle r coll) requests
                          Sample.timesheets) = true)
  /\ let result :=
       put_inc alice 1
         {| inc_breakTime := Some 1000%Q; inc_totalHoursWorked := None;
            inc_otHours := None |} Sample.timesheets in
     code result.1 = 200%nat
     /\ (exists d', result.2 = <[1%nat := d']> Sample.timesheets
          /\ breakTime d'
             = (breakTime (timesheet jan16 1 "08:00" "18:30" 30 10 2 true
                             false draft) + 1000)%Q
          /\ totalHoursWorked d'
             = totalHoursWorked (timesheet jan16 1 "08:00" "18:30" 30 10 2
                                   true false draft)
          /\ otHours d'
             = otHours (timesheet jan16 1 "08:00" "18:30" 30 10 2 true
                          false draft)
          /\ validate d' = false)
     /\ all_docs validate result.2 = false.
Proof.
  apply (X11_validators_and_inc Sample.timesheets alice 1
           (timesheet jan16 1 "08:00" "18:30" 30 10 2 true false draft)
           1000%Q);
    [vm_compute; reflexivity | vm_compute; reflexivity
    | intros _; reflexivity | vm_compute; reflexivity].
Defined.

(** X12.  Creation and deletion keep at most one timesheet for an employee
    and a date, and so does an update that names neither; a creation for a
    pair that is stored stores nothing and is not answered 201. *)
Theorem X12_creation_keeps_pairs (timesheets : gmap nat Doc) :
  unique_pairs timesheets = true ->
  (forall user body employees,
     unique_pairs (post user body employees timesheets).2 = true)
  /\ (forall user _id, unique_pairs (delete user _id timesheets).2 = true)
  /\ (forall user _id body,
        b_date body = None -> b_employeeId body = None ->
        unique_pairs (put user _id body timesheets).2 = true)
  /\ (forall user body employees i x,
        timesheets !! i = Some x ->
        b_employeeId body = Some (employeeId x) ->
        b_date body = Some (date x) ->
        (post user body employees timesheets).2 = timesheets
        /\ code (post user body employees timesheets).1 <> 201%nat).
Proof.
  intros Hu. split; [|split; [|split]].
  - intros. by apply post_unique_pairs.
  - intros. by apply delete_unique_pairs.
  - intros. by apply put_unique_pairs.
  - intros user body employees i x Hx He Hd.
    split; [by eapply post_conflict|].
    destruct (post_inv user body employees timesheets)
      as [[H _] | (msg & d & _ & Hdd & Hde & _ & _ & _ & Hnew)]; [done|].
    exfalso. apply (Hnew i x Hx). unfold timesheet_pair. congruence.
Qed.

Lemma X12_creation_keeps_pairs_witness :
  (forall user body employees,
     unique_pairs (post user body employees Sample.timesheets).2 = true)
  /\ (forall user _id,
        unique_pairs (delete user _id Sample.timesheets).2 = true)
  /\ (forall user _id body,
        b_date body = None -> b_employeeId body = None ->
        unique_pairs (put user _id body Sample.timesheets).2 = true)
  /\ (forall user body employees i x,
        Sample.timesheets !! i = Some x ->
        b_employeeId body = Some (employeeId x) ->
        b_date body = Some (date x) ->
        (post user body employees Sample.timesheets).2 = Sample.timesheets
        /\ code (post user body employees Sample.timesheets).1 <> 201%nat).
Proof.
  apply (X12_creation_keeps_pairs Sample.timesheets).
  vm_compute. reflexivity.
Defined.

(** X13.  The update tests the owner of the stored document only, so an
    employee can give a timesheet away: an update of the employee's own
    timesheet whose body names another employee is answered 200 and
    stores that employee, and after it every update of the timesheet by
    the same caller is answered 403. *)
Theorem X13_put_hands_over (user : User) (linked other _id : nat)
    (body : Body) (timesheets : gmap nat Doc) (d : Doc) :
  role user = employee -> linkedEmployeeId user = Some linked ->
  timesheets !! _id = Some d -> employeeId d = linked ->
  put_validators body = [] -> update_valid body = true ->
  b_employeeId body = Some other -> other <> linked ->
  let result := put user _id body timesheets in
  code result.1 = 200%nat
  /\ (exists d', result.2 !! _id = Some d' /\ employeeId d' = other)
  /\ forall body', put_validators body' = [] ->
       put user _id body' result.2
       = (reply 403 (Message "You can only update your own timesheets"),
          result.2).
Proof.
  intros Hrole Hlinked Hfound Hown Hv Hvalid Hother Hne result.
  subst result.
  rewrite (put_allowed user _id body timesheets d) by (done || congruence).
  cbn [fst snd code reply]. split; [done|].
  assert (employeeId (apply_update body (id user) d) = other) as He.
  { unfold apply_update. cbn. by rewrite Hother. }
  split; [eexists; split; [apply lookup_insert_eq | done]|].
  intros body' Hv'.
  apply (put_denied user linked _id body' _ (apply_update body (id user) d));
    try done; [apply lookup_insert_eq | congruence].
Qed.

Lemma X13_put_hands_over_witness :
  let result := put alice 1 MoreSample.give_away Sample.timesheets in
  code result.1 = 200%nat
  /\ (exists d', result.2 !! 1%nat = Some d' /\ employeeId d' = 2%nat)
  /\ forall body', put_validators body' = [] ->
       put alice 1 body' result.2
       = (reply 403 (Message "You can only update your own timesheets"),
          result.2).
Proof.
  apply (X13_put_hands_over alice 1 2 1 MoreSample.give_away
           Sample.timesheets
           (timesheet jan16 1 "08:00" "18:30" 30 10 2 true false draft));
    [reflexivity | reflexivity | vm_compute; reflexivity | reflexivity
    | vm_compute; reflexivity | vm_compute; reflexivity | reflexivity
    | discriminate].
Defined.

End MoreTimesheets.

(** ** Listings *)

Section Listings.

Import Listing.

(** X14.  A listing by an employee is of the employee's own records
    whatever [employeeId] the request names: the query of [GET /] for
    timesheets and for expenses admits only documents of the employee
    record linked to the account, and when that record does not exist the
    reply is 404. *)
Theorem X14_listing_own_only (user : User) (linked : nat) (params : Params)
    (employees : gmap nat EmployeeModel.Employee) :
  role user = employee -> linkedEmployeeId user = Some linked ->
  (is_Some (employees !! linked) ->
   exists f g,
     timesheet_query user params employees = inr f
     /\ expense_query user params employees = inr g
     /\ (forall d, matches_timesheet f d = true ->
           DailyTimesheet.employeeId d = linked)
     /\ (forall d, matches_expense g d = true ->
           DailyExpense.employeeId d = linked))
  /\ (employees !! linked = None ->
      forall timesheets expenses,
        code (timesheet_total user params employees timesheets) = 404%nat
        /\ code (expense_total user params employees expenses) = 404%nat).
Proof.
  intros Hrole Hlinked. split.
  - intros [e He].
    unfold timesheet_query, expense_query, build.
    rewrite !allRoles_pass, Hrole, Hlinked. cbn. rewrite He. cbn.
    eexists _, _. split; [reflexivity|]. split; [reflexivity|].
    split; intros d Hd.
    + unfold matches_timesheet in Hd. cbn in Hd.
      repeat (apply andb_prop in Hd as [Hd _]).
      by apply bool_decide_eq_true in Hd.
    + unfold matches_expense in Hd. cbn in Hd.
      repeat (apply andb_prop in Hd as [Hd _]).
      by apply bool_decide_eq_true in Hd.
  - intros He timesheets expenses.
    unfold timesheet_total, expense_total, timesheet_query, expense_query,
      build.
    rewrite !allRoles_pass, Hrole, Hlinked. cbn. rewrite He. done.
Qed.

Lemma X14_listing_own_only_witness :
  (is_Some (Sample.employees !! 1%nat) ->
   exists f g,
     timesheet_query alice MoreSample.of_second Sample.employees = inr f
     /\ expense_query alice MoreSample.of_second Sample.employees = inr g
     /\ (forall d, matches_timesheet f d = true ->
           DailyTimesheet.employeeId d = 1%nat)
     /\ (forall d, matches_expense g d = true ->
           DailyExpense.employeeId d = 1%nat))
  /\ (Sample.employees !! 1%nat = None ->
      forall timesheets expenses,
        code (timesheet_total alice MoreSample.of_second Sample.employees
                timesheets) = 404%nat
        /\ code (expense_total alice MoreSample.of_second Sample.employees
                   expenses) = 404%nat).
Proof.
  exact (X14_listing_own_only alice 1 MoreSample.of_second Sample.employees
           eq_refl eq_refl).
Defined.

End Listings.

(** ** More on the expense routes *)

Section MoreExpenses.

Import DailyExpense ExpenseRoutes ExpenseRequests.

(** The ownership test passes for the owner and is not made for a manager
    or an administrator. *)
Lemma own_only_pass (user : User) (x : Doc) (denied : string) :
  linkedEmployeeId user = Some (employeeId x) ->
  own_only user x denied = inr tt.
Proof.
  intros H. unfold own_only. rewrite H. cbn.
  by rewrite (bool_decide_eq_true_2 (employeeId x = employeeId x)).
Qed.




(** X16.  The deletion of a stored expense: its owner may delete it only
    while it is a draft (403 otherwise, nothing removed), a manager or an
    administrator in any status; a deletion that succeeds removes that
    document and no other. *)
Theorem X16_delete_expense (user : User) (_id : nat)
    (expenses : gmap nat Doc) (x : Doc) :
  expenses !! _id = Some x ->
  (role user = employee -> linkedEmployeeId user = Some (employeeId x)) ->
  let result := delete user _id expenses in
  (code result.1 = 200%nat <-> role user <> employee \/ status x = draft)
  /\ (code result.1 = 200%nat -> result.2 = base.delete _id expenses)
  /\ (code result.1 <> 200%nat ->
      code result.1 = 403%nat /\ result.2 = expenses).
Proof.
  intros Hfound Hown result. subst result. unfold delete.
  rewrite allRoles_pass, Hfound.
  destruct (decide (role user = employee)) as [Hr|Hr].
  - rewrite (bool_decide_eq_true_2 (role user = employee)) by done.
    rewrite own_only_pass by auto. cbn.
    destruct (decide (status x = draft)) as [Hs|Hs].
    + rewrite (bool_decide_eq_true_2 (status x = draft)) by done. cbn.
      split; [split; [by right | done] | done].
    + rewrite (bool_decide_eq_false_2 (status x = draft)) by done. cbn.
      split; [split; [discriminate | by intros [?|?]] | done].
  - rewrite (bool_decide_eq_false_2 (role user = employee)) by done. cbn.
    split; [split; [by left | done] | done].
Qed.

Lemma X16_delete_expense_witness :
  let result := delete alice 1 Sample.expenses in
  (code result.1 = 200%nat <->
     role alice <> employee
     \/ status (expense 1 800 submitted None None) = draft)
  /\ (code result.1 = 200%nat -> result.2 = base.delete 1%nat Sample.expenses)
  /\ (code result.1 <> 200%nat ->
      code result.1 = 403%nat /\ result.2 = Sample.expenses).
Proof.
  apply (X16_delete_expense alice 1 Sample.expenses
           (expense 1 800 submitted None None));
    [vm_compute; reflexivity | intros _; reflexivity].
Defined.

(** What [POST /] leaves in the collection of expenses. *)
Lemma expense_post_inv (user : User) (body : Body)
    (employees : gmap nat EmployeeModel.Employee) (expenses : gmap nat Doc) :
  (code (post user body employees expenses).1 <> 201%nat
   /\ (post user body employees expenses).2 = expenses)
  \/ exists d,
       post user body employees expenses
       = (reply 201 (MessageWith "Expense created successfully" d),
          <[new_id expenses := d]> expenses)
       /\ validate d = true
       /\ status d = draft /\ approvedBy d = None /\ approvedAt d = None
       /\ rejectionReason d = None /\ createdBy d = id user
       /\ Some (employeeId d) = b_employeeId body
       /\ (role user = employee ->
           linkedEmployeeId user = Some (employeeId d)).
Proof.
  unfold post. rewrite allRoles_pass.
  destruct (is_nil (post_validators body)); cbn -[Js.trim]; [|by left].
  destruct (b_date body) as [dt|]; cbn -[Js.trim]; [|by left].
  destruct (b_employeeId body) as [eid|]; cbn -[Js.trim]; [|by left].
  destruct (b_category body) as [cat|]; cbn -[Js.trim]; [|by left].
  destruct (b_description body) as [desc|]; cbn -[Js.trim]; [|by left].
  destruct (b_amount body) as [amt|]; cbn -[Js.trim]; [|by left].
  destruct (bool_decide (employees !! eid = None)); cbn -[Js.trim];
    [by left|].
  destruct (decide (role user = employee)) as [Hr|Hr].
  - rewrite (bool_decide_eq_true_2 (role user = employee)) by done.
    destruct (linkedEmployeeId user) as [l|] eqn:Hl; cbn -[Js.trim];
      [|by left].
    destruct (decide (eid = l)) as [->|Hne].
    + rewrite (bool_decide_eq_true_2 (l = l)) by done. cbn -[Js.trim].
      unfold save. destruct (validate _) eqn:Hv; cbn -[Js.trim]; [|by left].
      right. eexists. split; [reflexivity|]. by repeat split.
    + rewrite (bool_decide_eq_false_2 (eid = l)) by done. by left.
  - rewrite (bool_decide_eq_false_2 (role user = employee)) by done.
    cbn -[Js.trim].
    unfold save. destruct (validate _) eqn:Hv; cbn -[Js.trim]; [|by left].
    right. eexists. split; [reflexivity|]. by repeat split.
Qed.

(** X17.  A created expense is a draft without approval, whatever status
    or approval the body names: when [POST /] is answered 201, the
    document of the reply is the one stored under a new [_id], it passes
    the schema validators, its status is draft, it has no approver, time
    of approval or reason of rejection, and its creator is the caller. *)
Theorem X17_post_expense_is_draft (user : User) (body : Body)
    (employees : gmap nat EmployeeModel.Employee) (expenses : gmap nat Doc) :
  code (post user body employees expenses).1 = 201%nat ->
  exists d,
    post user body employees expenses
    = (reply 201 (MessageWith "Expense created successfully" d),
       <[new_id expenses := d]> expenses)
    /\ expenses !! new_id expenses = None
    /\ validate d = true
    /\ status d = draft /\ approvedBy d = None /\ approvedAt d = None
    /\ rejectionReason d = None /\ createdBy d = id user.
Proof.
  intros Hcode.
  destruct (expense_post_inv user body employees expenses)
    as [[H _] | (d & Hd & Hv & Hs & Hby & Hat & Hr & Hc & _)]; [done|].
  exists d. split; [done|]. split; [apply new_id_fresh|]. by repeat split.
Qed.

Lemma X17_post_expense_is_draft_witness :
  exists d,
    post alice MoreSample.new_expense Sample.employees Sample.expenses
    = (reply 201 (MessageWith "Expense created successfully" d),
       <[new_id Sample.expenses := d]> Sample.expenses)
    /\ Sample.expenses !! new_id Sample.expenses = None
    /\ validate d = true
    /\ status d = draft /\ approvedBy d = None /\ approvedAt d = None
    /\ rejectionReason d = None /\ createdBy d = id alice.
Proof.
  apply (X17_post_expense_is_draft alice MoreSample.new_expense
           Sample.employees Sample.expenses).
  vm_compute. reflexivity.
Defined.

End MoreExpenses.

(** ** The statuses of an expense *)

Section ExpenseWorkflow.

Import DailyExpense ExpenseRoutes ExpenseRequests MoreChecks.

Lemma same_claim_refl (x : Doc) : same_claim x x.
Proof. by repeat split. Qed.

(** What a status request does to the collection: nothing, or one stored
    expense that is not reimbursed is replaced by one that is not
    reimbursed, claims the same, and is valid if the stored one was. *)
Lemma status_request_inv (r : Request) (expenses : gmap nat Doc) :
  is_status_request r = true ->
  handle r expenses = expenses
  \/ exists i x y,
       expenses !! i = Some x /\ handle r expenses = <[i := y]> expenses
       /\ same_claim x y
       /\ status x <> reimbursed /\ status y <> reimbursed
       /\ (validate x = true -> validate y = true).
Proof.
  destruct r as [| |user i|env user i|user i body|]; try discriminate;
    intros _; cbn [handle].
  - unfold submit. destruct (allRoles user); cbn; [by left|].
    destruct (expenses !! i) as [x|] eqn:Hx; cbn; [|by left].
    destruct (if bool_decide (role user = employee) then _ else _);
      cbn; [by left|].
    destruct (bool_decide (status x = draft)) eqn:Hs; cbn; [|by left].
    apply bool_decide_eq_true in Hs.
    unfold save. destruct (validate _) eqn:Hvy; cbn; [|by left].
    right. eexists i, x, _. split; [done|]. split; [reflexivity|].
    split; [by repeat split|]. split; [congruence|]. split; [done|].
    intros _. exact Hvy.
  - unfold approve. destruct (adminOrManager user); cbn; [by left|].
    destruct (expenses !! i) as [x|] eqn:Hx; cbn; [|by left].
    destruct (bool_decide (status x = submitted)
              || bool_decide (status x = rejected)) eqn:Hs; cbn; [|by left].
    unfold save. destruct (validate _) eqn:Hvy; cbn; [|by left].
    right. eexists i, x, _. split; [done|]. split; [reflexivity|].
    split; [by repeat split|]. split; [|split; [done|]].
    + intros Hr. rewrite Hr in Hs. discriminate.
    + intros _. exact Hvy.
  - unfold reject.
    destruct (adminOrManager user); cbn -[Js.trim max_length]; [by left|].
    unfold reject_validators.
    destruct (max_length 500 (b_rejectionReason body)) eqn:Hlen;
      cbn -[Js.trim max_length]; [|by left].
    destruct (expenses !! i) as [x|] eqn:Hx; cbn -[Js.trim max_length];
      [|by left].
    destruct (bool_decide (status x = submitted)
              || bool_decide (status x = approved)) eqn:Hs;
      cbn -[Js.trim max_length validate]; [|by left].
    unfold save. destruct (validate _) eqn:Hvy; cbn -[Js.trim]; [|by left].
    right. eexists i, x, _. split; [done|]. split; [reflexivity|].
    split; [by repeat split|]. split; [|split; [done|]].
    + intros Hr. rewrite Hr in Hs. discriminate.
    + intros _. exact Hvy.
Qed.

(** X18.  The three status requests, in any number and order and by any
    callers, add and remove no expense, leave in every expense the
    employee, the date, the category, the description, the amount, the
    currency, the receipt, the notes and the creator as they are, make no
    expense reimbursed and leave a reimbursed expense untouched. *)
Theorem X18_status_requests (requests : list Request)
    (expenses : gmap nat Doc) :
  forallb is_status_request requests = true ->
  let after := fold_left (fun coll r => handle r coll) requests expenses in
  (forall i, expenses !! i = None -> after !! i = None)
  /\ (forall i x, expenses !! i = Some x ->
        exists y, after !! i = Some y /\ same_claim x y
          /\ (status x = reimbursed \/ status y = reimbursed -> y = x)).
Proof.
  revert expenses.
  induction requests as [|r rest IH]; intros expenses Hall; cbn [fold_left].
  - split; [done|]. intros i x Hx. exists x.
    split; [done|]. split; [apply same_claim_refl | done].
  - cbn in Hall. apply andb_prop in Hall as [Hr Hrest].
    destruct (IH (handle r expenses) Hrest) as [Hnone Hsome].
    destruct (status_request_inv r expenses Hr)
      as [Heq | (j & x0 & y0 & Hj & Heq & Hsame & Hx0 & Hy0 & _)];
      rewrite Heq in *; [by split|].
    split.
    + intros i Hi. apply Hnone. rewrite lookup_insert_ne; [done|].
      intros <-. congruence.
    + intros i x Hx. destruct (decide (j = i)) as [->|Hji].
      * assert (x = x0) as -> by congruence.
        destruct (Hsome i y0) as (y & Hy & Hsame' & Hre);
          [apply lookup_insert_eq|].
        exists y. split; [done|]. split.
        { destruct Hsame as (?&?&?&?&?&?&?&?&?),
            Hsame' as (?&?&?&?&?&?&?&?&?).
          repeat split; congruence. }
        intros [H|H]; [done|]. rewrite (Hre (or_intror H)) in H. done.
      * apply Hsome. by rewrite lookup_insert_ne.
Qed.

Lemma X18_status_requests_witness :
  let after :=
    fold_left (fun coll r => handle r coll) MoreSample.workflow
      Sample.expenses in
  (forall i, Sample.expenses !! i = None -> after !! i = None)
  /\ (forall i x, Sample.expenses !! i = Some x ->
        exists y, after !! i = Some y /\ same_claim x y
          /\ (status x = reimbursed \/ status y = reimbursed -> y = x)).
Proof.
  apply (X18_status_requests MoreSample.workflow Sample.expenses).
  reflexivity.
Defined.

(** X19.  An approval followed by a rejection: for a stored expense that
    is submitted or rejected and passes the validators of the schema,
    managers or administrators as callers and a reason of at most 500
    characters, both requests succeed, and the expense is then rejected
    with the trimmed reason while it still names the approver and the
    time of the approval. *)
Theorem X19_approve_then_reject (env : Env) (approver rejecter : User)
    (_id : nat) (body : Body) (expenses : gmap nat Doc) (expense : Doc) :
  role approver <> employee -> role rejecter <> employee ->
  expenses !! _id = Some expense ->
  status expense = submitted \/ status expense = rejected ->
  validate expense = true ->
  max_length 500 (b_rejectionReason body) = true ->
  let approval := approve env approver _id expenses in
  let rejection := reject rejecter _id body approval.2 in
  code approval.1 = 200%nat /\ code rejection.1 = 200%nat
  /\ exists d,
       rejection.2 = <[_id := d]> expenses
       /\ status d = rejected
       /\ rejectionReason d
          = Some (Js.trim (default ""%string (b_rejectionReason body)))
       /\ approvedBy d = Some (id approver)
       /\ approvedAt d = Some (now env)
       /\ lastModifiedBy d = Some (id rejecter)
       /\ same_claim expense d.
Proof.
  intros Ha Hr Hfound Hs Hvalid Hreason approval rejection.
  subst approval rejection. unfold approve, reject.
  rewrite !adminOrManager_pass by done.
  unfold reject_validators. rewrite Hreason, Hfound.
  pose proof (reason_after_trim body Hreason) as Htrim.
  assert (bool_decide (status expense = submitted)
          || bool_decide (status expense = rejected) = true) as ->.
  { destruct Hs as [-> | ->]; done. }
  unfold save, validate in *.
  pose proof Hvalid as Hfive. apply andb_prop in Hfive as [Hfive _].
  cbn -[Js.trim max_length isIn description_valid Qle_bool].
  rewrite Hvalid.
  cbn -[Js.trim max_length isIn description_valid Qle_bool].
  rewrite lookup_insert_eq.
  cbn -[Js.trim max_length isIn description_valid Qle_bool].
  rewrite Hfive, Htrim. cbn -[Js.trim].
  split; [done|]. split; [done|].
  eexists. split; [apply insert_insert_eq|]. by repeat split.
Qed.

Lemma X19_approve_then_reject_witness :
  let approval := approve Sample.env boss 1 Sample.expenses in
  let rejection := reject root 1 MoreSample.no_receipt approval.2 in
  code approval.1 = 200%nat /\ code rejection.1 = 200%nat
  /\ exists d,
       rejection.2 = <[1%nat := d]> Sample.expenses
       /\ status d = rejected
       /\ rejectionReason d
          = Some (Js.trim (default ""%string
                            (b_rejectionReason MoreSample.no_receipt)))
       /\ approvedBy d = Some (id boss)
       /\ approvedAt d = Some (now Sample.env)
       /\ lastModifiedBy d = Some (id root)
       /\ same_claim (expense 1 800 submitted None None) d.
Proof.
  apply (X19_approve_then_reject Sample.env boss root 1 MoreSample.no_receipt
           Sample.expenses (expense 1 800 submitted None None));
    [discriminate | discriminate | vm_compute; reflexivity
    | left; reflexivity | reflexivity | reflexivity].
Defined.

(** What [PUT /:id] does to the collection of expenses. *)
Lemma expense_put_inv (user : User) (_id : nat) (body : Body)
    (expenses : gmap nat Doc) :
  (put user _id body expenses).2 = expenses
  \/ exists x,
       expenses !! _id = Some x /\ update_valid body = true
       /\ (put user _id body expenses).2
          = <[_id := apply_update body (id user) x]> expenses.
Proof.
  unfold put. destruct (allRoles user); cbn; [by left|].
  destruct (is_nil (put_validators body)); cbn; [|by left].
  destruct (expenses !! _id) as [x|] eqn:Hx; cbn; [|by left].
  destruct (if bool_decide (role user = employee) then _ else _);
    cbn; [by left|].
  unfold findByIdAndUpdate. rewrite Hx.
  destruct (update_valid body) eqn:Hv; cbn; [|by left].
  right. by exists x.
Qed.

(** The update validators admit only values the schema validators admit. *)
Lemma expense_update_valid (body : Body) (modifier : nat) (d : Doc) :
  validate d = true -> update_valid body = true ->
  validate (apply_update body modifier d) = true.
Proof.
  unfold validate, update_valid. intros Hd Hb.
  apply andb_prop in Hd as [Hd Hd6]. apply andb_prop in Hd as [Hd Hd5].
  apply andb_prop in Hd as [Hd Hd4]. apply andb_prop in Hd as [Hd Hd3].
  apply andb_prop in Hd as [Hd1 Hd2].
  apply andb_prop in Hb as [Hb _]. apply andb_prop in Hb as [Hb Hb6].
  apply andb_prop in Hb as [Hb Hb5]. apply andb_prop in Hb as [Hb Hb4].
  apply andb_prop in Hb as [Hb Hb3]. apply andb_prop in Hb as [Hb1 Hb2].
  cbn -[Js.trim isIn description_valid max_length].
  apply andb_true_intro; split; [|by destruct (b_rejectionReason body)].
  apply andb_true_intro; split; [|by destruct (b_notes body)].
  apply andb_true_intro; split; [|by destruct (b_currency body)].
  apply andb_true_intro; split; [|by destruct (b_amount body)].
  apply andb_true_intro; split; [by destruct (b_category body)|].
  by destruct (b_description body).
Qed.

(** Every request with a body of fields leaves a collection of valid
    expenses valid. *)
Lemma expense_handle_keeps_valid (r : Request) (expenses : gmap nat Doc) :
  all_docs validate expenses = true ->
  all_docs validate (handle r expenses) = true.
Proof.
  intros Hall. destruct (is_status_request r) eqn:Hst.
  - destruct (status_request_inv r expenses Hst)
      as [-> | (j & x & y & Hj & -> & _ & _ & _ & Hv)]; [done|].
    apply all_docs_insert; [done|]. apply Hv.
    by apply (all_docs_lookup validate expenses j).
  - destruct r as [user body employees|user i body| | | |user i];
      try discriminate; cbn [handle].
    + destruct (expense_post_inv user body employees expenses)
        as [[_ ->] | (d & -> & Hv & _)]; [done|].
      by apply all_docs_insert.
    + destruct (expense_put_inv user i body expenses)
        as [-> | (x & Hx & Hv & ->)]; [done|].
      apply all_docs_insert; [done|]. apply expense_update_valid; [|done].
      by apply (all_docs_lookup validate expenses i).
    + unfold delete. destruct (allRoles user); cbn; [done|].
      destruct (expenses !! i) as [x|] eqn:Hx; cbn; [|done].
      destruct (if bool_decide (role user = employee) then _ else _);
        cbn; [done|].
      by apply all_docs_delete.
Qed.

(** X20.  The validators of the schema are kept by requests whose bodies
    hold fields, and not by an update whose body holds [$inc].  Stored
    expenses that pass the validators still pass them after whatever
    creations, updates, submissions, approvals, rejections and deletions
    with bodies of fields; but for a stored expense and a manager, an
    administrator or its owner while it is a draft or rejected, the
    update [{"$inc": {"amount": n}}] that takes the amount below 0 is
    answered 200 and stores that amount, and the stored expense fails the
    validators. *)
Theorem X20_validators_and_inc (expenses : gmap nat Doc) (user : User)
    (_id : nat) (x : Doc) (n : Q) :
  all_docs validate expenses = true ->
  expenses !! _id = Some x ->
  (role user = employee ->
   linkedEmployeeId user = Some (employeeId x)
   /\ (status x = draft \/ status x = rejected)) ->
  (amount x + n < 0)%Q ->
  (forall requests : list Request,
     all_docs validate
       (fold_left (fun coll r => handle r coll) requests expenses) = true)
  /\ let result := put_inc user _id {| inc_amount := n |} expenses in
     code result.1 = 200%nat
     /\ (exists x', result.2 = <[_id := x']> expenses
          /\ amount x' = (amount x + n)%Q
          /\ status x' = status x /\ same_claim_but_amount x x'
          /\ validate x' = false)
     /\ all_docs validate result.2 = false.
Proof.
  intros Hv Hx Hown Hn. split.
  - intros requests. clear Hx. revert expenses Hv.
    induction requests as [|r rest IH]; intros expenses Hv; cbn; [done|].
    apply IH. by apply expense_handle_keeps_valid.
  - cbv zeta. unfold put_inc. rewrite allRoles_pass, Hx.
    assert ((if bool_decide (role user = employee)
             then own_only user x "You can only update your own expenses";;
                  return_if
                    (negb (bool_decide (status x = draft)
                           || bool_decide (status x = rejected)))
                    (reply 403 (Message
                       "You can only update expenses that are in draft or rejected status"))
             else inr tt) = (inr tt : Reply Doc + unit)) as ->.
    { destruct (decide (role user = employee)) as [Hr|Hr].
      - rewrite (bool_decide_eq_true_2 (role user = employee)) by done.
        destruct (Hown Hr) as [Hl Hs].
        rewrite own_only_pass by done. cbn.
        by destruct Hs as [-> | ->].
      - by rewrite (bool_decide_eq_false_2 (role user = employee)). }
    cbn [mbind early_bind run fst snd code reply].
    set (x' := apply_inc _ (id user) x).
    assert (validate x' = false) as Hbad.
    { unfold validate, x', apply_inc.
      cbn -[Qle_bool isIn description_valid max_length Qplus].
      assert (Qle_bool 0 (amount x + n) = false) as ->.
      { apply not_true_is_false. intros H. apply Qle_bool_iff in H.
        by apply (Qlt_not_le _ _ Hn). }
      by rewrite andb_false_r. }
    split; [done|]. split.
    + exists x'. by repeat split.
    + apply not_true_is_false. intros Hall.
      rewrite (all_docs_lookup validate _ _id x' Hall) in Hbad;
        [done | apply lookup_insert_eq].
Qed.

Lemma X20_validators_and_inc_witness :
  (forall requests : list Request,
     all_docs validate
       (fold_left (fun coll r => handle r coll) requests Sample.expenses)
     = true)
  /\ let result :=
       put_inc alice 0 {| inc_amount := (-5000)%Q |} Sample.expenses in
     code result.1 = 200%nat
     /\ (exists x', result.2 = <[0%nat := x']> Sample.expenses
          /\ amount x'
             = (amount (expense 1 1200 draft None None) + (-5000))%Q
          /\ status x' = status (expense 1 1200 draft None None)
          /\ same_claim_but_amount (expense 1 1200 draft None None) x'
          /\ validate x' = false)
     /\ all_docs validate result.2 = false.
Proof.
  apply (X20_validators_and_inc Sample.expenses alice 0
           (expense 1 1200 draft None None) (-5000)%Q);
    [vm_compute; reflexivity | vm_compute; reflexivity
    | intros _; split; [reflexivity | left; reflexivity]
    | vm_compute; reflexivity].
Defined.

End ExpenseWorkflow.

(** ** More on the reports *)

Section MoreReports.

Import EmployeeModel MonthlySummary ReportRoutes ReportReads.
Local Open Scope Z_scope.

Lemma same_key_spec (eid : nat) (y m : Z) (d : Doc) :
  same_key eid y m d = true <-> employeeId d = eid /\ year d = y /\ month d = m.
Proof.
  unfold same_key. rewrite !andb_true_iff, bool_decide_eq_true, !Z.eqb_eq.
  tauto.
Qed.

(** A round of the loop writes one document, of the employee and the
    month, over none but a document of the employee and the month. *)
Lemma generate_for_writes env user y m timesheets (e : nat * Employee)
    (summaries summaries' : gmap nat Doc) (d : Doc) :
  generate_for env user y m timesheets e summaries = Some (d, summaries') ->
  same_key e.1 y m d = true /\ generatedBy d = id user
  /\ exists j, summaries' = <[j := d]> summaries
       /\ forall x, summaries !! j = Some x -> same_key e.1 y m x = true.
Proof.
  unfold generate_for, save. intros H.
  destruct (findOne _ summaries) as [[j old]|] eqn:Hfind.
  - apply findOne_Some in Hfind as [Hj Hk].
    destruct (validate _); [|discriminate]. cbn in H. injection H as <- <-.
    split; [exact Hk|]. split; [done|].
    exists j. split; [done|]. intros x Hx. congruence.
  - destruct (validate _); [|discriminate]. cbn in H. injection H as <- <-.
    split; [by apply same_key_spec|]. split; [done|].
    exists (new_id summaries). split; [done|]. intros x Hx.
    rewrite new_id_fresh in Hx. discriminate.
Qed.

Lemma generate_loop_writes env user y m timesheets
    (employees : list (nat * Employee)) (generated : list Doc)
    (summaries : gmap nat Doc) :
  let result :=
    generate_loop env user y m timesheets employees generated summaries in
  (forall i x, summaries !! i = Some x ->
     (forall e, In e employees -> same_key e.1 y m x = false) ->
     result.2 !! i = Some x)
  /\ (forall i z, result.2 !! i = Some z ->
        summaries !! i = Some z
        \/ exists e, In e employees /\ same_key e.1 y m z = true)
  /\ (forall out, result.1 = Some out ->
        exists new, out = generated ++ new
          /\ map employeeId new = map fst employees
          /\ Forall (fun d => year d = y /\ month d = m
                             /\ generatedBy d = id user) new).
Proof.
  revert generated summaries.
  induction employees as [|e rest IH]; intros generated summaries;
    cbn [generate_loop].
  { cbn. split; [done|]. split; [by left|].
    intros out [= <-]. exists []. by rewrite app_nil_r. }
  destruct (generate_for _ _ _ _ _ e summaries) as [[d S']|] eqn:Hgen;
    cycle 1.
  { cbn. split; [done|]. split; [by left | done]. }
  apply generate_for_writes in Hgen as (Hkd & Hby & j & -> & Hj).
  destruct (IH (generated ++ [d]) (<[j := d]> summaries))
    as (Hkeep & Hfrom & Hout).
  cbv zeta. split; [|split].
  - intros i x Hx Hno. apply Hkeep.
    + rewrite lookup_insert_ne; [done|]. intros <-.
      specialize (Hj x Hx). rewrite (Hno e) in Hj; [done | by left].
    + intros e' He'. apply Hno. by right.
  - intros i z Hz. destruct (Hfrom i z Hz) as [Hi | (e' & He' & Hk)].
    + destruct (decide (j = i)) as [->|Hji].
      * rewrite lookup_insert_eq in Hi. injection Hi as <-.
        right. exists e. split; [by left | done].
      * rewrite lookup_insert_ne in Hi by done. by left.
    + right. exists e'. split; [by right | done].
  - intros out Hsome. destruct (Hout out Hsome) as (new & -> & Hids & Hall).
    exists (d :: new). rewrite <- app_assoc. split; [done|].
    apply same_key_spec in Hkd as (Hid & Hy & Hm).
    split; [cbn; by rewrite Hid, Hids|]. by constructor.
Qed.

(** What a generation writes. *)
Lemma generate_scope (env : Env) (user : User) (yearNum monthNum : Z)
    (employees : gmap nat Employee)
    (timesheets : gmap nat DailyTimesheet.Doc) (summaries : gmap nat Doc) :
  let after :=
    (generate env user yearNum monthNum employees timesheets summaries).2 in
  (forall i x, summaries !! i = Some x ->
     year x <> yearNum \/ month x <> monthNum
     \/ (forall e, employees !! employeeId x = Some e ->
           EmployeeModel.status e <> active) ->
     after !! i = Some x)
  /\ (forall i z, after !! i = Some z ->
        summaries !! i = Some z
        \/ (year z = yearNum /\ month z = monthNum
            /\ exists e, employees !! employeeId z = Some e
                 /\ EmployeeModel.status e = active)).
Proof.
  cbv zeta. unfold generate.
  destruct (adminOrManager user); [cbn; by split; [|left]|].
  destruct (_ || _); [cbn; by split; [|left]|].
  destruct (_ || _); [cbn; by split; [|left]|].
  fold (active_employees employees).
  pose proof (generate_loop_writes env user yearNum monthNum timesheets
                (active_employees employees) [] summaries)
    as (Hkeep & Hfrom & _).
  cbv zeta in Hkeep, Hfrom.
  assert ((let '(o, S') :=
             generate_loop env user yearNum monthNum timesheets
               (active_employees employees) [] summaries in
           match o with
           | Some generatedSummaries =>
               (reply 200
                  (MessageWith
                     ("Monthly summaries generated for "
                      ++ pretty (length generatedSummaries) ++ " employees")
                     generatedSummaries), S')
           | None => (server_error, S')
           end).2
          = (generate_loop env user yearNum monthNum timesheets
               (active_employees employees) [] summaries).2) as Heq.
  { by destruct (generate_loop _ _ _ _ _ _ _ _) as [[g|] S']. }
  rewrite Heq. split.
  - intros i x Hx Hother. apply Hkeep; [done|].
    intros [eid e] He. apply active_employees_In in He as [He Hact].
    apply not_true_is_false. intros Hk.
    apply same_key_spec in Hk as (Hid & Hy & Hm). cbn in Hid.
    destruct Hother as [H | [H | H]]; [done | done |].
    apply (H e); [by rewrite Hid | done].
  - intros i z Hz. destruct (Hfrom i z Hz) as [H | ([eid e] & He & Hk)];
      [by left|].
    right. apply active_employees_In in He as [He Hact].
    apply same_key_spec in Hk as (Hid & Hy & Hm). cbn in Hid.
    split; [done|]. split; [done|]. exists e. by rewrite Hid.
Qed.

(** X21.  A generation, whether it succeeds or fails, changes and creates
    only summaries of the month it is asked for and of employees that are
    active: every other stored summary is as it was, and every summary
    stored afterwards was stored as it is before or is of that month and
    of an active employee. *)
Theorem X21_generate_scope (env : Env) (user : User) (yearNum monthNum : Z)
    (employees : gmap nat Employee)
    (timesheets : gmap nat DailyTimesheet.Doc) (summaries : gmap nat Doc) :
  let after :=
    (generate env user yearNum monthNum employees timesheets summaries).2 in
  (forall i x, summaries !! i = Some x ->
     year x <> yearNum \/ month x <> monthNum
     \/ (forall e, employees !! employeeId x = Some e ->
           EmployeeModel.status e <> active) ->
     after !! i = Some x)
  /\ (forall i z, after !! i = Some z ->
        summaries !! i = Some z
        \/ (year z = yearNum /\ month z = monthNum
            /\ exists e, employees !! employeeId z = Some e
                 /\ EmployeeModel.status e = active)).
Proof. apply generate_scope. Qed.

(** The soft delete by an administrator of a record that passes the
    validators of the schema. *)
Lemma delete_by_admin (user : User) (eid : nat)
    (employees : gmap nat EmployeeRoutes.Stored) :
  role user = admin ->
  from_option EmployeeRoutes.validate true (employees !! eid) = true ->
  EmployeeRoutes.delete user eid employees
  = match employees !! eid with
    | Some s =>
        (reply 200 (Message "Employee deactivated successfully"),
         <[eid :=
             {| EmployeeRoutes.fields :=
                  {| EmployeeModel.employeeId :=
                       EmployeeModel.employeeId (EmployeeRoutes.fields s);
                     name := name (EmployeeRoutes.fields s);
                     position := position (EmployeeRoutes.fields s);
                     payRate := payRate (EmployeeRoutes.fields s);
                     otRate := otRate (EmployeeRoutes.fields s);
                     vacationPayRate :=
                       vacationPayRate (EmployeeRoutes.fields s);
                     EmployeeModel.status := inactive |};
                EmployeeRoutes.dateOfEmployment :=
                  EmployeeRoutes.dateOfEmployment s;
                EmployeeRoutes.breakDuration :=
                  EmployeeRoutes.breakDuration s |}]> employees)
    | None => (reply 404 (Message "Employee not found"), employees)
    end.
Proof.
  intros Hrole Hvalid.
  unfold EmployeeRoutes.delete, EmployeeRoutes.adminOnly, roleCheck.
  rewrite Hrole. destruct (employees !! eid) as [s|]; [|done].
  cbn in Hvalid. cbn. unfold EmployeeRoutes.save.
  match goal with
  | |- context [EmployeeRoutes.validate ?d] =>
      change (EmployeeRoutes.validate d) with (EmployeeRoutes.validate s)
  end.
  by rewrite Hvalid.
Qed.

(** X22.  The soft delete and the generation together: after an
    administrator has deleted an employee whose stored record passes the
    validators of the schema, which leaves the record with status
    inactive, no generation changes a summary of that employee or creates
    one. *)
Theorem X22_deleted_employee_not_generated (env : Env) (admin_ user : User)
    (eid : nat) (yearNum monthNum : Z)
    (employees : gmap nat EmployeeRoutes.Stored)
    (timesheets : gmap nat DailyTimesheet.Doc) (summaries : gmap nat Doc) :
  role admin_ = admin ->
  from_option EmployeeRoutes.validate true (employees !! eid) = true ->
  let deletion := EmployeeRoutes.delete admin_ eid employees in
  let after :=
    (generate env user yearNum monthNum (EmployeeRoutes.records deletion.2)
       timesheets summaries).2 in
  (is_Some (employees !! eid) -> code deletion.1 = 200%nat)
  /\ (forall i x, summaries !! i = Some x -> employeeId x = eid ->
        after !! i = Some x)
  /\ (forall i z, after !! i = Some z -> employeeId z = eid ->
        summaries !! i = Some z).
Proof.
  intros Hrole Hvalid deletion after.
  assert (forall e, EmployeeRoutes.records deletion.2 !! eid = Some e ->
            EmployeeModel.status e <> active) as Hinactive.
  { subst deletion. rewrite delete_by_admin by done.
    unfold EmployeeRoutes.records.
    destruct (employees !! eid) as [s|] eqn:Hs; cbn [snd]; intros e He;
      rewrite lookup_fmap in He.
    - rewrite lookup_insert_eq in He. cbn in He. by injection He as <-.
    - rewrite Hs in He. discriminate. }
  destruct (generate_scope env user yearNum monthNum
              (EmployeeRoutes.records deletion.2) timesheets summaries)
    as [Hkeep Hfrom].
  split; [|split].
  - intros [s Hs]. subst deletion.
    by rewrite delete_by_admin, Hs.
  - intros i x Hx Hid. apply Hkeep; [done|]. right. right.
    rewrite Hid. exact Hinactive.
  - intros i z Hz Hid.
    destruct (Hfrom i z Hz) as [H | (_ & _ & e & He & Hact)]; [done|].
    rewrite Hid in He. by destruct (Hinactive e He).
Qed.

Lemma X22_deleted_employee_not_generated_witness :
  let deletion := EmployeeRoutes.delete root 1 MoreSample.staff in
  let after :=
    (generate Sample.env boss 2024 1 (EmployeeRoutes.records deletion.2)
       Sample.timesheets Sample.summaries).2 in
  (is_Some (MoreSample.staff !! 1%nat) -> code deletion.1 = 200%nat)
  /\ (forall i x, Sample.summaries !! i = Some x -> employeeId x = 1%nat ->
        after !! i = Some x)
  /\ (forall i z, after !! i = Some z -> employeeId z = 1%nat ->
        Sample.summaries !! i = Some z).
Proof.
  apply (X22_deleted_employee_not_generated Sample.env root boss 1 2024 1
           MoreSample.staff Sample.timesheets Sample.summaries);
    [reflexivity | vm_compute; reflexivity].
Defined.

(** X23.  The reply of a generation that succeeds: it lists one summary
    for each active employee, in the order in which the employees were
    found, each of the year and the month asked for and with the caller as
    [generatedBy], and its message counts the active employees. *)
Theorem X23_generate_reply (env : Env) (user : User) (yearNum monthNum : Z)
    (employees : gmap nat Employee)
    (timesheets : gmap nat DailyTimesheet.Doc) (summaries : gmap nat Doc) :
  code (generate env user yearNum monthNum employees timesheets summaries).1
  = 200%nat ->
  exists generated,
    (generate env user yearNum monthNum employees timesheets summaries).1
    = reply 200
        (MessageWith
           ("Monthly summaries generated for "
            ++ pretty (length (active_employees employees)) ++ " employees")
           generated)
    /\ map employeeId generated = map fst (active_employees employees)
    /\ Forall (fun d => year d = yearNum /\ month d = monthNum
                       /\ generatedBy d = id user) generated.
Proof.
  unfold generate.
  destruct (adminOrManager user) as [r|] eqn:Hr.
  { unfold adminOrManager, roleCheck in Hr.
    destruct (includes _ _); [discriminate|]. by injection Hr as <-. }
  destruct (_ || _); [discriminate|]. destruct (_ || _); [discriminate|].
  fold (active_employees employees).
  pose proof (generate_loop_writes env user yearNum monthNum timesheets
                (active_employees employees) [] summaries) as (_ & _ & Hout).
  cbv zeta in Hout.
  destruct (generate_loop _ _ _ _ _ _ _ _) as [[generated|] S'];
    [|discriminate].
  intros _. destruct (Hout generated eq_refl) as (new & -> & Hids & Hall).
  exists new. cbn [fst app]. split; [|done].
  do 3 f_equal. rewrite <- (length_map employeeId), Hids, length_map. done.
Qed.

Lemma X23_generate_reply_witness :
  exists generated,
    (generate Sample.env boss 2024 1 Sample.employees Sample.timesheets
       Sample.summaries).1
    = reply 200
        (MessageWith
           ("Monthly summaries generated for "
            ++ pretty (length (active_employees Sample.employees))
            ++ " employees")
           generated)
    /\ map employeeId generated
       = map fst (active_employees Sample.employees)
    /\ Forall (fun d => year d = 2024 /\ month d = 1
                       /\ generatedBy d = id boss) generated.
Proof.
  apply (X23_generate_reply Sample.env boss 2024 1 Sample.employees
           Sample.timesheets Sample.summaries).
  vm_compute. reflexivity.
Defined.

(** X24.  The summary of a month is read with the ownership test first:
    an employee asking for another employee's summary is answered 403
    whether or not it exists; the employee's own summary, and any summary
    for a manager or an administrator, is answered 200 with a stored
    summary of the employee, year and month, or 404 when none is
    stored. *)
Theorem X24_get_monthly (user : User) (eid : nat) (yearNum monthNum : Z)
    (summaries : gmap nat Doc) :
  (role user = employee -> is_Some (linkedEmployeeId user)) ->
  let result := get_monthly user eid yearNum monthNum summaries in
  (role user = employee -> linkedEmployeeId user <> Some eid ->
   result = reply 403 (Message "Access denied"))
  /\ (role user <> employee \/ linkedEmployeeId user = Some eid ->
      (exists i d, summaries !! i = Some d
         /\ summary_key d = (eid, yearNum, monthNum)
         /\ result = reply 200 (Document d))
      \/ ((forall i d, summaries !! i = Some d ->
             summary_key d <> (eid, yearNum, monthNum))
          /\ result = reply 404 (Message "Monthly summary not found"))).
Proof.
  intros Hlinked result. subst result. unfold get_monthly.
  rewrite allRoles_pass. split.
  - intros Hrole Hne. destruct (Hlinked Hrole) as [l Hl].
    rewrite Hrole, Hl. cbn.
    rewrite (bool_decide_eq_false_2 (eid = l)) by congruence. done.
  - intros Hok.
    assert ((if bool_decide (role user = employee)
             then linked ← or_throw (linkedEmployeeId user);
                  return_if (negb (bool_decide (eid = linked)))
                    (reply 403 (Message "Access denied"))
             else inr tt) = (inr tt : Reply Doc + unit)) as ->.
    { destruct (decide (role user = employee)) as [Hr|Hr].
      - destruct Hok as [?|Hl]; [done|].
        rewrite (bool_decide_eq_true_2 (role user = employee)), Hl by done.
        cbn. by rewrite (bool_decide_eq_true_2 (eid = eid)).
      - by rewrite (bool_decide_eq_false_2 (role user = employee)). }
    cbn.
    destruct (findOne _ summaries) as [[i d]|] eqn:Hfind; cbn.
    + apply findOne_Some in Hfind as [Hi Hk].
      apply same_key_spec in Hk as (Hid & Hy & Hm).
      left. exists i, d. split; [done|]. split; [|done].
      unfold summary_key. congruence.
    + right. split; [|done]. intros i d Hi Hk.
      pose proof (findOne_None _ _ Hfind i d Hi) as Hf.
      injection Hk as Hid Hy Hm.
      assert (same_key eid yearNum monthNum d = true) as Ht
        by by apply same_key_spec.
      congruence.
Qed.

Lemma X24_get_monthly_witness :
  let result := get_monthly bob 1 2024 1 Sample.summaries in
  (role bob = employee -> linkedEmployeeId bob <> Some 1%nat ->
   result = reply 403 (Message "Access denied"))
  /\ (role bob <> employee \/ linkedEmployeeId bob = Some 1%nat ->
      (exists i d, Sample.summaries !! i = Some d
         /\ summary_key d = (1%nat, 2024, 1)
         /\ result = reply 200 (Document d))
      \/ ((forall i d, Sample.summaries !! i = Some d ->
             summary_key d <> (1%nat, 2024, 1))
          /\ result = reply 404 (Message "Monthly summary not found"))).
Proof.
  apply (X24_get_monthly bob 1 2024 1 Sample.summaries).
  intros _. eexists. reflexivity.
Defined.

(** X25.  Finalization looks at nothing but the finalized status of a
    summary it can save: for a manager or an administrator, a missing
    summary is answered 404, and a stored summary that is not finalized,
    be it a draft or paid, and passes the validators of the schema is
    finalized with 200: its status and [finalizedAt] are set and nothing
    else changes, so that a paid summary is finalized again and keeps its
    [paidAt]. *)
Theorem X25_finalize_any_other_status (env : Env) (user : User)
    (_id missing : nat) (summaries : gmap nat Doc) (s : Doc) :
  role user <> employee ->
  summaries !! _id = Some s -> status s <> finalized ->
  validate s = true ->
  summaries !! missing = None ->
  finalize env user missing summaries
  = (reply 404 (Message "Monthly summary not found"), summaries)
  /\ exists s',
       finalize env user _id summaries
       = (reply 200
            (MessageWith "Monthly summary finalized successfully" s'),
          <[_id := s']> summaries)
       /\ status s' = finalized /\ finalizedAt s' = Some (now env)
       /\ paidAt s' = paidAt s /\ summary_key s' = summary_key s
       /\ totalRegularHours s' = totalRegularHours s
       /\ totalOTHours s' = totalOTHours s
       /\ totalVacationHours s' = totalVacationHours s
       /\ totalHolidayHours s' = totalHolidayHours s
       /\ totalPayableAmount s' = totalPayableAmount s
       /\ breakdown s' = breakdown s
       /\ generatedBy s' = generatedBy s.
Proof.
  intros Hrole Hs Hstatus Hvalid Hmissing. unfold finalize.
  rewrite !adminOrManager_pass by done. rewrite Hmissing, Hs.
  split; [done|]. cbn.
  rewrite (bool_decide_eq_false_2 (status s = finalized)) by done. cbn.
  unfold save.
  match goal with
  | |- context [validate ?d] => change (validate d) with (validate s)
  end.
  rewrite Hvalid. cbn.
  eexists. split; [reflexivity|]. by repeat split.
Qed.

Lemma X25_finalize_any_other_status_witness :
  finalize Sample.env boss 9 MoreSample.paid_summaries
  = (reply 404 (Message "Monthly summary not found"),
     MoreSample.paid_summaries)
  /\ exists s',
       finalize Sample.env boss 6 MoreSample.paid_summaries
       = (reply 200
            (MessageWith "Monthly summary finalized successfully" s'),
          <[6%nat := s']> MoreSample.paid_summaries)
       /\ status s' = finalized /\ finalizedAt s' = Some (now Sample.env)
       /\ paidAt s' = paidAt MoreSample.paid_december
       /\ summary_key s' = summary_key MoreSample.paid_december
       /\ totalRegularHours s' = totalRegularHours MoreSample.paid_december
       /\ totalOTHours s' = totalOTHours MoreSample.paid_december
       /\ totalVacationHours s'
          = totalVacationHours MoreSample.paid_december
       /\ totalHolidayHours s' = totalHolidayHours MoreSample.paid_december
       /\ totalPayableAmount s'
          = totalPayableAmount MoreSample.paid_december
       /\ breakdown s' = breakdown MoreSample.paid_december
       /\ generatedBy s' = generatedBy MoreSample.paid_december.
Proof.
  apply (X25_finalize_any_other_status Sample.env boss 6 9
           MoreSample.paid_summaries MoreSample.paid_december);
    [discriminate | vm_compute; reflexivity | discriminate
    | reflexivity | vm_compute; reflexivity].
Defined.

Lemma csv_rows_Some (show : Q -> string) (employees : gmap nat Employee)
    (found : list Doc) (csvContent : string) :
  is_Some (csv_rows show employees found csvContent) <->
  Forall (fun s => is_Some (employees !! employeeId s)) found.
Proof.
  revert csvContent. induction found as [|s rest IH]; intros csvContent;
    cbn [csv_rows].
  - split; [constructor | by eexists].
  - destruct (employees !! employeeId s) as [e|] eqn:He; cbn.
    + rewrite IH. split.
      * intros H. constructor; [by rewrite He | done].
      * intros H. by apply Forall_cons in H as [_ H].
    + split; [by intros [? ?]|]. intros H.
      apply Forall_cons in H as [[? H] _]. congruence.
Qed.

(** X26.  The export of a month, for a manager or an administrator and
    however numbers are written: it is answered 200 exactly when every
    summary of the year and month has its employee record, and 500 when
    one of them has none, a row being written from the fields of the
    record; with no summary of the month the content is the header
    line. *)
Theorem X26_export (show : Q -> string) (user : User) (yearNum monthNum : Z)
    (employees : gmap nat Employee) (summaries : gmap nat Doc) :
  role user <> employee ->
  let result := export show user yearNum monthNum employees summaries in
  (code result = 200%nat <->
     forall i s, summaries !! i = Some s ->
       year s = yearNum -> month s = monthNum ->
       is_Some (employees !! employeeId s))
  /\ (code result <> 200%nat -> result = server_error)
  /\ ((forall i s, summaries !! i = Some s ->
         ~ (year s = yearNum /\ month s = monthNum)) ->
      result = reply 200 (Document csv_header)).
Proof.
  intros Hrole result. subst result. unfold export.
  rewrite adminOrManager_pass by done.
  set (found := map snd (Http.find _ summaries)).
  assert (forall s, In s found <->
            exists i, summaries !! i = Some s
              /\ year s = yearNum /\ month s = monthNum) as Hfound.
  { intros s. subst found. rewrite in_map_iff. split.
    - intros ([i s'] & <- & Hin). apply find_lookup in Hin as [Hi Hf].
      apply andb_prop in Hf as [Hy Hm]. apply Z.eqb_eq in Hy, Hm.
      by exists i.
    - intros (i & Hi & Hy & Hm). exists (i, s). split; [done|].
      apply find_lookup. split; [done|].
      by rewrite Hy, Hm, !Z.eqb_refl. }
  pose proof (csv_rows_Some show employees found csv_header) as Hrows.
  rewrite List.Forall_forall in Hrows.
  split; [|split].
  - destruct (csv_rows show employees found csv_header) as [csv|]; cbn.
    + split; [|done]. intros _ i s Hi Hy Hm.
      apply (proj1 Hrows); [by eexists|]. apply Hfound. by exists i.
    + split; [discriminate|]. intros H.
      destruct (proj2 Hrows) as [? ?]; [|discriminate].
      intros s Hs. apply Hfound in Hs as (i & Hi & Hy & Hm). eauto.
  - by destruct (csv_rows show employees found csv_header).
  - intros Hnone. destruct found as [|s rest]; [done|].
    destruct (proj1 (Hfound s) (or_introl eq_refl)) as (i & Hi & Hy & Hm).
    by destruct (Hnone i s Hi).
Qed.

Lemma X26_export_witness :
  let result :=
    export MoreSample.whole boss 2024 1 Sample.employees Sample.summaries in
  (code result = 200%nat <->
     forall i s, Sample.summaries !! i = Some s ->
       year s = 2024 -> month s = 1 ->
       is_Some (Sample.employees !! employeeId s))
  /\ (code result <> 200%nat -> result = server_error)
  /\ ((forall i s, Sample.summaries !! i = Some s ->
         ~ (year s = 2024 /\ month s = 1)) ->
      result = reply 200 (Document csv_header)).
Proof.
  apply (X26_export MoreSample.whole boss 2024 1 Sample.employees
           Sample.summaries).
  discriminate.
Defined.

End MoreReports.

(** ** The password reset tokens *)

Section Tokens.

Import PasswordResetToken MoreChecks.
Local Open Scope Z_scope.

(** A query that one stored document matches finds that document. *)
Lemma findOne_unique {A} (filter : A -> bool) (coll : gmap nat A)
    (i : nat) (x : A) :
  coll !! i = Some x -> filter x = true ->
  (forall j y, coll !! j = Some y -> filter y = true -> j = i) ->
  findOne filter coll = Some (i, x).
Proof.
  intros Hi Hf Honly.
  destruct (findOne_is_Some filter coll i x Hi Hf) as [[j y] Hfind].
  destruct (findOne_Some _ _ _ _ Hfind) as [Hj Hy].
  assert (j = i) as -> by eauto. congruence.
Qed.

Lemma findOne_none {A} (filter : A -> bool) (coll : gmap nat A) :
  (forall j y, coll !! j = Some y -> filter y = false) ->
  findOne filter coll = None.
Proof.
  intros Hno. destruct (findOne filter coll) as [[j y]|] eqn:Hfind; [|done].
  apply findOne_Some in Hfind as [Hj Hy]. rewrite (Hno j y Hj) in Hy.
  discriminate.
Qed.

Lemma unique_tokens_spec (coll : gmap nat Doc) :
  unique_tokens coll = true <->
  (forall i j a b, coll !! i = Some a -> coll !! j = Some b ->
     token a = token b -> i = j).
Proof. apply unique_by_spec. Qed.

(** X27.  A token that is generated is verified for an hour and no
    longer: when no stored document has the string that was drawn,
    [generateToken] stores a document for the user under a new [_id],
    [verifyToken] of the string finds that document at every time before
    the hour is over and finds nothing from then on, and no two stored
    tokens are the same if none were before. *)
Theorem X27_token_valid_for_an_hour (drawn : string) (userId_ : nat)
    (env : Env) (coll : gmap nat Doc) :
  all_docs (fun x => negb (token x =? drawn)%string) coll = true ->
  exists _id d,
    generateToken drawn userId_ env coll = Some (_id, d, <[_id := d]> coll)
    /\ coll !! _id = None /\ userId d = userId_ /\ token d = drawn
    /\ (forall env', now env' < now env + 3600000 ->
          verifyToken drawn env' (<[_id := d]> coll) = Some (_id, d))
    /\ (forall env', now env + 3600000 <= now env' ->
          verifyToken drawn env' (<[_id := d]> coll) = None)
    /\ (unique_tokens coll = true ->
        unique_tokens (<[_id := d]> coll) = true).
Proof.
  intros Hnew.
  assert (forall j y, coll !! j = Some y -> (token y =? drawn)%string = false)
    as Hno.
  { intros j y Hj. apply negb_true_iff.
    apply (all_docs_lookup _ coll j y Hnew Hj). }
  unfold generateToken.
  rewrite (findOne_none (fun d => (token d =? drawn)%string) coll Hno).
  cbn [bool_decide decide_rel].
  rewrite bool_decide_eq_false_2 by (intros [? ?]; discriminate).
  pose proof (new_id_fresh coll) as Hfresh.
  eexists _, _. split; [reflexivity|].
  split; [done|]. split; [done|]. split; [done|].
  assert (forall j y, <[new_id coll := {| userId := userId_; token := drawn;
                          expiresAt := now env + 3600000; used := false;
                          createdAt := now env |}]> coll !! j = Some y ->
            (token y =? drawn)%string = true -> j = new_id coll) as Honly.
  { intros j y Hj Ht. destruct (decide (j = new_id coll)) as [|Hne]; [done|].
    rewrite lookup_insert_ne in Hj by done.
    rewrite (Hno j y Hj) in Ht. discriminate. }
  split; [|split].
  - intros env' Hnow. unfold verifyToken. apply findOne_unique.
    + apply lookup_insert_eq.
    + cbn. rewrite String.eqb_refl. cbn. by apply Z.ltb_lt.
    + intros j y Hj Hy. apply (Honly j y Hj).
      apply andb_prop in Hy as [Hy _]. by apply andb_prop in Hy as [Hy _].
  - intros env' Hnow. unfold verifyToken. apply findOne_none.
    intros j y Hj. destruct (token y =? drawn)%string eqn:Ht; [|done].
    rewrite (Honly j y Hj Ht), lookup_insert_eq in Hj. injection Hj as <-.
    cbn. apply Z.ltb_ge. done.
  - intros Hu. apply insert_unique_by; [|done]. right. split; [done|].
    intros j x Hj Heq. cbn in Heq.
    assert ((token x =? drawn)%string = true) as Ht by by apply String.eqb_eq.
    rewrite (Hno j x Hj) in Ht. discriminate.
Qed.

Lemma X27_token_valid_for_an_hour_witness :
  exists _id d,
    generateToken "c41d08" 20 Sample.env MoreSample.tokens
    = Some (_id, d, <[_id := d]> MoreSample.tokens)
    /\ MoreSample.tokens !! _id = None /\ userId d = 20%nat
    /\ token d = "c41d08"%string
    /\ (forall env', now env' < now Sample.env + 3600000 ->
          verifyToken "c41d08" env' (<[_id := d]> MoreSample.tokens)
          = Some (_id, d))
    /\ (forall env', now Sample.env + 3600000 <= now env' ->
          verifyToken "c41d08" env' (<[_id := d]> MoreSample.tokens) = None)
    /\ (unique_tokens MoreSample.tokens = true ->
        unique_tokens (<[_id := d]> MoreSample.tokens) = true).
Proof.
  apply (X27_token_valid_for_an_hour "c41d08" 20 Sample.env
           MoreSample.tokens).
  vm_compute. reflexivity.
Defined.

(** X28.  A token is good for one reset: with no two stored tokens the
    same, once the document that [verifyToken] found is marked as used no
    later verification of the token finds anything, the verification of
    every other token is as before, and still no two stored tokens are
    the same. *)
Theorem X28_token_used_once (tok : string) (env : Env)
    (coll : gmap nat Doc) (_id : nat) (d : Doc) :
  unique_tokens coll = true ->
  verifyToken tok env coll = Some (_id, d) ->
  let coll' := markAsUsed _id d coll in
  (forall env', verifyToken tok env' coll' = None)
  /\ (forall tok' env', tok' <> tok ->
        verifyToken tok' env' coll' = verifyToken tok' env' coll)
  /\ unique_tokens coll' = true.
Proof.
  intros Hu Hv coll'. subst coll'. unfold markAsUsed.
  apply findOne_Some in Hv as [Hd Hf].
  apply andb_prop in Hf as [Hf _]. apply andb_prop in Hf as [Ht _].
  apply String.eqb_eq in Ht.
  pose proof (proj1 (unique_tokens_spec coll) Hu) as Huniq.
  set (d' := {| userId := userId d; token := token d;
                expiresAt := expiresAt d; used := true;
                createdAt := createdAt d |}).
  split; [|split].
  - intros env'. unfold verifyToken. apply findOne_none. intros j y Hj.
    destruct (decide (j = _id)) as [->|Hne].
    + rewrite lookup_insert_eq in Hj. injection Hj as <-. cbn.
      by rewrite andb_false_r.
    + rewrite lookup_insert_ne in Hj by done.
      destruct (token y =? tok)%string eqn:Hy; [|done].
      apply String.eqb_eq in Hy.
      destruct Hne. apply (Huniq j _id y d Hj Hd). congruence.
  - intros tok' env' Hne. unfold verifyToken.
    set (filter := fun x : Doc =>
           (token x =? tok')%string && negb (used x)
           && (now env' <? expiresAt x)).
    assert (forall x, token x = tok -> filter x = false) as Hother.
    { intros x Hx. unfold filter.
      rewrite (proj2 (String.eqb_neq (token x) tok')); [done|]. congruence. }
    destruct (findOne filter coll) as [[j y]|] eqn:Hfind.
    + apply findOne_Some in Hfind as [Hj Hy].
      assert (j <> _id) as Hji.
      { intros ->. assert (y = d) as -> by congruence.
        rewrite (Hother d Ht) in Hy. discriminate. }
      apply findOne_unique; [by rewrite lookup_insert_ne | done |].
      intros k z Hk Hz. destruct (decide (k = _id)) as [->|Hki].
      * rewrite lookup_insert_eq in Hk. injection Hk as <-.
        rewrite (Hother d' Ht) in Hz. discriminate.
      * rewrite lookup_insert_ne in Hk by done.
        apply (Huniq k j z y Hk Hj).
        unfold filter in Hz, Hy.
        apply andb_prop in Hz as [Hz _]. apply andb_prop in Hz as [Hz _].
        apply andb_prop in Hy as [Hy _]. apply andb_prop in Hy as [Hy _].
        apply String.eqb_eq in Hz, Hy. congruence.
    + apply findOne_none. intros k z Hk.
      destruct (decide (k = _id)) as [->|Hki].
      * rewrite lookup_insert_eq in Hk. injection Hk as <-.
        by apply Hother.
      * rewrite lookup_insert_ne in Hk by done.
        by apply (findOne_None _ _ Hfind k z).
  - apply insert_unique_by; [|done]. left. by exists d.
Qed.

Lemma X28_token_used_once_witness :
  let coll' :=
    markAsUsed 0
      {| userId := 10; token := MoreSample.drawn;
         expiresAt := now Sample.env + 3600000; used := false;
         createdAt := now Sample.env |} MoreSample.tokens in
  (forall env', verifyToken MoreSample.drawn env' coll' = None)
  /\ (forall tok' env', tok' <> MoreSample.drawn ->
        verifyToken tok' env' coll'
        = verifyToken tok' env' MoreSample.tokens)
  /\ unique_tokens coll' = true.
Proof.
  apply (X28_token_used_once MoreSample.drawn Sample.env MoreSample.tokens 0
           {| userId := 10; token := MoreSample.drawn;
              expiresAt := now Sample.env + 3600000; used := false;
              createdAt := now Sample.env |});
    vm_compute; reflexivity.
Defined.

End Tokens.

(** ** The months of the timesheets *)

Section Months.

Import ReportRoutes MoreChecks.
Local Open Scope Z_scope.

Lemma month_timesheets_In env eid y m ts t :
  In t (month_timesheets env eid y m ts) <->
  exists i, ts !! i = Some t /\ DailyTimesheet.employeeId t = eid
    /\ month_start (y, m) - localTZA env <= DailyTimesheet.date t
       <= month_end (y, m) - localTZA env.
Proof.
  unfold month_timesheets, month_start, month_end, Js.new_Date.
  cbn [fst snd]. rewrite in_map_iff. split.
  - intros ([i t'] & <- & H). apply find_lookup in H as [H Hf].
    apply andb_prop in Hf as [Hf Hle]. apply andb_prop in Hf as [He Hge].
    apply bool_decide_eq_true in He. apply Z.leb_le in Hle, Hge.
    exists i. cbn [snd]. split; [done|]. split; [done|]. lia.
  - intros (i & Hi & He & Hge & Hle). exists (i, t). split; [done|].
    apply find_lookup. split; [done|].
    rewrite (bool_decide_eq_true_2 _ He). cbn [andb].
    apply andb_true_intro. split; apply Z.leb_le; lia.
Qed.

Lemma months_In (y m : Z) :
  2020 <= y <= 2030 -> 1 <= m <= 12 -> In (y, m) months.
Proof.
  intros Hy Hm. unfold months. apply in_prod; apply list_elem_of_In;
    apply elem_of_seqZ; lia.
Qed.

Lemma months_apart :
  forallb (fun ab => apart ab.1 ab.2) (list_prod months months) = true.
Proof. vm_compute. reflexivity. Qed.

Lemma months_second_after :
  forallb (fun ab => second_after ab.1 ab.2) (list_prod months months) = true.
Proof. vm_compute. reflexivity. Qed.

(** X29.  No timesheet is read for two months: for years from 2020 to
    2030 and months from 1 to 12, which are those a generation accepts,
    and for any fixed offset of the time zone, a timesheet among those
    read for an employee, a year and a month is among those read for no
    other year or month. *)
Theorem X29_months_do_not_overlap (env : Env) (eid : nat) (y m : Z)
    (timesheets : gmap nat DailyTimesheet.Doc) (t : DailyTimesheet.Doc) :
  2020 <= y <= 2030 -> 1 <= m <= 12 ->
  In t (month_timesheets env eid y m timesheets) ->
  forall eid' y' m', 2020 <= y' <= 2030 -> 1 <= m' <= 12 ->
    (y', m') <> (y, m) ->
    ~ In t (month_timesheets env eid' y' m' timesheets).
Proof.
  intros Hy Hm Hin eid' y' m' Hy' Hm' Hne Hin'.
  apply month_timesheets_In in Hin as (i & Hi & He & Hrange).
  apply month_timesheets_In in Hin' as (i' & Hi' & He' & Hrange').
  pose proof months_apart as Hall. rewrite forallb_forall in Hall.
  specialize (Hall ((y, m), (y', m'))). cbn [fst snd] in Hall.
  unfold apart in Hall.
  rewrite in_prod_iff in Hall.
  specialize (Hall (conj (months_In y m Hy Hm) (months_In y' m' Hy' Hm'))).
  apply orb_prop in Hall as [Hall | Hlt].
  - apply orb_prop in Hall as [Heq | Hlt].
    + apply bool_decide_eq_true in Heq. congruence.
    + apply Z.ltb_lt in Hlt. lia.
  - apply Z.ltb_lt in Hlt. lia.
Qed.

Lemma X29_months_do_not_overlap_witness :
  In (timesheet jan15 1 "09:00" "17:00" 0 8 0 false false
        DailyTimesheet.approved)
    (month_timesheets Sample.env 1 2024 1 Sample.timesheets)
  /\ forall eid' y' m', 2020 <= y' <= 2030 -> 1 <= m' <= 12 ->
       (y', m') <> (2024, 1) ->
       ~ In (timesheet jan15 1 "09:00" "17:00" 0 8 0 false false
               DailyTimesheet.approved)
           (month_timesheets Sample.env eid' y' m' Sample.timesheets).
Proof.
  split; [vm_compute; auto|].
  apply (X29_months_do_not_overlap Sample.env 1 2024 1 Sample.timesheets);
    [lia | lia | vm_compute; auto].
Defined.

(** X30.  The range of a month ends at 23:59:59 of its last day, so the
    rest of that second belongs to no month: a stored timesheet dated
    after the end of the range of a month and less than a second after it
    is read for no employee in no year from 2020 to 2030 and no month
    from 1 to 12, and so counts in no summary. *)
Theorem X30_last_second_of_a_month (env : Env) (y m : Z)
    (timesheets : gmap nat DailyTimesheet.Doc) (t : DailyTimesheet.Doc) :
  2020 <= y <= 2030 -> 1 <= m <= 12 ->
  Js.new_Date (localTZA env) y m 0 23 59 59 < DailyTimesheet.date t
    < Js.new_Date (localTZA env) y m 0 23 59 59 + 1000 ->
  forall eid y' m', 2020 <= y' <= 2030 -> 1 <= m' <= 12 ->
    ~ In t (month_timesheets env eid y' m' timesheets).
Proof.
  intros Hy Hm Hdate eid y' m' Hy' Hm' Hin.
  apply month_timesheets_In in Hin as (i & Hi & He & Hrange).
  pose proof months_second_after as Hall. rewrite forallb_forall in Hall.
  specialize (Hall ((y, m), (y', m'))). cbn [fst snd] in Hall.
  unfold second_after in Hall.
  rewrite in_prod_iff in Hall.
  specialize (Hall (conj (months_In y m Hy Hm) (months_In y' m' Hy' Hm'))).
  assert (Js.new_Date (localTZA env) y m 0 23 59 59
          = month_end (y, m) - localTZA env) as Hend.
  { unfold month_end, Js.new_Date. cbn [fst snd]. lia. }
  rewrite Hend in Hdate.
  apply orb_prop in Hall as [Hle | Hle]; apply Z.leb_le in Hle; lia.
Qed.

Lemma X30_last_second_of_a_month_witness :
  Js.new_Date (localTZA Sample.env) 2023 12 0 23 59 59
    < DailyTimesheet.date MoreSample.new_year
    < Js.new_Date (localTZA Sample.env) 2023 12 0 23 59 59 + 1000
  /\ forall eid y' m', 2020 <= y' <= 2030 -> 1 <= m' <= 12 ->
       ~ In MoreSample.new_year
           (month_timesheets Sample.env eid y' m'
              {[ 0%nat := MoreSample.new_year ]}).
Proof.
  split; [vm_compute; split; reflexivity|].
  apply (X30_last_second_of_a_month Sample.env 2023 12
           {[ 0%nat := MoreSample.new_year ]} MoreSample.new_year);
    [lia | lia | vm_compute; split; reflexivity].
Defined.

End Months.
